(** * Agnost analytics SDKs: telemetry capture and delivery

    A shallow embedding of the TypeScript SDK (session manager, event
    recorder, request queue, analytics client, MCP utilities) and of the Go
    SDK (session manager, event processor, tool-handler adapter), followed by
    the properties established about them.

    Conventions.
    - JavaScript values are finite trees ([JsVal]); numbers are integers.
    - An [async] function is cut at its [await]s.  Where one logical call runs
      alone, its segments are composed in order; where several calls overlap,
      the segments are the atomic steps of an interleaving semantics.
    - Calls to the logger at warning and error level are recorded in the
      order they are made; whether a line is printed depends on the log
      level and is not modelled.
    - The collector, the clock, the UUID source and the caller-supplied
      identify function are oracles. *)

From Stdlib Require Import ZArith Lia String Ascii.
From stdpp Require Import gmap strings list pretty.

Set Warnings "-register-all".
Open Scope string_scope.

(* ================================================================== *)
(** ** JavaScript values *)
(* ================================================================== *)

Module Js.

(** A value of the host language.  [JObj] lists its own enumerable
    properties in the order the engine enumerates them; [JError] is an
    instance of [Error] with the given [message].  Functions, symbols and
    cyclic structures are not represented. *)
Inductive JsVal : Type :=
| JUndefined
| JNull
| JBool (b : bool)
| JNum (n : Z)
| JStr (s : string)
| JArr (items : list JsVal)
| JObj (props : list (string * JsVal))
| JError (message : string).

(** Normal completion or a thrown value. *)
Inductive Outcome (A : Type) : Type :=
| Ret (a : A)
| Throw (e : JsVal).
Arguments Ret {A} a.
Arguments Throw {A} e.

(** Truthiness ([if (v)], [!v], [a && b], [a || b]). *)
Definition truthy (v : JsVal) : bool :=
  match v with
  | JUndefined | JNull => false
  | JBool b => b
  | JNum n => negb (Z.eqb n 0)
  | JStr s => negb (String.eqb s "")
  | JArr _ | JObj _ | JError _ => true
  end.

(** [typeof v === "object"] ([null] included, as in the language). *)
Definition typeof_object (v : JsVal) : bool :=
  match v with
  | JNull | JArr _ | JObj _ | JError _ => true
  | _ => false
  end.

Definition typeof_string (v : JsVal) : bool :=
  match v with JStr _ => true | _ => false end.

Definition is_array (v : JsVal) : bool :=
  match v with JArr _ => true | _ => false end.

Definition is_undefined (v : JsVal) : bool :=
  match v with JUndefined => true | _ => false end.

Definition is_nullish (v : JsVal) : bool :=
  match v with JUndefined | JNull => true | _ => false end.

Fixpoint assoc (k : string) (props : list (string * JsVal)) : option JsVal :=
  match props with
  | [] => None
  | (k', v) :: rest => if String.eqb k k' then Some v else assoc k rest
  end.

(** [p in v] for a [v] whose [typeof] is "object".  The program only asks
    for names that neither [Object.prototype], [Array.prototype] nor
    [Error.prototype] defines, so inherited properties play no role. *)
Definition has_property (v : JsVal) (p : string) : bool :=
  match v with
  | JObj props => bool_decide (is_Some (assoc p props))
  | JArr _ => String.eqb p "length"
  | JError _ => String.eqb p "message"
  | _ => false
  end.

(** [v.p] for a [v] that is neither [null] nor [undefined]. *)
Definition get (v : JsVal) (p : string) : JsVal :=
  match v with
  | JObj props => default JUndefined (assoc p props)
  | JArr items => if String.eqb p "length" then JNum (Z.of_nat (List.length items)) else JUndefined
  | JStr s => if String.eqb p "length" then JNum (Z.of_nat (String.length s)) else JUndefined
  | JError m => if String.eqb p "message" then JStr m else JUndefined
  | _ => JUndefined
  end.

(** [v?.p]. *)
Definition get_opt (v : JsVal) (p : string) : JsVal :=
  if is_nullish v then JUndefined else get v p.

(** [a || b] and [a && b] on values. *)
Definition js_or (a b : JsVal) : JsVal := if truthy a then a else b.

(** [v === "s"]. *)
Definition is_string_lit (v : JsVal) (s : string) : bool :=
  match v with JStr s' => String.eqb s' s | _ => false end.



(** The outcome of an operation of the runtime that can raise a
    [TypeError]: its value, or the message of the error. *)
Inductive Attempt (A : Type) : Type :=
| Value (a : A)
| TypeError (message : string).
Arguments Value {A} a.
Arguments TypeError {A} message.

(** The object at which the conversion of [v] to a string fails, if it
    fails.  A plain object is converted by its [toString] method, which is
    the inherited one unless the object has a property of that name of its
    own; no value of the model is a function, so such a property cannot be
    called, [valueOf] gives the object back, and the conversion raises a
    [TypeError].  An array is converted by joining the conversions of its
    elements, [null] and [undefined] counting as the empty string. *)
Fixpoint unconvertible (v : JsVal) : option JsVal :=
  match v with
  | JObj props => if bool_decide (is_Some (assoc "toString" props)) then Some v else None
  | JArr items =>
      (fix first (l : list JsVal) : option JsVal :=
         match l with
         | [] => None
         | item :: rest =>
             match (if is_nullish item then None else unconvertible item) with
             | Some o => Some o
             | None => first rest
             end
         end) items
  | _ => None
  end.

(** The runtime's own functions, left uninterpreted: [String(v)] for a
    value it converts, [JSON.stringify(v)] ([None] when it evaluates to
    [undefined]; it does not throw on finite trees), [s.trim()], [s[0]]
    for a string that is not empty, and the messages of the [TypeError]s
    raised by [for ... of] over a value that is not iterable, by reading
    the named property of [null] and of [undefined], and by converting
    an object that has no primitive value. *)
Class Runtime := {
  js_String : JsVal -> string;
  JSON_stringify : JsVal -> option string;
  js_trim : string -> string;
  first_unit : string -> string;
  not_iterable_message : JsVal -> string;
  null_property_message : string -> string;
  undefined_property_message : string -> string;
  cannot_convert_message : JsVal -> string;
}.

(** The value of an expression [JSON.stringify(v)]. *)
Definition stringify_val `{Runtime} (v : JsVal) : JsVal :=
  match JSON_stringify v with Some s => JStr s | None => JUndefined end.

(** [String(v)], and likewise [v] inside a template literal or
    concatenated to a string. *)
Definition to_String `{Runtime} (v : JsVal) : Attempt string :=
  match unconvertible v with
  | Some o => TypeError (cannot_convert_message o)
  | None => Value (js_String v)
  end.

(** [error instanceof Error ? error.message : String(error)]. *)
Definition error_text `{Runtime} (e : JsVal) : Attempt string :=
  match e with
  | JError m => Value m
  | _ => to_String e
  end.

(** The message of the [TypeError] raised by reading the property [p] of
    [v], which is [null] or [undefined]. *)
Definition nullish_property_message `{Runtime} (v : JsVal) (p : string) : string :=
  match v with
  | JUndefined => undefined_property_message p
  | _ => null_property_message p
  end.

End Js.
Export Js.

(* ================================================================== *)
(** ** Logger (performance/logger.ts) *)
(* ================================================================== *)

(** Calls of [logger.warning] and [logger.error], in the order they are
    made.  Lines at debug and info level are not recorded. *)
Inductive LogLevel := LWarning | LError.

Definition LogEntry : Type := LogLevel * string.

Definition is_warning (e : LogEntry) : bool :=
  match fst e with LWarning => true | LError => false end.

Definition is_error (e : LogEntry) : bool :=
  match fst e with LError => true | LWarning => false end.

(* ================================================================== *)
(** ** MCP utilities (core/mcp-utils.ts) *)
(* ================================================================== *)

Module McpUtils.
Section WithRuntime.
Context `{Runtime}.

(** [hasattr(obj, prop)]: [obj && typeof obj === "object" && prop in obj]. *)
Definition hasattr (obj : JsVal) (prop : string) : bool :=
  truthy obj && typeof_object obj && has_property obj prop.

(** The body of the loop over content items: the first item that makes
    the loop return decides, by the conversion of its text to a string. *)
Fixpoint scan_content (items : list JsVal) : option (Attempt string) :=
  match items with
  | [] => None
  | contentItem :: rest =>
      if hasattr contentItem "text" then
        Some (to_String (get contentItem "text"))
      else if hasattr contentItem "type" && hasattr contentItem "content" then
        if is_string_lit (get contentItem "type") "text" then
          Some (to_String (get contentItem "content"))
        else scan_content rest
      else scan_content rest
  end.

(** The [response.root] branch; [None] when it falls through to the checks
    on [response] itself.  Arrays and strings are the iterable values of
    the model.  The loop over a string visits strings, for which [hasattr]
    is false, so it does nothing and [String(result.content[0])] is the
    first code unit of the string. *)
Definition check_root (response : JsVal) : Attempt (option (bool * JsVal)) :=
  if hasattr response "root" then
    let result := get response "root" in
    if hasattr result "isError" && truthy (get result "isError") then
      if hasattr result "content" && truthy (get result "content") then
        let content := get result "content" in
        match content with
        | JArr items =>
            match scan_content items with
            | Some (Value text) => Value (Some (true, JStr text))
            | Some (TypeError message) => TypeError message
            | None =>
                match items with
                | first :: _ =>
                    match to_String first with
                    | Value text => Value (Some (true, JStr text))
                    | TypeError message => TypeError message
                    end
                | [] => Value (Some (true, JStr "Unknown error"))
                end
            end
        | JStr s => Value (Some (true, JStr (first_unit s)))
        | _ => TypeError (not_iterable_message content)
        end
      else Value (Some (true, JStr "Unknown error"))
    else Value None
  else Value None.

(** The checks on [response] itself. *)
Definition check_direct (response : JsVal) : Attempt (bool * JsVal) :=
  if hasattr response "isError" && truthy (get response "isError") then
    let fallback :=
      Value (true, js_or (get response "message")
                         (js_or (get response "error") (JStr "Unknown error"))) in
    match (if hasattr response "content" then get response "content" else JUndefined) with
    | JArr items =>
        match scan_content items with
        | Some (Value text) => Value (true, JStr text)
        | Some (TypeError message) => TypeError message
        | None =>
            match items with
            | firstItem :: _ =>
                if typeof_string firstItem then Value (true, firstItem)
                else if typeof_object firstItem then Value (true, stringify_val firstItem)
                else fallback
            | [] => fallback
            end
        end
    | _ => fallback
    end
  else
    match response with
    | JError m => Value (true, JStr m)
    | _ => Value (false, JStr "")
    end.

(** The [catch] block of [isMcpErrorResponse].  What the [try] block
    throws is a [TypeError], an instance of [Error]: its message is
    taken. *)
Definition check_failed (message : string) : (bool * JsVal) * list LogEntry :=
  let text := "Error checking response: " ++ message in
  ((false, JStr text), [(LWarning, text)]).

(** [isMcpErrorResponse(response)]: the pair [isError, errorMessage] and
    the warning logged when the check itself throws. *)
Definition isMcpErrorResponse (response : JsVal) : (bool * JsVal) * list LogEntry :=
  match check_root response with
  | Value (Some r) => (r, [])
  | Value None =>
      match check_direct response with
      | Value r => (r, [])
      | TypeError message => check_failed message
      end
  | TypeError message => check_failed message
  end.

(** Own enumerable property names visited by [for (const key in arg)],
    paired with [arg[key]]. *)
Definition enumerate (arg : JsVal) : list (string * JsVal) :=
  match arg with
  | JObj props => props
  | JArr items => imap (fun i v => (pretty i, v)) items
  | _ => []
  end.

(** [arg.hasOwnProperty] resolves to the inherited method unless the object
    has a property of that name of its own, which (no value of the model
    being a function) cannot be called. *)
Definition shadows_hasOwnProperty (arg : JsVal) : bool :=
  match arg with
  | JObj props => bool_decide (is_Some (assoc "hasOwnProperty" props))
  | _ => false
  end.

Definition keep_key (key : string) : bool :=
  negb (String.eqb key "org_id") && negb (String.eqb key "orgId").

(** [filtered[key] = arg[key]] stores a property for every key but
    [__proto__]. *)
Definition stored_key (key : string) : bool := negb (String.eqb key "__proto__").

(** One argument of [filterSensitiveArgs].  The call of [hasOwnProperty]
    is reached for the first key that is neither [org_id] nor [orgId].
    The result lists the properties [filtered] has of its own.  An
    assignment to the key [__proto__] stores none: it makes the value the
    prototype of [filtered] when that value is an object or [null], which
    the result does not show. *)
Definition filter_arg (arg : JsVal) : Outcome JsVal :=
  if typeof_object arg && negb (is_nullish arg) then
    if shadows_hasOwnProperty arg && existsb (fun kv => keep_key (fst kv)) (enumerate arg)
    then Throw (JError "arg.hasOwnProperty is not a function")
    else Ret (JObj (filter (fun kv => keep_key (fst kv) && stored_key (fst kv) = true)
                           (enumerate arg)))
  else Ret arg.

(** [filterSensitiveArgs(args)]: [args.map(...)], stopping at the first
    throw. *)
Fixpoint filterSensitiveArgs (args : list JsVal) : Outcome (list JsVal) :=
  match args with
  | [] => Ret []
  | arg :: rest =>
      match filter_arg arg with
      | Throw e => Throw e
      | Ret a =>
          match filterSensitiveArgs rest with
          | Throw e => Throw e
          | Ret r => Ret (a :: r)
          end
      end
  end.

End WithRuntime.
End McpUtils.

(* ================================================================== *)
(** ** TypeScript SDK *)
(* ================================================================== *)

Module TS.

(** *** Data (types/data.ts, types/config.ts) *)

(** [user_data] and [tools] are optional properties: [None] when the
    object has none. *)
Record SessionData := mkSessionData {
  session_id : string;
  client_config : string;
  connection_type : string;
  ip : string;
  user_data : option JsVal;
  tools : option (list string);
}.

(** [args] and [result] hold what the assignments in [recordEvent] store:
    a string, or [None] where [JSON.stringify] evaluates to [undefined]. *)
Record EventData := mkEventData {
  org_id : string;
  ev_session_id : string;
  primitive_type : string;
  primitive_name : string;
  latency : Z;
  success : bool;
  args : option string;
  result : option string;
}.

(** The identify function applied to the request context ([process.env] is
    fixed for the process): the value its promise resolves to, or what it
    throws or rejects with. *)
Definition IdentifyFunction : Type := JsVal -> Outcome JsVal.

Record AgnostConfig := mkConfig {
  endpoint : string;
  disableInput : bool;
  disableOutput : bool;
  enableRequestQueuing : option bool;
  batchSize : option Z;
  maxRetries : option Z;
  retryDelay : option Z;
  requestTimeout : option Z;
  identify : option IdentifyFunction;
}.

(** *** Object pools (performance/object-pool.ts) *)

Module ObjectPool.
Section Pool.
Context {T : Type}.

Definition maxSize : nat := 10.

(** The pool is a stack; its top is the head of the list. *)
Definition get (createFn : T) (resetFn : T -> T) (pool : list T) : T * list T :=
  match pool with
  | pooled :: rest => (resetFn pooled, rest)
  | [] => (createFn, [])
  end.

Definition return_ (obj : T) (pool : list T) : list T :=
  if decide (List.length pool < maxSize)%nat then obj :: pool else pool.

End Pool.
End ObjectPool.

Record DataObjectPools := mkPools {
  sessionDataPool : list SessionData;
  eventDataPool : list EventData;
}.

Definition createSessionData : SessionData := mkSessionData "" "" "" "" None None.

(** The reset function of the session pool clears the four required
    fields only. *)
Definition resetSessionData (obj : SessionData) : SessionData :=
  mkSessionData "" "" "" "" (user_data obj) (tools obj).

Definition createEventData : EventData := mkEventData "" "" "" "" 0 true (Some "") (Some "").

Definition resetEventData (obj : EventData) : EventData := createEventData.

Definition getSessionData (p : DataObjectPools) : SessionData * DataObjectPools :=
  let '(obj, rest) := ObjectPool.get createSessionData resetSessionData (sessionDataPool p) in
  (obj, mkPools rest (eventDataPool p)).

Definition returnSessionData (obj : SessionData) (p : DataObjectPools) : DataObjectPools :=
  mkPools (ObjectPool.return_ obj (sessionDataPool p)) (eventDataPool p).

Definition getEventData (p : DataObjectPools) : EventData * DataObjectPools :=
  let '(obj, rest) := ObjectPool.get createEventData resetEventData (eventDataPool p) in
  (obj, mkPools (sessionDataPool p) rest).

Definition returnEventData (obj : EventData) (p : DataObjectPools) : DataObjectPools :=
  mkPools (sessionDataPool p) (ObjectPool.return_ obj (eventDataPool p)).

Definition clearPools (p : DataObjectPools) : DataObjectPools := mkPools [] [].

(** *** HTTP client (network/http-client.ts) *)

(** What the collector does with a request: no response at all (network
    error, timeout), or a response with a status code. *)
Inductive HttpReply :=
| NetworkError (message : string)
| Status (code : Z).

(** [axios.post] resolves for a 2xx status and rejects otherwise (its
    default [validateStatus]). *)
Definition axios_resolves (r : HttpReply) : bool :=
  match r with
  | Status code => (200 <=? code)%Z && (code <? 300)%Z
  | NetworkError _ => false
  end.

(** The message of the [Error] a rejected [axios.post] carries.  The
    [catch] blocks that receive it test [error instanceof Error], which
    holds, and log [error.message]. *)
Definition axios_error_message (r : HttpReply) : string :=
  match r with
  | NetworkError m => m
  | Status code => "Request failed with status code " ++ pretty code
  end.

Record AnalyticsHttpClient := mkHttpClient {
  baseUrl : string;
  orgId : string;
}.

(** [baseUrl.replace(/\/$/, '')]. *)
Fixpoint strip_trailing_slash (s : string) : string :=
  match s with
  | EmptyString => EmptyString
  | String c EmptyString => if Ascii.eqb c "/" then EmptyString else s
  | String c rest => String c (strip_trailing_slash rest)
  end.

Definition newHttpClient (baseUrl orgId : string) : AnalyticsHttpClient :=
  mkHttpClient (strip_trailing_slash baseUrl) orgId.

(** A request handed to [axios.post]: URL, the [X-Org-Id] header, body. *)
Inductive Posted :=
| PostSession (url xOrgId : string) (body : SessionData)
| PostEvent (url xOrgId : string) (body : EventData).

(** *** Oracles *)

(** [uuidv4 n] is the [n]-th identifier the UUID source hands out;
    [collector n] is what happens to the [n]-th request posted. *)
Class Env := {
  uuidv4 : nat -> string;
  collector : nat -> HttpReply;
}.

(** Effects shared by all components. *)
Record IO := mkIO {
  log : list LogEntry;
  posted : list Posted;
  uuids_drawn : nat;
}.

Definition logger (level : LogLevel) (message : string) (io : IO) : IO :=
  mkIO (log io ++ [(level, message)]) (posted io) (uuids_drawn io).

Definition logger_all (entries : list LogEntry) (io : IO) : IO :=
  mkIO (log io ++ entries) (posted io) (uuids_drawn io).

(** Hands a request to [axios.post]; its index identifies the reply. *)
Definition post (p : Posted) (io : IO) : nat * IO :=
  (List.length (posted io), mkIO (log io) (posted io ++ [p]) (uuids_drawn io)).

Definition draw_uuid `{Env} (io : IO) : string * IO :=
  (uuidv4 (uuids_drawn io), mkIO (log io) (posted io) (S (uuids_drawn io))).

(** [sendSession] and [sendEvent] up to the call of [axios.post]. *)
Definition sendSession_post (c : AnalyticsHttpClient) (d : SessionData) (io : IO) : nat * IO :=
  post (PostSession (baseUrl c ++ "/api/v1/capture-session") (orgId c) d) io.

Definition sendEvent_post (c : AnalyticsHttpClient) (d : EventData) (io : IO) : nat * IO :=
  post (PostEvent (baseUrl c ++ "/api/v1/capture-event") (orgId c) d) io.

(** *** The host server, as the SDK sees it *)

(** What the introspection helpers of the session manager compute for a
    server: the key [getSessionKey] derives (and caches per server), the
    name [extractClientName] finds, and the tool names [extractTools]
    returns together with the lines it logs.  The servers covered are
    those for which the three are strings, as the protocol types them,
    and for which [extractTools] returns ([Introspection.extractTools]
    below says when it does). *)
Record ServerView := mkServerView {
  sv_sessionKey : string;
  sv_clientName : string;
  sv_tools : list string;
  sv_tools_log : list LogEntry;
}.

(** *** Session manager (session/session-manager.ts) *)

(** [sessionIds] is the key-to-id cache, a plain object: the map lists
    the properties it has of its own.  A lookup in the map is the lookup
    in the object for the keys that are not [inherited]; for the others
    [sessionKey in this.sessionIds] holds and [this.sessionIds[sessionKey]]
    is a member of [Object.prototype], which is no string.  [cachedUser]
    is [JUndefined] while nothing is cached. *)
Record SessionManager := mkSessionManager {
  sessionIds : gmap string string;
  identifyFn : option IdentifyFunction;
  requestContext : JsVal;
  cachedUser : JsVal;
}.

Definition newSessionManager (identifyFn : option IdentifyFunction) (requestContext : JsVal)
  : SessionManager :=
  mkSessionManager ∅ identifyFn requestContext JUndefined.

Definition set_cachedUser (u : JsVal) (m : SessionManager) : SessionManager :=
  mkSessionManager (sessionIds m) (identifyFn m) (requestContext m) u.

Definition set_sessionId (key id : string) (m : SessionManager) : SessionManager :=
  mkSessionManager (<[key := id]> (sessionIds m)) (identifyFn m) (requestContext m) (cachedUser m).

Definition set_requestContext (ctx : JsVal) (m : SessionManager) : SessionManager :=
  mkSessionManager (sessionIds m) (identifyFn m) ctx (cachedUser m).

(** [clear()]. *)
Definition clearSessions (m : SessionManager) : SessionManager :=
  mkSessionManager ∅ (identifyFn m) (requestContext m) JUndefined.

(** [getSessionId(sessionKey)] and [hasSession(sessionKey)], for a key
    that is not [inherited] (see [SessionManager]); [None] is
    [undefined]. *)
Definition getSessionId (m : SessionManager) (sessionKey : string) : option string :=
  sessionIds m !! sessionKey.

Definition hasSession (m : SessionManager) (sessionKey : string) : bool :=
  bool_decide (is_Some (sessionIds m !! sessionKey)).

(** The objects a session-manager method reads and writes. *)
Record SmState := mkSm {
  sm_io : IO;
  sm_self : SessionManager;
  sm_pools : DataObjectPools;
}.

Definition sm_log (level : LogLevel) (message : string) (st : SmState) : SmState :=
  mkSm (logger level message (sm_io st)) (sm_self st) (sm_pools st).

Section WithOracles.
Context `{Runtime} `{Env}.

(** [identifyUser()] up to its [await]: the value it returns without
    calling the identify function, or the promise of the call. *)
Inductive IdentifyPending :=
| IdResolved (v : JsVal)
| IdCalled (r : Outcome JsVal).

Definition identifyUser_call (m : SessionManager) : IdentifyPending :=
  match identifyFn m with
  | None => IdResolved JNull
  | Some f =>
      if negb (is_undefined (cachedUser m)) then IdResolved (cachedUser m)
      else IdCalled (f (requestContext m))
  end.

(** [identifyUser()] from its [await] on: the value its promise resolves
    to, or the [TypeError] it rejects with, which is the one the [catch]
    block raises when it converts what the identify function threw. *)
Definition identifyUser_resume (p : IdentifyPending) (st : SmState)
  : Attempt JsVal * SmState :=
  match p with
  | IdResolved v => (Value v, st)
  | IdCalled (Ret result) =>
      if truthy result && negb (truthy (get result "userId")) then
        let st1 := sm_log LWarning "User identity missing required userId field" st in
        (Value JNull, mkSm (sm_io st1) (set_cachedUser JNull (sm_self st1)) (sm_pools st1))
      else
        (Value result, mkSm (sm_io st) (set_cachedUser result (sm_self st)) (sm_pools st))
  | IdCalled (Throw error) =>
      match error_text error with
      | Value text =>
          let st1 := sm_log LWarning ("User identification failed: " ++ text) st in
          (Value JNull, mkSm (sm_io st1) (set_cachedUser JNull (sm_self st1)) (sm_pools st1))
      | TypeError message => (TypeError message, st)
      end
  end.

(** [identifyUser()] run alone. *)
Definition identifyUser (st : SmState) : Attempt JsVal * SmState :=
  identifyUser_resume (identifyUser_call (sm_self st)) st.

(** One call [startSession(server, sessionKey, returnDummySession)]. *)
Record StartCall := mkStartCall {
  sc_server : ServerView;
  sc_sessionKey : string;
  sc_dummy : bool;
}.

(** Where a call of [startSession] (or of [createDummySession], which it
    tail-calls) is suspended. *)
Inductive StartPc :=
| PcIdentify (newSessionId clientName : string) (p : IdentifyPending)
| PcTools (newSessionId clientName : string) (userIdentity : JsVal)
| PcPost (newSessionId : string) (sessionData : SessionData) (userIdentity : JsVal)
         (request : nat)
| PcDone (ret : string).

(** [sessionData.user_data = userIdentity] under [if (userIdentity)]. *)
Definition attach_user (userIdentity : JsVal) (d : SessionData) : SessionData :=
  if truthy userIdentity then
    mkSessionData (session_id d) (client_config d) (connection_type d) (ip d)
                  (Some userIdentity) (tools d)
  else d.

(** [sessionData.tools = tools] under [if (tools.length > 0)]. *)
Definition attach_tools (ts : list string) (d : SessionData) : SessionData :=
  match ts with
  | [] => d
  | _ :: _ =>
      mkSessionData (session_id d) (client_config d) (connection_type d) (ip d)
                    (user_data d) (Some ts)
  end.

Definition fill_session (newSessionId clientName : string) (d : SessionData) : SessionData :=
  mkSessionData newSessionId clientName "" "" (user_data d) (tools d).

(** Takes a record from the pool, fills it and posts it. *)
Definition build_and_post (c : AnalyticsHttpClient) (newSessionId clientName : string)
    (userIdentity : JsVal) (ts : list string) (st : SmState) : StartPc * SmState :=
  let '(obj, pools1) := getSessionData (sm_pools st) in
  let sessionData := attach_tools ts (attach_user userIdentity (fill_session newSessionId clientName obj)) in
  let '(n, io1) := sendSession_post c sessionData (sm_io st) in
  (PcPost newSessionId sessionData userIdentity n, mkSm io1 (sm_self st) pools1).

(** The [catch] blocks of [startSession] and [createDummySession].  What
    their [try] blocks throw is an instance of [Error] (the rejection of
    [axios.post], or a [TypeError]): its message is logged. *)
Definition start_failed (dummy : bool) (message : string) (st : SmState) : StartPc * SmState :=
  if dummy then (PcDone "", sm_log LError ("Failed to start dummy session: " ++ message) st)
  else (PcDone "", sm_log LWarning ("Failed to start session: " ++ message) st).

(** The text [createDummySession] builds for its info line once the
    request is accepted: [' with user: ' + userIdentity.userId] under
    [userIdentity ?]. *)
Definition dummy_info_line (userIdentity : JsVal) : Attempt string :=
  if truthy userIdentity then to_String (get userIdentity "userId") else Value "".

(** From the call to the first [await].  The test
    [sessionKey in this.sessionIds] is the lookup in the map for a key
    that is not [inherited] (see [SessionManager]); a dummy session does
    not look at the key. *)
Definition startSession_enter (call : StartCall) (st : SmState) : StartPc * SmState :=
  if sc_dummy call then
    let '(newSessionId, io1) := draw_uuid (sm_io st) in
    (PcIdentify newSessionId "unidentified_client" (identifyUser_call (sm_self st)),
     mkSm io1 (sm_self st) (sm_pools st))
  else
    match sessionIds (sm_self st) !! sc_sessionKey call with
    | Some sessionId => (PcDone sessionId, st)
    | None =>
        let '(newSessionId, io1) := draw_uuid (sm_io st) in
        (PcIdentify newSessionId (sv_clientName (sc_server call)) (identifyUser_call (sm_self st)),
         mkSm io1 (sm_self st) (sm_pools st))
    end.

(** From one [await] to the next, or to the [return]. *)
Definition startSession_resume (c : AnalyticsHttpClient) (call : StartCall)
    (pc : StartPc) (st : SmState) : StartPc * SmState :=
  match pc with
  | PcIdentify newSessionId clientName p =>
      match identifyUser_resume p st with
      | (Value userIdentity, st1) =>
          if sc_dummy call then build_and_post c newSessionId clientName userIdentity [] st1
          else (PcTools newSessionId clientName userIdentity, st1)
      | (TypeError message, st1) => start_failed (sc_dummy call) message st1
      end
  | PcTools newSessionId clientName userIdentity =>
      let st1 := mkSm (logger_all (sv_tools_log (sc_server call)) (sm_io st)) (sm_self st) (sm_pools st) in
      build_and_post c newSessionId clientName userIdentity (sv_tools (sc_server call)) st1
  | PcPost newSessionId sessionData userIdentity n =>
      let reply := collector n in
      if axios_resolves reply then
        if sc_dummy call then
          match dummy_info_line userIdentity with
          | Value _ =>
              (PcDone newSessionId,
               mkSm (sm_io st) (sm_self st) (returnSessionData sessionData (sm_pools st)))
          | TypeError message => start_failed true message st
          end
        else
          (PcDone newSessionId,
           mkSm (sm_io st) (set_sessionId (sc_sessionKey call) newSessionId (sm_self st))
                (returnSessionData sessionData (sm_pools st)))
      else start_failed (sc_dummy call) (axios_error_message reply) st
  | PcDone ret => (PcDone ret, st)
  end.

Fixpoint startSession_run (fuel : nat) (c : AnalyticsHttpClient) (call : StartCall)
    (pc : StartPc) (st : SmState) : StartPc * SmState :=
  match fuel with
  | O => (pc, st)
  | S fuel' =>
      let '(pc1, st1) := startSession_resume c call pc st in
      startSession_run fuel' c call pc1 st1
  end.

(** The value a call has returned, if it has. *)
Definition returned (pc : StartPc) : option string :=
  match pc with PcDone ret => Some ret | _ => None end.

(** [await startSession(...)] with no other call in between: the entry
    and the three resumptions that can follow it.  The result is [None]
    only if the call were still suspended, which does not happen (see
    [startSession_returns]). *)
Definition startSession (c : AnalyticsHttpClient) (sv : ServerView)
    (sessionKey : string) (returnDummySession : bool) (st : SmState) : option string * SmState :=
  let call := mkStartCall sv sessionKey returnDummySession in
  let '(pc0, st0) := startSession_enter call st in
  let '(pc, st1) := startSession_run 3 c call pc0 st0 in
  (returned pc, st1).

End WithOracles.

(** *** Request queue (network/request-queue.ts) *)

Module RequestQueue.
Section Queue.
(** [R] stands for a queued closure; starting it and learning that its
    promise has settled are left to the caller. *)
Context {R : Type}.

(** Where [processQueue] is suspended. *)
Inductive Worker :=
| Idle
| AwaitRequest (request : R)
| AwaitDelay.

Record t := mk {
  queue : list R;
  isProcessing : bool;
  worker : Worker;
}.

Definition new : t := mk [] false Idle.

Definition size (q : t) : nat := List.length (queue q).

(** The head of the [while] loop of [processQueue]: the next request is
    shifted and started, or the loop ends and [finally] runs. *)
Definition loop_head (q : t) : t * option R :=
  match queue q with
  | request :: rest => (mk rest true (AwaitRequest request), Some request)
  | [] => (mk [] false Idle, None)
  end.

(** [processQueue()] up to its first [await]. *)
Definition processQueue (q : t) : t * option R :=
  if isProcessing q || bool_decide (queue q = []) then (q, None)
  else loop_head (mk (queue q) true (worker q)).

(** [enqueue(requestFn)]; the second component is the request it starts. *)
Definition enqueue (requestFn : R) (q : t) : t * option R :=
  let q1 := mk (queue q ++ [requestFn]) (isProcessing q) (worker q) in
  if isProcessing q1 then (q1, None) else processQueue q1.

(** The promise of the request in flight settles.  The closure stored by
    [enqueue] catches a rejection and passes it to the promise [enqueue]
    returned, so [await request()] never throws. *)
Definition settle (q : t) : t * option R :=
  match worker q with
  | AwaitRequest _ =>
      match queue q with
      | _ :: _ => (mk (queue q) (isProcessing q) AwaitDelay, None)
      | [] => loop_head q
      end
  | _ => (q, None)
  end.

(** The delay between two requests has elapsed. *)
Definition delay_elapsed (q : t) : t * option R :=
  match worker q with
  | AwaitDelay => loop_head q
  | _ => (q, None)
  end.

(** [clear()]. *)
Definition clear (q : t) : t := mk [] (isProcessing q) (worker q).

(** The loop condition of [flush()]: [true] while it keeps polling. *)
Definition flush_waits (q : t) : bool :=
  isProcessing q && negb (bool_decide (queue q = [])).

End Queue.
Arguments t : clear implicits.
Arguments Worker : clear implicits.
End RequestQueue.

(** *** Event recorder (core/event-recorder.ts) *)

(** The recorder's own fields; the HTTP client, session manager, request
    queue and pools it refers to are shared with the analytics client. *)
Record EventRecorder := mkRecorder {
  er_config : AgnostConfig;
  er_server : ServerView;
}.

(** The shared objects [recordEvent] reads and writes.  [rs_inflight] is
    the index of the request posted by the queued closure in flight. *)
Record RecState := mkRec {
  rs_sm : SmState;
  rs_queue : RequestQueue.t EventData;
  rs_inflight : option nat;
}.

Definition rs_io (st : RecState) : IO := sm_io (rs_sm st).

Definition rs_log (level : LogLevel) (message : string) (st : RecState) : RecState :=
  mkRec (sm_log level message (rs_sm st)) (rs_queue st) (rs_inflight st).

Section WithOracles.
Context `{Runtime} `{Env}.

(** [getOrCreateSessionId()].  Neither [getSessionKey] nor [startSession]
    throws, so the dummy-session fallback of its [catch] is never taken.
    A missing entry and an empty id are both falsy. *)
Definition getOrCreateSessionId (c : AnalyticsHttpClient) (er : EventRecorder)
    (st : SmState) : string * SmState :=
  let sessionKey := sv_sessionKey (er_server er) in
  let cached := default "" (getSessionId (sm_self st) sessionKey) in
  if negb (String.eqb cached "") then (cached, st)
  else
    let '(r, st1) := startSession c (er_server er) sessionKey false st in
    let sessionId := default "" r in
    if negb (String.eqb sessionId "") then (sessionId, st1)
    else ("", sm_log LError "Failed to create session" st1).

(** [sendArgs !== null ? JSON.stringify(sendArgs) : ""]. *)
Definition serialize_args (sendArgs : JsVal) : option string :=
  match sendArgs with
  | JNull => Some ""
  | _ => JSON_stringify sendArgs
  end.

(** The computation of [serializedResult]. *)
Definition serialize_result (sendResult : JsVal) : option string :=
  if is_nullish sendResult then Some ""
  else
    match sendResult with
    | JStr s => Some s
    | _ => JSON_stringify sendResult
    end.

(** The record [recordEvent] fills in. *)
Definition buildEventData (c : AnalyticsHttpClient) (config : AgnostConfig)
    (sessionId primitiveType primitiveName : string) (args_ : JsVal)
    (latency_ : Z) (success_ : bool) (result_ : JsVal) : EventData :=
  let sendArgs := if disableInput config then JNull else args_ in
  let sendResult := if disableOutput config then JNull else result_ in
  mkEventData (orgId c) sessionId primitiveType primitiveName latency_ success_
              (serialize_args sendArgs) (serialize_result sendResult).

(** [this.config.enableRequestQueuing !== false]. *)
Definition shouldQueue (config : AgnostConfig) : bool :=
  match enableRequestQueuing config with
  | Some false => false
  | _ => true
  end.

(** Starts the queued closure [r]: it runs up to [axios.post]. *)
Definition start_queued (c : AnalyticsHttpClient) (started : option EventData)
    (st : SmState) : option nat * SmState :=
  match started with
  | Some eventData =>
      let '(n, io1) := sendEvent_post c eventData (sm_io st) in
      (Some n, mkSm io1 (sm_self st) (sm_pools st))
  | None => (None, st)
  end.

(** [recordEvent(primitiveType, primitiveName, args, latency, success,
    result)] of the recorder, awaited with no other call in between. *)
Definition recordEvent (c : AnalyticsHttpClient) (er : EventRecorder)
    (primitiveType primitiveName : string) (args_ : JsVal) (latency_ : Z)
    (success_ : bool) (result_ : JsVal) (st : RecState) : bool * RecState :=
  let '(sessionId, sm1) := getOrCreateSessionId c er (rs_sm st) in
  if String.eqb sessionId "" then
    (false, mkRec (sm_log LError "Failed to get session ID - cannot record event" sm1)
                  (rs_queue st) (rs_inflight st))
  else
    let '(obj, pools1) := getEventData (sm_pools sm1) in
    let eventData := buildEventData c (er_config er) sessionId primitiveType primitiveName
                                    args_ latency_ success_ result_ in
    let sm2 := mkSm (sm_io sm1) (sm_self sm1) pools1 in
    if shouldQueue (er_config er) then
      let '(q1, started) := RequestQueue.enqueue eventData (rs_queue st) in
      let '(n, sm3) := start_queued c started sm2 in
      (true, mkRec sm3 q1 (match n with Some _ => n | None => rs_inflight st end))
    else
      let '(n, io1) := sendEvent_post c eventData (sm_io sm2) in
      let sm3 := mkSm io1 (sm_self sm2) (returnEventData eventData pools1) in
      let reply := collector n in
      if axios_resolves reply then (true, mkRec sm3 (rs_queue st) (rs_inflight st))
      else
        (false, mkRec (sm_log LError ("Failed to record event: " ++ axios_error_message reply) sm3)
                      (rs_queue st) (rs_inflight st)).

(** The reply to the queued request in flight arrives: the closure logs a
    failure, returns its record to the pool, and [processQueue] goes on. *)
Definition queue_settle (st : RecState) : RecState :=
  match RequestQueue.worker (rs_queue st), rs_inflight st with
  | RequestQueue.AwaitRequest eventData, Some n =>
      let reply := collector n in
      let sm1 := if axios_resolves reply then rs_sm st
                 else sm_log LWarning
                        ("Queued event recording failed: " ++ axios_error_message reply)
                        (rs_sm st) in
      let sm2 := mkSm (sm_io sm1) (sm_self sm1) (returnEventData eventData (sm_pools sm1)) in
      let '(q1, _) := RequestQueue.settle (rs_queue st) in
      mkRec sm2 q1 None
  | _, _ => st
  end.

(** The delay between two queued requests elapses. *)
Definition queue_delay_elapsed (c : AnalyticsHttpClient) (st : RecState) : RecState :=
  let '(q1, started) := RequestQueue.delay_elapsed (rs_queue st) in
  let '(n, sm1) := start_queued c started (rs_sm st) in
  mkRec sm1 q1 (match n with Some _ => n | None => rs_inflight st end).

(** One argument list of a wrapped function, as [createWrapper] records
    it in its [finally] block: the arguments go through
    [filterSensitiveArgs] first; the call of [recordEvent] is reached only
    if that did not throw. *)
Definition createWrapper_finally (c : AnalyticsHttpClient) (er : EventRecorder)
    (primitiveType primitiveName : string) (args_ : list JsVal) (latency_ : Z)
    (success_ : bool) (result_ : JsVal) (st : RecState) : Outcome unit * RecState :=
  match McpUtils.filterSensitiveArgs args_ with
  | Throw e => (Throw e, st)
  | Ret filteredArgs =>
      let '(_, st1) := recordEvent c er primitiveType primitiveName (JArr filteredArgs)
                                   latency_ success_ result_ st in
      (Ret tt, st1)
  end.

(** The wrapper [createWrapper(primitiveType, primitiveName, func)]
    returns, applied to [args]; [startTime] and [endTime] are the two
    readings of the clock.  A throw inside [finally] replaces the
    completion of the [try] block. *)
Definition createWrapper (c : AnalyticsHttpClient) (er : EventRecorder)
    (primitiveType primitiveName : string) (func : list JsVal -> Outcome JsVal)
    (args_ : list JsVal) (startTime endTime : Z) (st : RecState) : Outcome JsVal * RecState :=
  let completion := func args_ in
  let '(success_, result_) :=
    match completion with
    | Ret r => (true, r)
    | Throw _ => (false, JNull)
    end in
  let '(fin, st1) := createWrapper_finally c er primitiveType primitiveName args_
                                           (endTime - startTime) success_ result_ st in
  match fin with
  | Throw e => (Throw e, st1)
  | Ret _ => (completion, st1)
  end.

End WithOracles.

(** *** Analytics client (core/analytics-client.ts) *)

Module Client.

(** A server handle: the address of the server object and what the
    introspection helpers compute for it. *)
Record Server := mkServer {
  addr : nat;
  view : ServerView;
}.

(** An entry of the [_requestHandlers] map: a handler of the host (a
    function of the request), or the closure [wrapToolCallHandler] builds
    around one.  That closure is the only function carrying
    [_agnostWrapped], and it is never wrapped again. *)
Inductive Handler :=
| Original (f : JsVal -> Outcome JsVal)
| Wrapped (originalHandler : JsVal -> Outcome JsVal).

Definition agnostWrapped (h : Handler) : bool :=
  match h with Wrapped _ => true | Original _ => false end.

(** The mutable part of a server object: the [_requestHandlers] map of
    its low-level server ([None] when it has none), in insertion order;
    whether it has [connect] and [registerTool] methods; and how many
    times [trackMcp] has replaced each of them by its retrying version. *)
Record ServerObj := mkServerObj {
  requestHandlers : option (list (string * Handler));
  has_connect : bool;
  has_registerTool : bool;
  connect_hooks : nat;
  registerTool_hooks : nat;
}.

Definition bare_object : ServerObj := mkServerObj None false false 0 0.

Record AgnostAnalytics := mkClient {
  httpClient : option AnalyticsHttpClient;
  sessionManager : option SessionManager;
  eventRecorder : option EventRecorder;
  requestQueue : RequestQueue.t EventData;
  inflight : option nat;
  objectPools : DataObjectPools;
  server : option Server;
  initialized : bool;
  config : option AgnostConfig;
  overrideApplied : bool;
}.

(** [new AgnostAnalytics()]. *)
Definition newClient : AgnostAnalytics :=
  mkClient None None None RequestQueue.new None (mkPools [] []) None false None false.

(** The client, the server objects of the host, and the calls of
    [createInitialSession] fired and not awaited. *)
Record World := mkWorld {
  w_io : IO;
  w_self : AgnostAnalytics;
  w_servers : gmap nat ServerObj;
  w_spawned : list (option Server);
}.

Definition w_log (level : LogLevel) (message : string) (w : World) : World :=
  mkWorld (logger level message (w_io w)) (w_self w) (w_servers w) (w_spawned w).

Definition object_of (w : World) (s : Server) : ServerObj :=
  default bare_object (w_servers w !! addr s).

Section WithOracles.
Context `{Runtime} `{Env}.

(** [validateInitializationInputs]: the message of the error it throws. *)
Definition validateInitializationInputs (server_ : option Server) (orgId_ : string)
    (config_ : option AgnostConfig) : option string :=
  match server_ with
  | None => Some "Server instance is required"
  | Some _ =>
      if String.eqb orgId_ "" || Nat.eqb (String.length (js_trim orgId_)) 0 then
        Some "Valid organization ID is required"
      else
        match config_ with
        | None => Some "Valid configuration object is required"
        | Some cfg =>
            if String.eqb (endpoint cfg) "" then Some "Valid endpoint URL is required in config"
            else None
        end
  end.

(** [initialize(server, orgId, config)]. *)
Definition initialize (server_ : option Server) (orgId_ : string)
    (config_ : option AgnostConfig) (w : World) : bool * World :=
  let self := w_self w in
  if initialized self then (true, w)
  else
    match validateInitializationInputs server_ orgId_ config_, server_, config_ with
    | None, Some srv, Some cfg =>
        let c := newHttpClient (endpoint cfg) orgId_ in
        let self1 :=
          mkClient (Some c)
                   (Some (newSessionManager (identify cfg) JUndefined))
                   (Some (mkRecorder cfg (view srv)))
                   (requestQueue self) (inflight self) (objectPools self)
                   (Some srv) true (Some cfg) (overrideApplied self) in
        (true, mkWorld (w_io w) self1 (w_servers w) (w_spawned w))
    | Some errorMessage, _, _ =>
        (false, w_log LError ("Initialization failed: " ++ errorMessage) w)
    | None, _, _ =>
        (* not reached: validation fails when the server or the
           configuration is missing *)
        (false, w)
    end.

(** The shared objects of an initialized client, as [recordEvent] of the
    recorder sees them, and back. *)
Definition rec_state (w : World) (m : SessionManager) : RecState :=
  mkRec (mkSm (w_io w) m (objectPools (w_self w))) (requestQueue (w_self w)) (inflight (w_self w)).

Definition put_rec_state (st : RecState) (w : World) : World :=
  let self := w_self w in
  mkWorld (sm_io (rs_sm st))
          (mkClient (httpClient self) (Some (sm_self (rs_sm st))) (eventRecorder self)
                    (rs_queue st) (rs_inflight st) (sm_pools (rs_sm st))
                    (server self) (initialized self) (config self) (overrideApplied self))
          (w_servers w) (w_spawned w).

(** [recordEvent(...)] of the client. *)
Definition recordEvent (primitiveType primitiveName : string) (args_ : JsVal)
    (latency_ : Z) (success_ : bool) (result_ : JsVal) (w : World) : bool * World :=
  let self := w_self w in
  match initialized self, eventRecorder self, httpClient self, sessionManager self with
  | true, Some er, Some c, Some m =>
      let '(b, st) := TS.recordEvent c er primitiveType primitiveName args_ latency_
                                     success_ result_ (rec_state w m) in
      (b, put_rec_state st w)
  | _, _, _, _ =>
      (* [initialize] sets the recorder, the HTTP client and the session
         manager together, so this is the case [!initialized || !eventRecorder] *)
      (false, w_log LError "AgnostAnalytics not initialized - cannot record event" w)
  end.

(** The assignments to [requestContext] and [cachedUser] at the start of
    an intercepted call, under [self.sessionManager && self.config?.identify]. *)
Definition refresh_request_context (request : JsVal) (w : World) : World :=
  let self := w_self w in
  match sessionManager self, config self with
  | Some m, Some cfg =>
      match identify cfg with
      | Some _ =>
          mkWorld (w_io w)
                  (mkClient (httpClient self)
                            (Some (set_cachedUser JUndefined (set_requestContext request m)))
                            (eventRecorder self) (requestQueue self) (inflight self)
                            (objectPools self) (server self) (initialized self)
                            (config self) (overrideApplied self))
                  (w_servers w) (w_spawned w)
      | None => w
      end
  | _, _ => w
  end.

(** The [catch] block of the wrapped handler, entered with [error]: how
    it completes, what it leaves in [success] and [analyticsResult], and
    what it logs.  A conversion that fails raises a [TypeError], which
    leaves the block in place of [error], before [analyticsResult] is
    assigned. *)
Definition catch_block (toolName error : JsVal)
  : Outcome JsVal * (bool * JsVal * list LogEntry) :=
  match error_text error with
  | TypeError message => (Throw (JError message), (false, JNull, []))
  | Value errorMessage =>
      match to_String toolName with
      | TypeError message => (Throw (JError message), (false, JNull, []))
      | Value name =>
          (Throw error,
           (false, JStr errorMessage,
            [(LWarning, "Error calling tool " ++ name ++ ": " ++ errorMessage)]))
      end
  end.

(** The [try] and [catch] blocks of the wrapped handler, for a call of the
    original handler that completed as [completion].  The warning about
    an error result converts [toolName], then [errorMessage]; a
    [TypeError] raised there is caught by the [catch] block like a throw
    of the handler, [success] being [false] already. *)
Definition try_catch (toolName : JsVal) (completion : Outcome JsVal)
  : Outcome JsVal * (bool * JsVal * list LogEntry) :=
  match completion with
  | Ret result_ =>
      let '((isError, errorMessage), checkLog) := McpUtils.isMcpErrorResponse result_ in
      if isError then
        let caught (message : string) :=
          let '(completion1, (success_, analyticsResult, lines)) :=
            catch_block toolName (JError message) in
          (completion1, (success_, analyticsResult, app checkLog lines)) in
        match to_String toolName with
        | TypeError message => caught message
        | Value name =>
            match to_String errorMessage with
            | TypeError message => caught message
            | Value text =>
                (Ret result_,
                 (false, errorMessage,
                  app checkLog [(LWarning, "Tool " ++ name ++ " returned error: " ++ text)]))
            end
        end
      else (Ret result_, (true, result_, checkLog))
  | Throw error => catch_block toolName error
  end.

(** What the [try] and [catch] blocks of the wrapped handler leave in
    [success] and [analyticsResult], and what they log. *)
Definition classify (toolName : JsVal) (completion : Outcome JsVal)
  : bool * JsVal * list LogEntry :=
  snd (try_catch toolName completion).

(** [request.params?.name || 'unknown_tool'] and
    [request.params?.arguments || {}]. *)
Definition toolName_of (request : JsVal) : JsVal :=
  js_or (get_opt (get request "params") "name") (JStr "unknown_tool").

Definition arguments_of (request : JsVal) : JsVal :=
  js_or (get_opt (get request "params") "arguments") (JObj []).

Definition w_log_all (lines : list LogEntry) (w : World) : World :=
  mkWorld (logger_all lines (w_io w)) (w_self w) (w_servers w) (w_spawned w).

(** The closure [wrappedHandler] built by [wrapToolCallHandler] around
    [originalHandler], applied to [request]; [startTime] and [endTime]
    are the two readings of the clock.  On [null] or [undefined] the read
    of [request.params] throws before the handler is called.  The
    [finally] block converts [toolName] and calls [recordEvent], which
    does not reject, before the completion of the [try] and [catch]
    blocks, a value or a throw, reaches the caller.  If the conversion
    fails, so does the one in the [catch] block inside [finally], and
    the [TypeError] leaves [finally] in place of that completion. *)
Definition wrappedHandler (originalHandler : JsVal -> Outcome JsVal) (request : JsVal)
    (startTime endTime : Z) (w : World) : Outcome JsVal * World :=
  if is_nullish request then (Throw (JError (nullish_property_message request "params")), w)
  else
    let toolName := toolName_of request in
    let arguments_ := arguments_of request in
    let w1 := refresh_request_context request w in
    let '(completion, (success_, analyticsResult, lines)) :=
      try_catch toolName (originalHandler request) in
    let w2 := w_log_all lines w1 in
    match to_String toolName with
    | Value name =>
        let '(_, w3) := recordEvent "tool" name arguments_
                                    (endTime - startTime) success_ analyticsResult w2 in
        (completion, w3)
    | TypeError message => (Throw (JError message), w2)
    end.

(** A call of an entry of [_requestHandlers]. *)
Definition call_handler (h : Handler) (request : JsVal) (startTime endTime : Z)
    (w : World) : Outcome JsVal * World :=
  match h with
  | Original f => (f request, w)
  | Wrapped f => wrappedHandler f request startTime endTime w
  end.

(** The closure that replaces [originalHandler]. *)
Definition wrap_handler (originalHandler : Handler) : Handler :=
  match originalHandler with
  | Original f => Wrapped f
  | Wrapped f => Wrapped f
  end.

(** [wrapToolCallHandler(server, requestType, originalHandler)] on the
    handler map. *)
Definition wrapToolCallHandler (requestType : string) (originalHandler : Handler)
    (handlers : list (string * Handler)) : list (string * Handler) :=
  if agnostWrapped originalHandler then handlers
  else
    (fun kv => if String.eqb (fst kv) requestType then (fst kv, wrap_handler originalHandler) else kv)
      <$> handlers.

Fixpoint lookup_handler (k : string) (handlers : list (string * Handler)) : option Handler :=
  match handlers with
  | [] => None
  | (k', h) :: rest => if String.eqb k k' then Some h else lookup_handler k rest
  end.

(** [s.includes(sub)]. *)
Fixpoint includes (s sub : string) : bool :=
  String.prefix sub s ||
  match s with
  | EmptyString => false
  | String _ rest => includes rest sub
  end.

Definition is_call_tool_key (key : string) : bool :=
  includes key "CallTool" || includes key "tools/call".

(** The loop over [requestHandlers.entries()] taken when no handler is
    registered under "tools/call". *)
Definition wrap_matching (handlers : list (string * Handler)) : list (string * Handler) :=
  (fun kv => if is_call_tool_key (fst kv) && negb (agnostWrapped (snd kv))
             then (fst kv, wrap_handler (snd kv)) else kv) <$> handlers.

Definition set_handlers (s : Server) (handlers : list (string * Handler)) (w : World) : World :=
  let o := object_of w s in
  mkWorld (w_io w) (w_self w)
          (<[addr s := mkServerObj (Some handlers) (has_connect o) (has_registerTool o)
                                   (connect_hooks o) (registerTool_hooks o)]> (w_servers w))
          (w_spawned w).

Definition set_overrideApplied (b : bool) (w : World) : World :=
  let self := w_self w in
  mkWorld (w_io w)
          (mkClient (httpClient self) (sessionManager self) (eventRecorder self)
                    (requestQueue self) (inflight self) (objectPools self) (server self)
                    (initialized self) (config self) b)
          (w_servers w) (w_spawned w).

(** [overrideMcpServer(server)]. *)
Definition overrideMcpServer (server_ : option Server) (w : World) : bool * World :=
  if overrideApplied (w_self w) then (true, w)
  else
    match server_ with
    | None =>
        (false, w_log LWarning ("Failed to override MCP server: "
                                ++ null_property_message "_requestHandlers") w)
    | Some s =>
        match requestHandlers (object_of w s) with
        | None => (false, w_log LWarning "No request handlers found on server" w)
        | Some handlers =>
            match lookup_handler "tools/call" handlers with
            | Some originalHandler =>
                (true, set_overrideApplied true
                         (set_handlers s (wrapToolCallHandler "tools/call" originalHandler handlers) w))
            | None =>
                if existsb (fun kv => is_call_tool_key (fst kv)) handlers then
                  (true, set_overrideApplied true (set_handlers s (wrap_matching handlers) w))
                else (false, w_log LWarning "No CallTool handler found" w)
            end
        end
    end.

Definition spawn_initial_session (server_ : option Server) (w : World) : World :=
  mkWorld (w_io w) (w_self w) (w_servers w) (w_spawned w ++ [server_]).

(** The two deferred strategies of [trackMcp]: [server.connect] and, when
    it is a function, [server.registerTool] are replaced by versions that
    try the override again. *)
Definition install_hooks (server_ : option Server) (w : World) : World :=
  match server_ with
  | None => w_log LError ("MCP tracking setup failed: " ++ null_property_message "connect") w
  | Some s =>
      let o := object_of w s in
      if has_connect o then
        mkWorld (w_io w) (w_self w)
                (<[addr s := mkServerObj (requestHandlers o) (has_connect o) (has_registerTool o)
                                         (S (connect_hooks o))
                                         (if has_registerTool o then S (registerTool_hooks o)
                                          else registerTool_hooks o)]> (w_servers w))
                (w_spawned w)
      else w_log LError ("MCP tracking setup failed: " ++ null_property_message "bind") w
  end.

(** [trackMcp(server, orgId, config)]. *)
Definition trackMcp (server_ : option Server) (orgId_ : string)
    (config_ : option AgnostConfig) (w : World) : World :=
  let '(ok, w1) := initialize server_ orgId_ config_ w in
  if negb ok then
    w_log LError "Failed to initialize analytics - server remains untracked" w1
  else
    let '(success_, w2) := overrideMcpServer server_ w1 in
    if success_ then spawn_initial_session server_ w2
    else install_hooks server_ w2.

(** [cleanup()] once [flush()] has returned. *)
Definition cleanup (w : World) : World :=
  let self := w_self w in
  mkWorld (w_io w)
          (mkClient (httpClient self) (clearSessions <$> sessionManager self) (eventRecorder self)
                    (RequestQueue.clear (requestQueue self)) (inflight self)
                    (clearPools (objectPools self)) (server self) false (config self) false)
          (w_servers w) (w_spawned w).

End WithOracles.

End Client.

End TS.

(* ================================================================== *)
(** ** Go SDK (golang/agnost) *)
(* ================================================================== *)

Module Go.

(** *** Types (types.go) *)

(** A value of interface type [any], as far as the SDK looks at it:
    [nil], or a value together with what [json.Marshal] makes of it
    ([None] when marshalling fails). *)
Inductive Any :=
| AnyNil
| AnyVal (json : option string).



(** An [error] value: its message. *)
Definition error : Type := string.

Record AgnostConfig := mkConfig {
  Endpoint : string;
  DisableInput : bool;
  DisableOutput : bool;
  EnableRequestQueuing : bool;
  BatchSize : Z;
  MaxRetries : Z;
  RetryDelay : Z;
  RequestTimeout : Z;
  Identify : option Any;   (* what the identify function returns for (nil, env) *)
}.

Record SessionInfo := mkSessionInfo {
  SessionKey : string;
  ClientName : string;
}.

Record SessionData := mkSessionData {
  sd_SessionID : string;
  ClientConfig : string;
  ConnectionType : string;
  IP : string;
  Tools : list string;
  UserData : Any;
}.

Record EventData := mkEventData {
  SessionID : string;
  PrimitiveType : string;
  PrimitiveName : string;
  Latency : Z;
  Success : bool;
  Input : string;
  Output : string;
}.

(** *** Oracles and effects *)

(** What [httpClient.Do] returns: an error, or a response with its status
    code and body ([None] when reading the body fails). *)
Inductive DoResult :=
| DoError (err : error)
| Response (StatusCode : Z) (body : option string).

Inductive Payload :=
| SessionPayload (d : SessionData)
| EventPayload (d : EventData).

(** What the process does that can be observed from outside. *)
Inductive Action :=
| Do (url xOrgId : string) (body : Payload)
| Sleep (d : Z).

(** [generateSessionID n]: the [n]-th identifier generated;
    [roundTrip n]: the result of the [n]-th call of [httpClient.Do];
    [read_error n]: the text of the error [io.ReadAll] returns when the
    body of that response cannot be read;
    [url_ok u]: whether [http.NewRequest] accepts the URL [u]. *)
Class Env := {
  generateSessionID : nat -> string;
  roundTrip : nat -> DoResult;
  read_error : nat -> string;
  url_ok : string -> bool;
}.

Record IO := mkIO {
  trace : list Action;
  log : list LogEntry;
  ids_drawn : nat;
  do_calls : nat;
}.

Definition Warning (message : string) (io : IO) : IO :=
  mkIO (trace io) (log io ++ [(LWarning, message)]) (ids_drawn io) (do_calls io).

(** [Error] and [Errorf] log at error level.  Of the message of an error
    that wraps one returned by [json.Marshal] or [http.NewRequest], only
    the text before the wrapped error is kept. *)
Definition Error (message : string) (io : IO) : IO :=
  mkIO (trace io) (log io ++ [(LError, message)]) (ids_drawn io) (do_calls io).

Definition sleep (d : Z) (io : IO) : IO :=
  mkIO (trace io ++ [Sleep d]) (log io) (ids_drawn io) (do_calls io).

Definition do_request `{Env} (url xOrgId : string) (body : Payload) (io : IO) : DoResult * IO :=
  (roundTrip (do_calls io),
   mkIO (trace io ++ [Do url xOrgId body]) (log io) (ids_drawn io) (S (do_calls io))).

Definition is_do (a : Action) : bool :=
  match a with Do _ _ _ => true | Sleep _ => false end.

(** *** Event processor (events.go) *)

Record EventProcessor := mkProcessor {
  queue : list EventData;        (* the buffered channel, oldest first *)
  batchQueue : list EventData;
}.

Definition queue_capacity : nat := 100.

Definition newEventProcessor : EventProcessor := mkProcessor [] [].

Record World := mkWorld {
  w_io : IO;
  w_ep : EventProcessor;
  w_sessions : gmap string string;
  w_initialized : bool;
}.

Definition with_io (io : IO) (w : World) : World :=
  mkWorld io (w_ep w) (w_sessions w) (w_initialized w).

Definition with_ep (ep : EventProcessor) (w : World) : World :=
  mkWorld (w_io w) ep (w_sessions w) (w_initialized w).

Section WithOracles.
Context `{Env}.
Variable orgID : string.
Variable config : AgnostConfig.

(** [QueueEvent(event)] while the processor's context is not cancelled:
    the event is buffered if the channel has room and dropped otherwise. *)
Definition QueueEvent (event : EventData) (w : World) : World :=
  if decide (List.length (queue (w_ep w)) < queue_capacity)%nat then
    with_ep (mkProcessor (queue (w_ep w) ++ [event]) (batchQueue (w_ep w))) w
  else
    with_io (Warning ("Event queue full, event dropped: " ++ PrimitiveType event ++ "/"
                      ++ PrimitiveName event) (w_io w)) w.

Definition status_2xx (code : Z) : bool := (200 <=? code)%Z && (code <? 300)%Z.

(** The retry loop of [sendEvent]: [remaining] iterations are left and
    [attempt] is the loop counter. *)
Fixpoint send_attempts (remaining attempt : nat) (event : EventData)
    (lastErr : string) (io : IO) : option error * IO :=
  match remaining with
  | O => (Some ("failed after " ++ pretty (MaxRetries config) ++ " retries: " ++ lastErr), io)
  | S remaining' =>
      let io1 := if (0 <? attempt)%nat then sleep (RetryDelay config) io else io in
      let '(resp, io2) := do_request (Endpoint config ++ "/api/v1/capture-event") orgID
                                     (EventPayload event) io1 in
      match resp with
      | DoError err => send_attempts remaining' (S attempt) event err io2
      | Response code body =>
          if status_2xx code then (None, io2)
          else
            send_attempts remaining' (S attempt) event
              ("event send failed with status " ++ pretty code ++ ": " ++ default "" body) io2
      end
  end.

(** [sendEvent(event)].  An [EventData] always marshals.  The loop runs
    for [attempt = 0 .. MaxRetries]. *)
Definition sendEvent (event : EventData) (io : IO) : option error * IO :=
  if negb (url_ok (Endpoint config ++ "/api/v1/capture-event")) then
    (Some "failed to create event request", io)
  else send_attempts (Z.to_nat (MaxRetries config + 1)) 0 event "<nil>" io.

(** The loop of [flushBatch] over the batch it took. *)
Fixpoint send_batch (batch : list EventData) (io : IO) : IO :=
  match batch with
  | [] => io
  | event :: rest =>
      let '(err, io1) := sendEvent event io in
      let io2 := match err with
                 | Some e => Warning ("Failed to send event: " ++ e) io1
                 | None => io1
                 end in
      send_batch rest io2
  end.

(** [flushBatch()]. *)
Definition flushBatch (w : World) : World :=
  match batchQueue (w_ep w) with
  | [] => w
  | batch =>
      let w1 := with_ep (mkProcessor (queue (w_ep w)) []) w in
      with_io (send_batch batch (w_io w1)) w1
  end.

(** [Flush()]. *)
Definition Flush (w : World) : World :=
  match batchQueue (w_ep w) with
  | [] => w
  | _ :: _ => flushBatch w
  end.

(** The worker receives an event from the channel. *)
Definition worker_receive (w : World) : World :=
  match queue (w_ep w) with
  | [] => w
  | event :: rest =>
      let w1 := with_ep (mkProcessor rest (batchQueue (w_ep w) ++ [event])) w in
      if (BatchSize config <=? Z.of_nat (List.length (batchQueue (w_ep w1))))%Z
      then flushBatch w1 else w1
  end.

(** The worker's ticker fires. *)
Definition worker_tick (w : World) : World := Flush w.

(** *** Session manager (session.go) *)

Variable tools : list string.   (* what [adapter.ExtractTools()] returns *)

(** Where a call of [GetOrCreateSession] is: before its check of the map,
    inside [createSession] waiting for [httpClient.Do], about to store the
    new id, or returned. *)
Inductive Pc :=
| PcCheck
| PcAwaitDo (sessionID : string) (request : nat)
| PcStore (sessionID : string)
| PcReturned (sessionID : string) (err : option error).

(** [sessionInfo], or the default put in place of [nil]. *)
Definition info_or_default (sessionInfo : option SessionInfo) : SessionInfo :=
  default (mkSessionInfo "default" "unknown") sessionInfo.

Definition user_of (cfg : AgnostConfig) : Any := default AnyNil (Identify cfg).

Definition marshals (a : Any) : bool :=
  match a with AnyVal None => false | _ => true end.

(** [createSession] up to the call of [httpClient.Do]. *)
Definition createSession_begin (info : SessionInfo) (io : IO) : Pc * IO :=
  let sessionID := generateSessionID (ids_drawn io) in
  let io1 := mkIO (trace io) (log io) (S (ids_drawn io)) (do_calls io) in
  let sessionData := mkSessionData sessionID (ClientName info) "" "" tools (user_of config) in
  let url := Endpoint config ++ "/api/v1/capture-session" in
  if negb (marshals (user_of config)) then
    (PcReturned "" (Some "failed to marshal session data"),
     Error "failed to marshal session data" io1)
  else if negb (url_ok url) then
    (PcReturned "" (Some "failed to create session request"),
     Error "failed to create session request" io1)
  else
    let n := do_calls io1 in
    (PcAwaitDo sessionID n,
     mkIO (trace io1 ++ [Do url orgID (SessionPayload sessionData)]) (log io1)
          (ids_drawn io1) (S (do_calls io1))).

(** [createSession] once [httpClient.Do] has returned. *)
Definition createSession_finish (sessionID : string) (n : nat) (io : IO) : Pc * IO :=
  match roundTrip n with
  | DoError err =>
      let msg := "failed to create session: " ++ err in
      (PcReturned "" (Some msg), Error msg io)
  | Response code None =>
      let msg := "failed to read session response: " ++ read_error n in
      (PcReturned "" (Some msg), Error msg io)
  | Response code (Some body) =>
      if negb (code =? 200)%Z && negb (code =? 201)%Z then
        (PcStore sessionID,
         Warning ("Session creation failed with status " ++ pretty code ++ ": " ++ body) io)
      else (PcStore sessionID, io)
  end.

(** One step of a call [GetOrCreateSession(sessionInfo)]. *)
Definition GetOrCreateSession_step (sessionInfo : option SessionInfo) (pc : Pc)
    (w : World) : Pc * World :=
  let info := info_or_default sessionInfo in
  match pc with
  | PcCheck =>
      match w_sessions w !! SessionKey info with
      | Some sessionID => (PcReturned sessionID None, w)
      | None =>
          let '(pc1, io1) := createSession_begin info (w_io w) in
          (pc1, with_io io1 w)
      end
  | PcAwaitDo sessionID n =>
      let '(pc1, io1) := createSession_finish sessionID n (w_io w) in
      (pc1, with_io io1 w)
  | PcStore sessionID =>
      (PcReturned sessionID None,
       mkWorld (w_io w) (w_ep w) (<[SessionKey info := sessionID]> (w_sessions w))
               (w_initialized w))
  | PcReturned _ _ => (pc, w)
  end.

Fixpoint GetOrCreateSession_run (fuel : nat) (sessionInfo : option SessionInfo) (pc : Pc)
    (w : World) : Pc * World :=
  match fuel with
  | O => (pc, w)
  | S fuel' =>
      let '(pc1, w1) := GetOrCreateSession_step sessionInfo pc w in
      GetOrCreateSession_run fuel' sessionInfo pc1 w1
  end.

(** [GetOrCreateSession(sessionInfo)] run alone: three steps at most. *)
Definition GetOrCreateSession (sessionInfo : option SessionInfo) (w : World) : Pc * World :=
  GetOrCreateSession_run 3 sessionInfo PcCheck w.

(** *** Analytics client (analytics.go) and adapter (adapter.go) *)

(** [adapter.GetSessionInfo()]. *)
Definition GetSessionInfo : SessionInfo := mkSessionInfo "mcp-go-default" "mcp-go-client".

(** The JSON text [RecordEvent] stores for [args] or [result]. *)
Definition encode_unless (disabled : bool) (v : Any) : string :=
  if disabled then ""
  else
    match v with
    | AnyNil => ""
    | AnyVal (Some json) => json
    | AnyVal None => ""
    end.

(** [RecordEvent(primitiveType, primitiveName, args, latency, success,
    result)]. *)
Definition RecordEvent (primitiveType primitiveName : string) (args : Any)
    (latency : Z) (success : bool) (result : Any) (w : World) : option error * World :=
  if negb (w_initialized w) then (Some "SDK not initialized", w)
  else
    match GetOrCreateSession (Some GetSessionInfo) w with
    | (PcReturned sessionID None, w1) =>
        let event := mkEventData sessionID primitiveType primitiveName latency success
                                 (encode_unless (DisableInput config) args)
                                 (encode_unless (DisableOutput config) result) in
        if EnableRequestQueuing config then (None, QueueEvent event w1)
        else
          let '(err, io1) := sendEvent event (w_io w1) in
          match err with
          | Some e => (Some e, with_io (Warning ("Failed to send event: " ++ e) io1) w1)
          | None => (None, with_io io1 w1)
          end
    | (PcReturned _ (Some err), w1) =>
        (Some err, with_io (Warning ("Failed to get session: " ++ err) (w_io w1)) w1)
    | (_, w1) =>
        (* not reached: the call has returned, see [GetOrCreateSession_returns] *)
        (Some "session creation did not return", w1)
    end.



End WithOracles.

End Go.

(* ================================================================== *)
(** ** Overlapping calls *)
(* ================================================================== *)

(** Several calls of [startSession] on one session manager.  The event
    loop runs one segment of one call at a time; a schedule names, step by
    step, the call whose segment runs next.  A call that has not run yet
    is made at its first step. *)
Module TsConcurrent.
Section WithOracles.
Context `{Runtime} `{TS.Env}.
Variable c : TS.AnalyticsHttpClient.

Inductive Thread :=
| NotCalled (call : TS.StartCall)
| Running (call : TS.StartCall) (pc : TS.StartPc).

Record State := mkState {
  shared : TS.SmState;
  threads : list Thread;
}.

Definition step (i : nat) (s : State) : State :=
  match threads s !! i with
  | Some (NotCalled call) =>
      let '(pc, st) := TS.startSession_enter call (shared s) in
      mkState st (<[i := Running call pc]> (threads s))
  | Some (Running call pc) =>
      let '(pc1, st) := TS.startSession_resume c call pc (shared s) in
      mkState st (<[i := Running call pc1]> (threads s))
  | None => s
  end.

Definition run (schedule : list nat) (s : State) : State :=
  fold_left (fun s i => step i s) schedule s.


(** The session-creation requests posted so far. *)
Definition creation_requests (st : TS.SmState) : list TS.SessionData :=
  omap (fun p => match p with
                 | TS.PostSession _ _ body => Some body
                 | TS.PostEvent _ _ _ => None
                 end) (TS.posted (TS.sm_io st)).

(** [n] calls made one after the other, each awaited before the next. *)
Fixpoint sequential (n : nat) (sv : TS.ServerView) (sessionKey : string)
    (st : TS.SmState) : list (option string) * TS.SmState :=
  match n with
  | O => ([], st)
  | S n' =>
      let '(r, st1) := TS.startSession c sv sessionKey false st in
      let '(rs, st2) := sequential n' sv sessionKey st1 in
      (r :: rs, st2)
  end.

End WithOracles.
End TsConcurrent.

(** Several goroutines in [GetOrCreateSession] on one session manager. *)
Module GoConcurrent.
Section WithOracles.
Context `{Go.Env}.
Variable orgID : string.
Variable config : Go.AgnostConfig.
Variable tools : list string.

Record State := mkState {
  shared : Go.World;
  threads : list (option Go.SessionInfo * Go.Pc);
}.

Definition step (i : nat) (s : State) : State :=
  match threads s !! i with
  | Some (info, pc) =>
      let '(pc1, w) := Go.GetOrCreateSession_step orgID config tools info pc (shared s) in
      mkState w (<[i := (info, pc1)]> (threads s))
  | None => s
  end.

Definition run (schedule : list nat) (s : State) : State :=
  fold_left (fun s i => step i s) schedule s.

Definition creation_requests (w : Go.World) : list Go.SessionData :=
  omap (fun a => match a with
                 | Go.Do _ _ (Go.SessionPayload d) => Some d
                 | _ => None
                 end) (Go.trace (Go.w_io w)).

(** [n] calls made one after the other, each returning before the next
    is made. *)
Fixpoint sequential (n : nat) (info : option Go.SessionInfo) (w : Go.World)
  : list Go.Pc * Go.World :=
  match n with
  | O => ([], w)
  | S n' =>
      let '(r, w1) := Go.GetOrCreateSession orgID config tools info w in
      let '(rs, w2) := sequential n' info w1 in
      (r :: rs, w2)
  end.

End WithOracles.
End GoConcurrent.

(** The request queue of the TypeScript SDK on the event loop, with a
    caller of [flush()].  [settled] lists the requests whose promise has
    settled (their delivery attempt is over); [queued_at_flush] is
    [this.queue] at the moment [flush()] was called. *)
Module QueueLoop.
Section Loop.
Context {R : Type}.

Inductive FlushState :=
| FlushNotCalled
| FlushPolling
| FlushReturned.

Record State := mkState {
  rq : TS.RequestQueue.t R;
  settled : list R;
  flush : FlushState;
  queued_at_flush : list R;
}.

Definition init : State := mkState TS.RequestQueue.new [] FlushNotCalled [].

Inductive Event :=
| Enqueue (request : R)
| Settle            (* the request in flight settles *)
| DelayElapsed      (* the timer of [processQueue] fires *)
| Clear
| CallFlush
| PollElapsed.      (* the 100 ms timer of [flush] fires *)

(** [flush()] evaluates its loop condition. *)
Definition flush_check (q : TS.RequestQueue.t R) : FlushState :=
  if TS.RequestQueue.flush_waits q then FlushPolling else FlushReturned.

Definition in_flight (q : TS.RequestQueue.t R) : list R :=
  match TS.RequestQueue.worker q with
  | TS.RequestQueue.AwaitRequest r => [r]
  | _ => []
  end.

Definition step (s : State) (e : Event) : State :=
  match e with
  | Enqueue r =>
      mkState (fst (TS.RequestQueue.enqueue r (rq s))) (settled s) (flush s) (queued_at_flush s)
  | Settle =>
      mkState (fst (TS.RequestQueue.settle (rq s))) (settled s ++ in_flight (rq s))
              (flush s) (queued_at_flush s)
  | DelayElapsed =>
      mkState (fst (TS.RequestQueue.delay_elapsed (rq s))) (settled s) (flush s) (queued_at_flush s)
  | Clear =>
      mkState (TS.RequestQueue.clear (rq s)) (settled s) (flush s) (queued_at_flush s)
  | CallFlush =>
      match flush s with
      | FlushNotCalled =>
          mkState (rq s) (settled s) (flush_check (rq s)) (TS.RequestQueue.queue (rq s))
      | _ => s
      end
  | PollElapsed =>
      match flush s with
      | FlushPolling => mkState (rq s) (settled s) (flush_check (rq s)) (queued_at_flush s)
      | _ => s
      end
  end.

Definition run (events : list Event) (s : State) : State := fold_left step events s.

End Loop.
Arguments State : clear implicits.
Arguments Event : clear implicits.
End QueueLoop.

(* ================================================================== *)
(** ** Oracles for closed examples *)
(* ================================================================== *)

(** The properties below hold for every runtime and every environment;
    the closed examples need one of each.  This runtime converts strings
    to themselves and gives every other value a fixed text. *)
Module Sample.

#[local] Instance runtime : Runtime := {|
  js_String := fun v => match v with JStr s => s | _ => "[value]" end;
  JSON_stringify := fun v => match v with JUndefined => None | _ => Some "[json]" end;
  js_trim := fun s => s;
  first_unit := fun s => match s with String a _ => String a EmptyString | EmptyString => s end;
  not_iterable_message := fun _ => "value is not iterable";
  null_property_message := fun p => "Cannot read properties of null (reading '" ++ p ++ "')";
  undefined_property_message :=
    fun p => "Cannot read properties of undefined (reading '" ++ p ++ "')";
  cannot_convert_message := fun _ => "Cannot convert object to primitive value";
|}.

(** A collector that accepts everything. *)
#[local] Instance accepting : TS.Env := {|
  TS.uuidv4 := fun n => "uuid-" ++ pretty n;
  TS.collector := fun _ => TS.Status 200;
|}.

(** A collector that answers every request with status 500. *)
#[local] Instance failing : TS.Env := {|
  TS.uuidv4 := fun n => "uuid-" ++ pretty n;
  TS.collector := fun _ => TS.Status 500;
|}.

#[local] Instance go_accepting : Go.Env := {|
  Go.generateSessionID := fun n => "id-" ++ pretty n;
  Go.roundTrip := fun _ => Go.Response 200 (Some "ok");
  Go.read_error := fun _ => "unexpected EOF";
  Go.url_ok := fun _ => true;
|}.

#[local] Instance go_failing : Go.Env := {|
  Go.generateSessionID := fun n => "id-" ++ pretty n;
  Go.roundTrip := fun _ => Go.Response 503 (Some "unavailable");
  Go.read_error := fun _ => "unexpected EOF";
  Go.url_ok := fun _ => true;
|}.

#[local] Instance go_unreachable : Go.Env := {|
  Go.generateSessionID := fun n => "id-" ++ pretty n;
  Go.roundTrip := fun _ => Go.DoError "connection refused";
  Go.read_error := fun _ => "unexpected EOF";
  Go.url_ok := fun _ => true;
|}.

Definition http : TS.AnalyticsHttpClient := TS.newHttpClient "https://api.agnost.ai/" "acme".

Definition server_view : TS.ServerView := TS.mkServerView "session-1" "cli" ["echo"] [].

Definition ts_config (disableInput disableOutput : bool) (queuing : option bool) : TS.AgnostConfig :=
  TS.mkConfig "https://api.agnost.ai" disableInput disableOutput queuing None None None None None.

Definition io0 : TS.IO := TS.mkIO [] [] 0.

Definition sm0 : TS.SmState :=
  TS.mkSm io0 (TS.newSessionManager None JUndefined) (TS.mkPools [] []).


Definition rec0 : TS.RecState := TS.mkRec sm0 TS.RequestQueue.new None.

(** A tools/call request whose arguments include the organization id. *)
Definition request_search : JsVal :=
  JObj [("method", JStr "tools/call");
        ("params", JObj [("name", JStr "search");
                         ("arguments", JObj [("org_id", JStr "acme"); ("q", JStr "x")])])].

(** A result with the error flag set, inside and outside a [root] whose
    [content] is a number. *)
Definition flagged_result : JsVal :=
  JObj [("isError", JBool true);
        ("root", JObj [("isError", JBool true); ("content", JNum 5)])].

(** A result with the error flag set whose [message] is an object that
    does not convert to a string. *)
Definition unconvertible_error : JsVal :=
  JObj [("isError", JBool true); ("message", JObj [("toString", JNum 1)])].

Definition server1 : TS.Client.Server := TS.Client.mkServer 1 server_view.

Definition server2 : TS.Client.Server :=
  TS.Client.mkServer 2 (TS.mkServerView "session-2" "cli" ["search"] []).

Definition echo_handler : JsVal -> Outcome JsVal := fun request => Ret (get request "params").

(** Server 1 has no handler table yet; server 2 has a tools/call handler. *)
Definition servers0 : gmap nat TS.Client.ServerObj :=
  {[ 1%nat := TS.Client.mkServerObj None true false 0 0;
     2%nat := TS.Client.mkServerObj (Some [("tools/call", TS.Client.Original echo_handler)])
                                    true false 0 0 ]}.

Definition world0 : TS.Client.World := TS.Client.mkWorld io0 TS.Client.newClient servers0 [].

(** The client after [initialize(server1, "acme", config)]. *)
Definition world1 : TS.Client.World :=
  snd (@TS.Client.initialize runtime (Some server1) "acme" (Some (ts_config false false None)) world0).



Definition go_config (disableInput disableOutput queuing : bool) (maxRetries : Z) : Go.AgnostConfig :=
  Go.mkConfig "https://api.agnost.ai" disableInput disableOutput queuing 5 maxRetries 1000 5000 None.

Definition go_io0 : Go.IO := Go.mkIO [] [] 0 0.

Definition go_world0 : Go.World := Go.mkWorld go_io0 Go.newEventProcessor ∅ true.

End Sample.

(* ================================================================== *)
(** ** Vocabulary of the properties *)
(* ================================================================== *)

Module Props.




(** The bodies of the event requests posted so far (TypeScript). *)
Definition posted_events (io : TS.IO) : list TS.EventData :=
  omap (fun p => match p with
                 | TS.PostEvent _ _ body => Some body
                 | TS.PostSession _ _ _ => None
                 end) (TS.posted io).

(** Every event the recorder holds or has posted. *)
Definition events_of (st : TS.RecState) : list TS.EventData :=
  TS.RequestQueue.queue (TS.rs_queue st)
  ++ QueueLoop.in_flight (TS.rs_queue st)
  ++ posted_events (TS.rs_io st).

(** The event payloads handed to [httpClient.Do] so far (Go). *)
Definition go_sent_events (io : Go.IO) : list Go.EventData :=
  omap (fun a => match a with
                 | Go.Do _ _ (Go.EventPayload d) => Some d
                 | _ => None
                 end) (Go.trace io).

Definition go_events_of (w : Go.World) : list Go.EventData :=
  Go.queue (Go.w_ep w) ++ Go.batchQueue (Go.w_ep w) ++ go_sent_events (Go.w_io w).

(** A delivery attempt that fails: no response, or a status outside 2xx. *)
Definition go_attempt_fails (r : Go.DoResult) : Prop :=
  match r with
  | Go.DoError _ => True
  | Go.Response code _ => Go.status_2xx code = false
  end.



(** A bound on the resumptions a suspended call still needs. *)
Definition remaining (pc : TS.StartPc) : nat :=
  match pc with
  | TS.PcIdentify _ _ _ => 3
  | TS.PcTools _ _ _ => 2
  | TS.PcPost _ _ _ _ => 1
  | TS.PcDone _ => 0
  end.

(** Every event the client of the TypeScript SDK holds or has posted. *)
Definition client_events (w : TS.Client.World) : list TS.EventData :=
  TS.RequestQueue.queue (TS.Client.requestQueue (TS.Client.w_self w))
  ++ QueueLoop.in_flight (TS.Client.requestQueue (TS.Client.w_self w))
  ++ posted_events (TS.Client.w_io w).

(** The client is initialized, with HTTP client [c] and recorder [er], and
    its session manager has the id [sessionId] cached for the server. *)
Definition ready (w : TS.Client.World) (c : TS.AnalyticsHttpClient) (er : TS.EventRecorder)
    (sessionId : string) : Prop :=
  TS.Client.initialized (TS.Client.w_self w) = true
  /\ TS.Client.eventRecorder (TS.Client.w_self w) = Some er
  /\ TS.Client.httpClient (TS.Client.w_self w) = Some c
  /\ sessionId <> ""
  /\ exists m, TS.Client.sessionManager (TS.Client.w_self w) = Some m
              /\ TS.sessionIds m !! TS.sv_sessionKey (TS.er_server er) = Some sessionId.

(** The value has the error flag of the protocol: an [isError] property
    of its own that is truthy. *)
Definition carries_error_flag (v : JsVal) : bool :=
  McpUtils.hasattr v "isError" && truthy (get v "isError").

(** The Go client is initialized and has the id [sessionID] cached for
    the session key of the adapter. *)
Definition go_ready (w : Go.World) (sessionID : string) : Prop :=
  Go.w_initialized w = true
  /\ Go.w_sessions w !! Go.SessionKey Go.GetSessionInfo = Some sessionID.

Section Steps.
Context `{Runtime} `{TS.Env}.

(** What can happen to the recorder of the TypeScript SDK: an event is
    recorded, the queued request in flight settles, the delay between two
    queued requests elapses. *)
Inductive ts_step (c : TS.AnalyticsHttpClient) (er : TS.EventRecorder)
  : TS.RecState -> TS.RecState -> Prop :=
| ts_record primitiveType primitiveName args latency success result st :
    ts_step c er st
      (snd (TS.recordEvent c er primitiveType primitiveName args latency success result st))
| ts_settle st : ts_step c er st (TS.queue_settle st)
| ts_delay st : ts_step c er st (TS.queue_delay_elapsed c st).

End Steps.

(** What [sendEvent] does when every attempt fails: [remaining] requests,
    each but the one with [attempt = 0] preceded by a sleep of
    [RetryDelay]. *)
Fixpoint failing_trace (orgID : string) (config : Go.AgnostConfig) (event : Go.EventData)
    (remaining attempt : nat) : list Go.Action :=
  match remaining with
  | O => []
  | S remaining' =>
      (if (0 <? attempt)%nat then [Go.Sleep (Go.RetryDelay config)] else [])
      ++ Go.Do (Go.Endpoint config ++ "/api/v1/capture-event")%string orgID (Go.EventPayload event)
      :: failing_trace orgID config event remaining' (S attempt)
  end.

Section GoSteps.
Context `{Go.Env}.

(** What can happen to the Go client: an event is recorded, the worker
    receives an event from the channel, its ticker fires, [Flush] is
    called. *)
Inductive go_step (orgID : string) (config : Go.AgnostConfig) (tools : list string)
  : Go.World -> Go.World -> Prop :=
| go_record primitiveType primitiveName args latency success result w :
    go_step orgID config tools w
      (snd (Go.RecordEvent orgID config tools primitiveType primitiveName args latency
                           success result w))
| go_receive w : go_step orgID config tools w (Go.worker_receive orgID config w)
| go_tick w : go_step orgID config tools w (Go.worker_tick orgID config w)
| go_flush w : go_step orgID config tools w (Go.Flush orgID config w).

End GoSteps.

End Props.

(* ================================================================== *)
(** ** Server introspection (session/session-manager.ts) *)
(* ================================================================== *)

(** [getSessionKey] and [extractTools], which [ServerView] above stands
    for, written out. *)
Module Introspection.

(** The server handed to [getSessionKey], as far as the function reads it:
    [null], or an object with
    - the identity of its low-level server ([server.server] for a
      high-level server, the object itself otherwise), which is the key of
      [sessionKeyCache];
    - the class tag [Object.prototype.toString.call(v).slice(8, -1)] of
      [lowLevelServer.requestContext.session] when that value is truthy;
    - [server.transport.sessionId], the empty string standing for every
      falsy value;
    - the class tag of the server object.
    All are plain data properties: reading them does not throw, so the
    [catch] block of the function is not entered. *)
Inductive Host :=
| NullServer
| HostServer (low_level : nat) (context_session : option string)
             (transport_sessionId : string) (class_tag : string).

(** The key under which [sessionKeyCache] files the server; [None] is
    [null]. *)
Definition cache_key (server : Host) : option nat :=
  match server with
  | NullServer => None
  | HostServer low_level _ _ _ => Some low_level
  end.

Definition KeyCache : Type := gmap (option nat) string.

(** [getSessionKey(server)]; [now] is the reading of [Date.now()]. *)
Definition getSessionKey (now : Z) (server : Host) (sessionKeyCache : KeyCache)
  : string * KeyCache :=
  match sessionKeyCache !! cache_key server with
  | Some cached => (cached, sessionKeyCache)
  | None =>
      let sessionKey :=
        match server with
        | HostServer _ (Some tag) _ _ => "session_" ++ tag ++ "_" ++ pretty now
        | HostServer _ None transport_sessionId class_tag =>
            if negb (String.eqb transport_sessionId "") then transport_sessionId
            else "server_" ++ class_tag ++ "_" ++ pretty now
        | NullServer => "server_unknown_" ++ pretty now
        end in
      (sessionKey, <[cache_key server := sessionKey]> sessionKeyCache)
  end.


Section WithRuntime.
Context `{Runtime}.





End WithRuntime.

End Introspection.

(* ================================================================== *)
(** ** Entry points of the TypeScript SDK (index.ts, core/analytics-client.ts) *)
(* ================================================================== *)

Module Index.

(** A [Partial<AgnostConfig>]: [None] where the object has no such key.
    Keys given with the value [undefined] are not represented. *)
Record PartialConfig := mkPartial {
  p_endpoint : option string;
  p_disableInput : option bool;
  p_disableOutput : option bool;
  p_enableRequestQueuing : option bool;
  p_batchSize : option Z;
  p_maxRetries : option Z;
  p_retryDelay : option Z;
  p_requestTimeout : option Z;
  p_identify : option TS.IdentifyFunction;
}.

(** The object [{}]. *)
Definition no_options : PartialConfig :=
  mkPartial None None None None None None None None None.

Definition DEFAULT_CONFIG : TS.AgnostConfig :=
  TS.mkConfig "https://api.agnost.ai" false false (Some true) (Some 5%Z) (Some 3%Z)
              (Some 1000%Z) (Some 5000%Z) None.

(** One key of [{...DEFAULT_CONFIG, ...config}] for an optional property. *)
Definition spread {A : Type} (given : option A) (fallback : option A) : option A :=
  match given with
  | Some v => Some v
  | None => fallback
  end.

(** [createConfig(config)]. *)
Definition createConfig (config : PartialConfig) : TS.AgnostConfig :=
  TS.mkConfig (default (TS.endpoint DEFAULT_CONFIG) (p_endpoint config))
              (default (TS.disableInput DEFAULT_CONFIG) (p_disableInput config))
              (default (TS.disableOutput DEFAULT_CONFIG) (p_disableOutput config))
              (spread (p_enableRequestQueuing config) (TS.enableRequestQueuing DEFAULT_CONFIG))
              (spread (p_batchSize config) (TS.batchSize DEFAULT_CONFIG))
              (spread (p_maxRetries config) (TS.maxRetries DEFAULT_CONFIG))
              (spread (p_retryDelay config) (TS.retryDelay DEFAULT_CONFIG))
              (spread (p_requestTimeout config) (TS.requestTimeout DEFAULT_CONFIG))
              (spread (p_identify config) (TS.identify DEFAULT_CONFIG)).

(** [process.env.NAME || fallback]: an unset variable and an empty one are
    both falsy. *)
Definition env_or (value : option string) (fallback : string) : string :=
  match value with
  | Some s => if String.eqb s "" then fallback else s
  | None => fallback
  end.

(** [process.env.NAME === "text"]. *)
Definition env_is (value : option string) (text : string) : bool :=
  match value with
  | Some s => String.eqb s text
  | None => false
  end.

Section WithParseInt.
(** [parseInt(s, 10)]; [None] is [NaN]. *)
Variable parseInt : string -> option Z.

(** [configureFromEnv()], for the environment [env]. *)
Definition configureFromEnv (env : gmap string string) : Outcome (string * TS.AgnostConfig) :=
  let endpoint := env_or (env !! "AGNOST_ENDPOINT") "https://api.agnost.ai" in
  let orgId := env !! "AGNOST_ORG_ID" in
  let disableInput := env_is (env !! "AGNOST_DISABLE_INPUT") "true" in
  let disableOutput := env_is (env !! "AGNOST_DISABLE_OUTPUT") "true" in
  let enableRequestQueuing := negb (env_is (env !! "AGNOST_ENABLE_REQUEST_QUEUING") "false") in
  let batchSize := parseInt (env_or (env !! "AGNOST_BATCH_SIZE") "5") in
  match orgId with
  | Some id =>
      if String.eqb id "" then
        Throw (JError "AGNOST_ORG_ID environment variable is required")
      else
        Ret (id,
             createConfig
               (mkPartial (Some endpoint) (Some disableInput) (Some disableOutput)
                          (Some enableRequestQueuing) (Some (default 5%Z batchSize))
                          None None None None))
  | None => Throw (JError "AGNOST_ORG_ID environment variable is required")
  end.

End WithParseInt.


Section WithOracles.
Context `{Runtime} `{TS.Env}.




(** [trackMCP(server, orgId, config)] of the module. *)
Definition trackMCP (server : option TS.Client.Server) (orgId : string) (config : PartialConfig)
    (w : TS.Client.World) : TS.Client.World :=
  TS.Client.trackMcp server orgId (Some (createConfig config)) w.

End WithOracles.

End Index.

(* ================================================================== *)
(** ** Runs of the request queue *)
(* ================================================================== *)

Module QueueRuns.
Section Runs.
Context {R : Type}.

(** The requests handed to [enqueue] by a sequence of events. *)
Definition enqueued (events : list (QueueLoop.Event R)) : list R :=
  omap (fun e => match e with QueueLoop.Enqueue r => Some r | _ => None end) events.

(** No event of the sequence is a call of [clear()]. *)
Definition never_cleared (events : list (QueueLoop.Event R)) : bool :=
  forallb (fun e => match e with QueueLoop.Clear => false | _ => true end) events.

(** The request in flight settles and the delay that follows it elapses,
    [n] times over. *)
Fixpoint rounds (n : nat) : list (QueueLoop.Event R) :=
  match n with
  | O => []
  | S n' => QueueLoop.Settle :: QueueLoop.DelayElapsed :: rounds n'
  end.

(** [processQueue] is not running. *)
Definition idle (q : TS.RequestQueue.t R) : bool :=
  match TS.RequestQueue.worker q with
  | TS.RequestQueue.Idle => true
  | _ => false
  end.

(** [isProcessing] is set exactly while [processQueue] runs, and no
    request waits while it does not. *)
Definition consistent (q : TS.RequestQueue.t R) : Prop :=
  TS.RequestQueue.isProcessing q = negb (idle q)
  /\ (idle q = true -> TS.RequestQueue.queue q = []).

(** The requests the queue has dealt with or still holds: those settled,
    the one in flight, those waiting. *)
Definition delivery_order (s : QueueLoop.State R) : list R :=
  (QueueLoop.settled s ++ QueueLoop.in_flight (QueueLoop.rq s)
   ++ TS.RequestQueue.queue (QueueLoop.rq s))%list.

End Runs.
End QueueRuns.

(* ================================================================== *)
(** ** Go SDK: session identifiers (utils.go) *)
(* ================================================================== *)

Module GoUtils.

(** Bytes are integers in [0, 256). *)

(** [(b & 0x0f) | 0x40] and [(b & 0x3f) | 0x80]. *)
Definition set_version (b : Z) : Z := Z.lor (Z.land b 0x0f) 0x40.

Definition set_variant (b : Z) : Z := Z.lor (Z.land b 0x3f) 0x80.

(** The two assignments to [b[6]] and [b[8]].  The slice has 16 bytes, so
    neither index is out of range. *)
Definition stamp (b : list Z) : list Z := alter set_variant 8%nat (alter set_version 6%nat b).

Definition hex_digit (n : Z) : ascii :=
  match String.get (Z.to_nat n) "0123456789abcdef" with
  | Some a => a
  | None => "0"%char
  end.

(** The verb [%x] on one byte: high nibble, low nibble. *)
Definition hex_byte (b : Z) : string :=
  String (hex_digit (Z.shiftr b 4)) (String (hex_digit (Z.land b 0x0f)) EmptyString).

(** The verb [%x] on a byte slice.  The widths of the verbs in
    [generateSessionID] equal the lengths printed, so nothing is padded. *)
Fixpoint hex (bs : list Z) : string :=
  match bs with
  | [] => EmptyString
  | b :: rest => hex_byte b ++ hex rest
  end.

(** [b[lo:hi]]. *)
Definition slice (lo hi : nat) (b : list Z) : list Z := take (hi - lo) (drop lo b).

(** [generateSessionID()], given the 16 bytes [rand.Read] delivers. *)
Definition generateSessionID (random : list Z) : string :=
  let b := stamp random in
  hex (slice 0 4 b) ++ "-" ++ hex (slice 4 6 b) ++ "-" ++ hex (slice 6 8 b) ++ "-"
  ++ hex (slice 8 10 b) ++ "-" ++ hex (slice 10 16 b).

End GoUtils.

(* ================================================================== *)
(** ** Go SDK: the client and its mutex (analytics.go, adapter.go, agnost.go) *)
(* ================================================================== *)

Module GoClient.

(** How a call ends: it returns; it panics, the panic leaving the call
    with the mutex of the client locked or not ([mu]); the runtime stops
    the program with a fatal error; or the goroutine waits for a lock
    that is never released.  The model does not follow the program past
    a panic. *)
Inductive Completion (A : Type) : Type :=
| Returns (a : A)
| Panics (message : string) (mu : bool)
| Crashes (message : string)
| Blocks.
Arguments Returns {A} a.
Arguments Panics {A} message mu.
Arguments Crashes {A} message.
Arguments Blocks {A}.

(** A tool handler of the host, or the closure [WrapToolHandler] builds
    around a handler. *)
Inductive ToolHandler :=
| HostHandler (id : nat)
| Tracked (toolName : string) (handler : ToolHandler).

(** [DefaultConfig()]; durations are in nanoseconds. *)
Definition DefaultConfig : Go.AgnostConfig :=
  Go.mkConfig "https://api.agnost.ai" false false true 5 3 1000000000 5000000000 None.

(** The client ([initialized], the session manager, the event processor
    and the effects are the fields of [core]), the server its adapter
    holds, its mutex ([mu] is [true] while it is locked for writing), the
    tool tables of the servers of the host, and the number of goroutines
    started to create an initial session. *)
Record World := mkWorld {
  core : Go.World;
  config : option Go.AgnostConfig;
  orgID : string;
  overrideApplied : bool;
  serverAdapter : option nat;
  mu : bool;
  servers : gmap nat (gmap string ToolHandler);
  initial_sessions : nat;
}.

(** [NewAgnostAnalytics()], in a host with the given servers. *)
Definition NewAgnostAnalytics (servers : gmap nat (gmap string ToolHandler)) : World :=
  mkWorld (Go.mkWorld (Go.mkIO [] [] 0 0) Go.newEventProcessor ∅ false)
          None "" false None false servers 0.

Definition with_core (g : Go.World) (w : World) : World :=
  mkWorld g (config w) (orgID w) (overrideApplied w) (serverAdapter w) (mu w) (servers w)
          (initial_sessions w).

Definition with_mu (locked : bool) (w : World) : World :=
  mkWorld (core w) (config w) (orgID w) (overrideApplied w) (serverAdapter w) locked (servers w)
          (initial_sessions w).

(** [a.mu.Lock()]: [None] when the mutex is held, and the caller waits. *)
Definition Lock (w : World) : option World :=
  if mu w then None else Some (with_mu true w).

(** [a.mu.Unlock()]: [None] when the mutex is not locked, which is a fatal
    error of the runtime. *)
Definition Unlock (w : World) : option World :=
  if mu w then Some (with_mu false w) else None.

(** The deferred [a.mu.Unlock()], run when the function returns [r]. *)
Definition deferred_Unlock {A : Type} (r : A * World) : Completion (A * World) :=
  match Unlock (snd r) with
  | Some w => Returns (fst r, w)
  | None => Crashes "fatal error: sync: Unlock of unlocked RWMutex"
  end.

(** A deferred [a.mu.Unlock()], run while a panic unwinds. *)
Definition unwinding {A : Type} (message : string) (mu_ : bool) : Completion A :=
  if mu_ then Panics message false
  else Crashes "fatal error: sync: Unlock of unlocked RWMutex".

(** [Initialize] between its [Lock] and its deferred [Unlock].  A new
    session manager has no sessions and a new event processor an empty
    channel and batch.  [NewEventProcessor] makes the batch a slice of
    capacity [BatchSize], which panics when that is negative (that the
    memory holds a slice of any other capacity is taken for granted). *)
Definition Initialize_locked (s : option nat) (orgID_ : string)
    (config_ : option Go.AgnostConfig) (w : World) : Completion (option Go.error * World) :=
  if Go.w_initialized (core w) then Returns (None, w)
  else
    match s with
    | None => Returns (Some "server cannot be nil", w)
    | Some srv =>
        if String.eqb orgID_ "" then Returns (Some "organization ID is required", w)
        else if (Go.BatchSize (default DefaultConfig config_) <? 0)%Z then
          Panics "panic: runtime error: makeslice: cap out of range" (mu w)
        else
          Returns
            (None,
             mkWorld (Go.mkWorld (Go.w_io (core w)) Go.newEventProcessor ∅ true)
                     (Some (default DefaultConfig config_)) orgID_ (overrideApplied w)
                     (Some srv) (mu w) (servers w) (initial_sessions w))
    end.

(** [Initialize(s, orgID, config)]. *)
Definition Initialize (s : option nat) (orgID_ : string) (config_ : option Go.AgnostConfig)
    (w : World) : Completion (option Go.error * World) :=
  match Lock w with
  | None => Blocks
  | Some w1 =>
      match Initialize_locked s orgID_ config_ w1 with
      | Returns r => deferred_Unlock r
      | Panics message mu_ => unwinding message mu_
      | Crashes message => Crashes message
      | Blocks => Blocks
      end
  end.

(** [PatchServer(callback)] of the adapter holding [srv] ([Initialize]
    stores no nil server).  [ListTools] returns the tool table and
    [SetTools] replaces it; the table has no nil entry. *)
Definition PatchServer (srv : nat) (w : World) : World :=
  let tools := default ∅ (servers w !! srv) in
  if decide (tools = ∅) then w
  else
    mkWorld (core w) (config w) (orgID w) (overrideApplied w) (serverAdapter w) (mu w)
            (<[srv := map_imap (fun name handler => Some (Tracked name handler)) tools]>
               (servers w))
            (initial_sessions w).

(** [TrackMCP] from the test of [initialized] on, the mutex held. *)
Definition TrackMCP_patch (w : World) : Completion (option Go.error * World) :=
  match serverAdapter w with
  | None =>
      Panics "panic: runtime error: invalid memory address or nil pointer dereference" (mu w)
  | Some srv =>
      let w1 := PatchServer srv w in
      Returns (None,
               mkWorld (core w1) (config w1) (orgID w1) true (serverAdapter w1) (mu w1)
                       (servers w1) (S (initial_sessions w1)))
  end.

(** [TrackMCP] between its [Lock] and its deferred [Unlock]. *)
Definition TrackMCP_locked (s : option nat) (orgID_ : string)
    (config_ : option Go.AgnostConfig) (w : World) : Completion (option Go.error * World) :=
  if overrideApplied w then Returns (None, w)
  else if Go.w_initialized (core w) then TrackMCP_patch w
  else
    match Unlock w with
    | None => Crashes "fatal error: sync: Unlock of unlocked RWMutex"
    | Some w1 =>
        match Initialize s orgID_ config_ w1 with
        | Returns (Some err, w2) =>
            Returns (Some err,
                     with_core (Go.with_io (Go.Error ("Failed to initialize analytics: " ++ err)
                                                     (Go.w_io (core w2))) (core w2)) w2)
        | Returns (None, w2) =>
            match Lock w2 with
            | None => Blocks
            | Some w3 => TrackMCP_patch w3
            end
        | Panics message mu_ => Panics message mu_
        | Crashes message => Crashes message
        | Blocks => Blocks
        end
    end.

(** [TrackMCP(s, orgID, config)]. *)
Definition TrackMCP (s : option nat) (orgID_ : string) (config_ : option Go.AgnostConfig)
    (w : World) : Completion (option Go.error * World) :=
  match Lock w with
  | None => Blocks
  | Some w1 =>
      match TrackMCP_locked s orgID_ config_ w1 with
      | Returns r => deferred_Unlock r
      | Panics message mu_ => unwinding message mu_
      | Crashes message => Crashes message
      | Blocks => Blocks
      end
  end.

(** [Track(s, orgID, config)] on the global client. *)
Definition Track (s : option nat) (orgID_ : string) (config_ : option Go.AgnostConfig)
    (w : World) : Completion (option Go.error * World) :=
  TrackMCP s orgID_ (Some (default DefaultConfig config_)) w.

Section WithOracles.
Context `{Go.Env}.




(** [ExtractTools()] of the adapter: the names of the tool table, in the
    order the map happens to be traversed. *)
Definition ExtractTools (w : World) : list string :=
  match serverAdapter w with
  | Some srv => (map_to_list (default ∅ (servers w !! srv))).*1
  | None => []
  end.

(** [RecordEvent(...)] of the client: [Go.RecordEvent] under the read
    lock. *)
Definition RecordEvent (primitiveType primitiveName : string) (args : Go.Any) (latency : Z)
    (success : bool) (result : Go.Any) (w : World) : Completion (option Go.error * World) :=
  if mu w then Blocks
  else
    let '(err, g) := Go.RecordEvent (orgID w) (default DefaultConfig (config w)) (ExtractTools w)
                                    primitiveType primitiveName args latency success result
                                    (core w) in
    Returns (err, with_core g w).

End WithOracles.

End GoClient.

(* ================================================================== *)
(** ** Further vocabulary *)
(* ================================================================== *)

Module Bounds.

(** Neither pool holds more records than [maxSize]. *)
Definition pools_bounded (p : TS.DataObjectPools) : Prop :=
  (List.length (TS.sessionDataPool p) <= TS.ObjectPool.maxSize)%nat
  /\ (List.length (TS.eventDataPool p) <= TS.ObjectPool.maxSize)%nat.

(** The record a call of [startSession] that creates a session posts
    when [identifyUser] resolves to [userIdentity]: a record from the
    pool, filled with the new identifier and the client name, the
    identity if it is truthy, and the tool names if there are any.  A
    dummy session has a fixed client name and extracts no tools. *)
Definition session_record `{TS.Env} (sv : TS.ServerView) (dummy : bool)
    (userIdentity : JsVal) (st : TS.SmState) : TS.SessionData :=
  TS.attach_tools (if dummy then [] else TS.sv_tools sv)
    (TS.attach_user userIdentity
       (TS.fill_session (TS.uuidv4 (TS.uuids_drawn (TS.sm_io st)))
          (if dummy then "unidentified_client" else TS.sv_clientName sv)
          (fst (TS.getSessionData (TS.sm_pools st))))).

(** The info line of [createDummySession] can be built for the identity
    [userIdentity]. *)
Definition info_line_ok `{Runtime} (userIdentity : JsVal) : bool :=
  match TS.dummy_info_line userIdentity with
  | Value _ => true
  | TypeError _ => false
  end.

(** The collector takes the next request posted. *)
Definition accepts_next `{TS.Env} (io : TS.IO) : bool :=
  TS.axios_resolves (TS.collector (List.length (TS.posted io))).

(** The value is an instance of [Error]. *)
Definition is_error_instance (v : JsVal) : bool :=
  match v with JError _ => true | _ => false end.

(** The requests [sendEvent] makes when its first [failures] attempts fail
    and the next one succeeds. *)
Definition retry_trace (orgID : string) (config : Go.AgnostConfig) (event : Go.EventData)
    (failures : nat) : list Go.Action :=
  Props.failing_trace orgID config event (S failures) 0.

End Bounds.

(** Further closed examples. *)
Module Examples.



(** A recorder whose session manager has the session "uuid-0" cached for
    the server of [Sample.server_view]. *)
Definition rec_with_session : TS.RecState :=
  TS.mkRec (TS.mkSm Sample.io0
                    (TS.set_sessionId "session-1" "uuid-0" (TS.newSessionManager None JUndefined))
                    (TS.mkPools [] []))
           TS.RequestQueue.new None.

(** The first request is refused with status 503, the second accepted. *)
#[local] Instance go_recovering : Go.Env := {|
  Go.generateSessionID := fun n => "id-" ++ pretty n;
  Go.roundTrip := fun n => match n with
                           | O => Go.Response 503 (Some "unavailable")
                           | _ => Go.Response 200 (Some "ok")
                           end;
  Go.read_error := fun _ => "unexpected EOF";
  Go.url_ok := fun _ => true;
|}.

(** A host with one server that has one tool. *)
Definition go_servers : gmap nat (gmap string GoClient.ToolHandler) :=
  {[ 1%nat := {[ "echo" := GoClient.HostHandler 0 ]} ]}.

(** An initialized Go client with a session and a full channel. *)
Definition go_world_full : Go.World :=
  Go.mkWorld Sample.go_io0
             (Go.mkProcessor (repeat (Go.mkEventData "id-0" "tool" "echo" 1 true "" "") 100) [])
             {[ "mcp-go-default" := "id-0" ]} true.

(** The sixteen bytes 0x00, 0x11, ..., 0xff. *)
Definition random_bytes : list Z :=
  [0; 17; 34; 51; 68; 85; 102; 119; 136; 153; 170; 187; 204; 221; 238; 255]%Z.

End Examples.

(* ================================================================== *)
(** ** Properties *)
(* ================================================================== *)

Import Props.

(** *** Identity resolution *)

Section Identity.
Context `{Runtime} `{TS.Env}.





Lemma identifyUser_resume_frame (p : TS.IdentifyPending) (st : TS.SmState) :
  TS.posted (TS.sm_io (snd (TS.identifyUser_resume p st))) = TS.posted (TS.sm_io st)
  /\ TS.sm_pools (snd (TS.identifyUser_resume p st)) = TS.sm_pools st
  /\ TS.sessionIds (TS.sm_self (snd (TS.identifyUser_resume p st)))
     = TS.sessionIds (TS.sm_self st)
  /\ TS.uuids_drawn (TS.sm_io (snd (TS.identifyUser_resume p st)))
     = TS.uuids_drawn (TS.sm_io st).
Proof.
  destruct p as [v|[result|e]]; simpl; [tauto| |].
  - destruct (truthy result && negb (truthy (get result "userId"))); simpl; tauto.
  - destruct (error_text e); simpl; tauto.
Qed.

Lemma identifyUser_io (st : TS.SmState) :
  TS.posted (TS.sm_io (snd (TS.identifyUser st))) = TS.posted (TS.sm_io st)
  /\ TS.sm_pools (snd (TS.identifyUser st)) = TS.sm_pools st.
Proof.
  destruct (identifyUser_resume_frame (TS.identifyUser_call (TS.sm_self st)) st) as (Hp & Hl & _).
  split; assumption.
Qed.















Lemma identifyUser_resume_rejects (p : TS.IdentifyPending) (st st' : TS.SmState) message :
  fst (TS.identifyUser_resume p st) = TypeError message ->
  TS.identifyUser_resume p st' = (TypeError message, st').
Proof.
  destruct p as [v|[result|e]]; cbn [TS.identifyUser_resume].
  - discriminate.
  - destruct (truthy result && negb (truthy (get result "userId"))); discriminate.
  - destruct (error_text e) as [text|m]; [discriminate|].
    cbn [fst]. intros [= <-]. reflexivity.
Qed.

Lemma identifyUser_resume_value (p : TS.IdentifyPending) (st st' : TS.SmState) :
  fst (TS.identifyUser_resume p st) = fst (TS.identifyUser_resume p st').
Proof.
  destruct p as [v|[result|e]]; simpl; [reflexivity| |].
  - destruct (truthy result && negb (truthy (get result "userId"))); reflexivity.
  - destruct (error_text e); reflexivity.
Qed.

(** A call of [startSession] that gets as far as [identifyUser], which
    rejects: nothing is posted, and the [catch] block answers. *)
Lemma startSession_rejected c sv key dummy (st : TS.SmState) message :
  dummy = true \/ TS.sessionIds (TS.sm_self st) !! key = None ->
  fst (TS.identifyUser st) = TypeError message ->
  TS.startSession c sv key dummy st
  = (Some "",
     TS.sm_log (if dummy then LError else LWarning)
               ((if dummy then "Failed to start dummy session: " else "Failed to start session: ")
                ++ message)
               (TS.mkSm (TS.mkIO (TS.log (TS.sm_io st)) (TS.posted (TS.sm_io st))
                                 (S (TS.uuids_drawn (TS.sm_io st))))
                        (TS.sm_self st) (TS.sm_pools st))).
Proof.
  intros Hcase Hrej. unfold TS.identifyUser in Hrej.
  unfold TS.startSession, TS.startSession_enter.
  cbn [TS.sc_dummy TS.sc_sessionKey TS.sc_server].
  destruct dummy.
  - cbn [TS.draw_uuid TS.startSession_run TS.startSession_resume TS.sc_dummy].
    rewrite (identifyUser_resume_rejects _ st _ message Hrej). reflexivity.
  - destruct Hcase as [Hd|Hmiss]; [discriminate Hd|]. rewrite Hmiss.
    cbn [TS.draw_uuid TS.startSession_run TS.startSession_resume TS.sc_dummy].
    rewrite (identifyUser_resume_rejects _ st _ message Hrej). reflexivity.
Qed.

End Identity.

Section IdentityClaim.
Context `{Runtime} `{TS.Env}.


End IdentityClaim.



(** *** Privacy filtering *)

Section RecorderInvariant.
Context `{Runtime} `{TS.Env}.
Variable c : TS.AnalyticsHttpClient.

(** Session creation posts no event. *)
Lemma startSession_resume_posted_events (call : TS.StartCall) (pc : TS.StartPc) (st : TS.SmState) :
  posted_events (TS.sm_io (snd (TS.startSession_resume c call pc st)))
  = posted_events (TS.sm_io st).
Proof.
  assert (Hb : forall id cn u ts st',
             posted_events (TS.sm_io (snd (TS.build_and_post c id cn u ts st')))
             = posted_events (TS.sm_io st')).
  { intros. unfold TS.build_and_post. destruct (TS.getSessionData _); simpl.
    unfold posted_events; simpl. rewrite omap_app; simpl. apply app_nil_r. }
  assert (Hf : forall dummy message st',
             posted_events (TS.sm_io (snd (TS.start_failed dummy message st')))
             = posted_events (TS.sm_io st')).
  { intros. unfold TS.start_failed. destruct dummy; reflexivity. }
  destruct pc as [id cn p|id cn u|id d u n|ret]; cbn [TS.startSession_resume].
  - destruct (identifyUser_resume_frame p st) as (Hpo & _).
    destruct (TS.identifyUser_resume p st) as [[u|message] st1]; cbn [fst snd] in *.
    + destruct (TS.sc_dummy call); [rewrite Hb|cbn [snd]]; unfold posted_events; rewrite Hpo;
        reflexivity.
    + rewrite Hf. unfold posted_events. rewrite Hpo. reflexivity.
  - rewrite Hb. reflexivity.
  - destruct (TS.axios_resolves _); [|apply Hf].
    destruct (TS.sc_dummy call); [|reflexivity].
    destruct (TS.dummy_info_line u); [reflexivity|apply Hf].
  - reflexivity.
Qed.

Lemma startSession_posted_events sv key dummy (st : TS.SmState) :
  posted_events (TS.sm_io (snd (TS.startSession c sv key dummy st)))
  = posted_events (TS.sm_io st).
Proof.
  unfold TS.startSession.
  assert (He : posted_events (TS.sm_io (snd (TS.startSession_enter (TS.mkStartCall sv key dummy) st)))
               = posted_events (TS.sm_io st)).
  { unfold TS.startSession_enter; simpl. destruct dummy; simpl; [reflexivity|].
    destruct (TS.sessionIds (TS.sm_self st) !! key); reflexivity. }
  destruct (TS.startSession_enter _ st) as [pc0 st0]; cbn [fst snd] in *.
  rewrite <- He. clear He. generalize 3%nat as fuel. intros fuel.
  revert pc0 st0. induction fuel as [|fuel IH]; intros pc0 st0; simpl; [reflexivity|].
  pose proof (startSession_resume_posted_events (TS.mkStartCall sv key dummy) pc0 st0) as Hr.
  destruct (TS.startSession_resume c _ pc0 st0) as [pc1 st1]; cbn [fst snd] in *.
  rewrite <- Hr. apply IH.
Qed.

Lemma getOrCreateSessionId_posted_events er (st : TS.SmState) :
  posted_events (TS.sm_io (snd (TS.getOrCreateSessionId c er st)))
  = posted_events (TS.sm_io st).
Proof.
  unfold TS.getOrCreateSessionId.
  destruct (negb (String.eqb (default "" _) "")); [reflexivity|].
  pose proof (startSession_posted_events (TS.er_server er)
                (TS.sv_sessionKey (TS.er_server er)) false st) as Hs.
  destruct (TS.startSession c _ _ false st) as [r st1]; cbn [fst snd] in *.
  destruct (negb (String.eqb (default "" r) "")); simpl; exact Hs.
Qed.

Variable P : TS.EventData -> Prop.

Lemma loop_head_events (q : TS.RequestQueue.t TS.EventData) :
  Forall P (TS.RequestQueue.queue q) ->
  Forall P (TS.RequestQueue.queue (fst (TS.RequestQueue.loop_head q)))
  /\ Forall P (QueueLoop.in_flight (fst (TS.RequestQueue.loop_head q)))
  /\ (forall r, snd (TS.RequestQueue.loop_head q) = Some r -> P r).
Proof.
  intros Hq. unfold TS.RequestQueue.loop_head.
  destruct (TS.RequestQueue.queue q) as [|r rest]; simpl.
  - repeat split; [constructor | constructor | discriminate].
  - inversion Hq; subst. repeat split; [assumption | repeat constructor; assumption |].
    intros r' [= <-]. assumption.
Qed.

Lemma start_queued_events started (st : TS.SmState) :
  (forall r, started = Some r -> P r) ->
  Forall P (posted_events (TS.sm_io st)) ->
  Forall P (posted_events (TS.sm_io (snd (TS.start_queued c started st)))).
Proof.
  intros Hs Hp. destruct started as [ev|]; simpl; [|exact Hp].
  unfold posted_events; simpl. rewrite omap_app; simpl.
  apply Forall_app; split; [exact Hp | repeat constructor; auto].
Qed.

Lemma enqueue_events ev (q : TS.RequestQueue.t TS.EventData) :
  P ev ->
  Forall P (TS.RequestQueue.queue q) -> Forall P (QueueLoop.in_flight q) ->
  Forall P (TS.RequestQueue.queue (fst (TS.RequestQueue.enqueue ev q)))
  /\ Forall P (QueueLoop.in_flight (fst (TS.RequestQueue.enqueue ev q)))
  /\ (forall r, snd (TS.RequestQueue.enqueue ev q) = Some r -> P r).
Proof.
  intros Hev Hq Hf.
  assert (Hq1 : Forall P (TS.RequestQueue.queue q ++ [ev])).
  { apply Forall_app; split; [exact Hq | repeat constructor; exact Hev]. }
  unfold TS.RequestQueue.enqueue; simpl.
  destruct (TS.RequestQueue.isProcessing q) eqn:Hp; simpl.
  - repeat split; [exact Hq1 | exact Hf | discriminate].
  - unfold TS.RequestQueue.processQueue; simpl.
    destruct (bool_decide _); simpl.
    + repeat split; [exact Hq1 | exact Hf | discriminate].
    + apply (loop_head_events (TS.RequestQueue.mk (TS.RequestQueue.queue q ++ [ev]) true
                                 (TS.RequestQueue.worker q))). exact Hq1.
Qed.

End RecorderInvariant.

Section RecorderSteps.
Context `{Runtime} `{TS.Env}.
Variable c : TS.AnalyticsHttpClient.
Variable er : TS.EventRecorder.
Variable P : TS.EventData -> Prop.
Hypothesis built :
  forall sessionId primitiveType primitiveName args latency success result,
    P (TS.buildEventData c (TS.er_config er) sessionId primitiveType primitiveName
                         args latency success result).

Lemma events_of_split (st : TS.RecState) :
  Forall P (events_of st) <->
  Forall P (TS.RequestQueue.queue (TS.rs_queue st))
  /\ Forall P (QueueLoop.in_flight (TS.rs_queue st))
  /\ Forall P (posted_events (TS.rs_io st)).
Proof. unfold events_of. rewrite !Forall_app. reflexivity. Qed.

Lemma recordEvent_events primitiveType primitiveName args latency success result
    (st : TS.RecState) :
  Forall P (events_of st) ->
  Forall P (events_of (snd (TS.recordEvent c er primitiveType primitiveName args latency
                                           success result st))).
Proof.
  rewrite !events_of_split. intros (Hq & Hf & Hp).
  unfold TS.recordEvent.
  pose proof (getOrCreateSessionId_posted_events c er (TS.rs_sm st)) as Hg.
  destruct (TS.getOrCreateSessionId c er (TS.rs_sm st)) as [sid sm1]; cbn [fst snd] in *.
  unfold TS.rs_io in *.
  destruct (String.eqb sid ""); cbn [fst snd].
  { repeat split; [exact Hq | exact Hf |]. simpl. unfold posted_events in *. simpl.
    rewrite Hg. exact Hp. }
  destruct (TS.getEventData (TS.sm_pools sm1)) as [obj pools1].
  set (ev := TS.buildEventData c (TS.er_config er) sid primitiveType primitiveName args
                               latency success result).
  assert (Hev : P ev) by apply built.
  destruct (TS.shouldQueue (TS.er_config er)).
  - destruct (enqueue_events P ev (TS.rs_queue st) Hev Hq Hf) as (Hq1 & Hf1 & Hs1).
    destruct (TS.RequestQueue.enqueue ev (TS.rs_queue st)) as [q1 started]; cbn [fst snd] in *.
    pose proof (start_queued_events c P started (TS.mkSm (TS.sm_io sm1) (TS.sm_self sm1) pools1) Hs1)
      as Hst.
    destruct (TS.start_queued c started _) as [n sm3]; cbn [fst snd] in *.
    repeat split; [exact Hq1 | exact Hf1 |]. simpl. apply Hst. simpl. rewrite Hg. exact Hp.
  - simpl. assert (Hp1 : Forall P (posted_events
               (TS.mkIO (TS.log (TS.sm_io sm1))
                        (TS.posted (TS.sm_io sm1)
                         ++ [TS.PostEvent (TS.baseUrl c ++ "/api/v1/capture-event") (TS.orgId c) ev])
                        (TS.uuids_drawn (TS.sm_io sm1))))).
    { unfold posted_events; simpl. rewrite omap_app; simpl.
      apply Forall_app; split; [|repeat constructor; exact Hev].
      unfold posted_events in Hg. rewrite Hg. exact Hp. }
    destruct (TS.axios_resolves _); simpl; repeat split; assumption.
Qed.

Lemma queue_settle_events (st : TS.RecState) :
  Forall P (events_of st) -> Forall P (events_of (TS.queue_settle st)).
Proof.
  rewrite !events_of_split. intros (Hq & Hf & Hp). unfold TS.queue_settle.
  destruct (TS.RequestQueue.worker (TS.rs_queue st)) as [|ev|] eqn:Hw; try (repeat split; assumption).
  destruct (TS.rs_inflight st) as [n|]; [|repeat split; assumption].
  unfold TS.RequestQueue.settle. rewrite Hw.
  destruct (TS.RequestQueue.queue (TS.rs_queue st)) as [|r rest] eqn:Hqq; simpl.
  - unfold TS.RequestQueue.loop_head. rewrite Hqq. simpl.
    repeat split; [constructor | constructor |].
    unfold TS.rs_io in *. simpl. destruct (TS.axios_resolves _); exact Hp.
  - repeat split; [exact Hq | constructor |].
    unfold TS.rs_io in *. simpl. destruct (TS.axios_resolves _); exact Hp.
Qed.

Lemma queue_delay_elapsed_events (st : TS.RecState) :
  Forall P (events_of st) -> Forall P (events_of (TS.queue_delay_elapsed c st)).
Proof.
  rewrite !events_of_split. intros (Hq & Hf & Hp). unfold TS.queue_delay_elapsed.
  assert (Hd : Forall P (TS.RequestQueue.queue (fst (TS.RequestQueue.delay_elapsed (TS.rs_queue st))))
               /\ Forall P (QueueLoop.in_flight (fst (TS.RequestQueue.delay_elapsed (TS.rs_queue st))))
               /\ (forall r, snd (TS.RequestQueue.delay_elapsed (TS.rs_queue st)) = Some r -> P r)).
  { unfold TS.RequestQueue.delay_elapsed.
    destruct (TS.RequestQueue.worker (TS.rs_queue st)); simpl;
      try (repeat split; [assumption | assumption | discriminate]).
    apply loop_head_events. exact Hq. }
  destruct Hd as (Hq1 & Hf1 & Hs1).
  destruct (TS.RequestQueue.delay_elapsed (TS.rs_queue st)) as [q1 started]; cbn [fst snd] in *.
  pose proof (start_queued_events c P started (TS.rs_sm st) Hs1 Hp) as Hst.
  destruct (TS.start_queued c started (TS.rs_sm st)) as [n sm1]; cbn [fst snd] in *.
  repeat split; assumption.
Qed.

Lemma ts_steps_events (st0 st : TS.RecState) :
  rtc (ts_step c er) st0 st -> Forall P (events_of st0) -> Forall P (events_of st).
Proof.
  induction 1 as [|st1 st2 st3 Hstep _ IH]; [auto|].
  intros Hinit. apply IH. destruct Hstep.
  - apply recordEvent_events. exact Hinit.
  - apply queue_settle_events. exact Hinit.
  - apply queue_delay_elapsed_events. exact Hinit.
Qed.

End RecorderSteps.

Section GoRecorderSteps.
Context `{Go.Env}.
Variable orgID : string.
Variable config : Go.AgnostConfig.
Variable tools : list string.
Variable P : Go.EventData -> Prop.
Hypothesis built :
  forall sessionID primitiveType primitiveName latency success args result,
    P (Go.mkEventData sessionID primitiveType primitiveName latency success
                      (Go.encode_unless (Go.DisableInput config) args)
                      (Go.encode_unless (Go.DisableOutput config) result)).

Lemma go_events_of_split (w : Go.World) :
  Forall P (go_events_of w) <->
  Forall P (Go.queue (Go.w_ep w)) /\ Forall P (Go.batchQueue (Go.w_ep w))
  /\ Forall P (go_sent_events (Go.w_io w)).
Proof. unfold go_events_of. rewrite !Forall_app. reflexivity. Qed.

Lemma go_sent_events_log (message : string) (io : Go.IO) :
  go_sent_events (Go.Warning message io) = go_sent_events io
  /\ go_sent_events (Go.Error message io) = go_sent_events io.
Proof. split; reflexivity. Qed.

Lemma send_attempts_events (event : Go.EventData) (remaining : nat) :
  forall attempt lastErr io,
  P event -> Forall P (go_sent_events io) ->
  Forall P (go_sent_events (snd (Go.send_attempts orgID config remaining attempt event lastErr io))).
Proof.
  induction remaining as [|remaining IH]; intros attempt lastErr io Hev Hio;
    cbn [Go.send_attempts]; [exact Hio|].
  assert (Hio2 : Forall P (go_sent_events
            (snd (Go.do_request (Go.Endpoint config ++ "/api/v1/capture-event") orgID
                    (Go.EventPayload event)
                    (if (0 <? attempt)%nat then Go.sleep (Go.RetryDelay config) io else io))))).
  { unfold go_sent_events, Go.do_request; simpl. rewrite omap_app; simpl.
    apply Forall_app; split; [|repeat constructor; exact Hev].
    destruct (0 <? attempt)%nat; simpl; [|exact Hio].
    rewrite omap_app; simpl. rewrite app_nil_r. exact Hio. }
  destruct (Go.do_request _ _ _ _) as [resp io2]; cbn [fst snd] in *.
  destruct resp as [err|code body].
  - apply IH; assumption.
  - destruct (Go.status_2xx code); [exact Hio2 | apply IH; assumption].
Qed.

Lemma sendEvent_events (event : Go.EventData) (io : Go.IO) :
  P event -> Forall P (go_sent_events io) ->
  Forall P (go_sent_events (snd (Go.sendEvent orgID config event io))).
Proof.
  intros Hev Hio. unfold Go.sendEvent. destruct (negb _); [exact Hio|].
  apply send_attempts_events; assumption.
Qed.

Lemma send_batch_events (batch : list Go.EventData) :
  forall io, Forall P batch -> Forall P (go_sent_events io) ->
  Forall P (go_sent_events (Go.send_batch orgID config batch io)).
Proof.
  induction batch as [|event rest IH]; intros io Hb Hio; simpl; [exact Hio|].
  inversion Hb; subst.
  pose proof (sendEvent_events event io ltac:(assumption) Hio) as Hs.
  destruct (Go.sendEvent orgID config event io) as [err io1]; cbn [fst snd] in *.
  apply IH; [assumption|]. destruct err; exact Hs.
Qed.

Lemma flushBatch_events (w : Go.World) :
  Forall P (go_events_of w) -> Forall P (go_events_of (Go.flushBatch orgID config w)).
Proof.
  rewrite !go_events_of_split. intros (Hq & Hb & Hs). unfold Go.flushBatch.
  destruct (Go.batchQueue (Go.w_ep w)) as [|event rest] eqn:Hbq.
  - rewrite Hbq. repeat split; assumption.
  - simpl. repeat split; [exact Hq | constructor |].
    apply (send_batch_events (event :: rest)); assumption.
Qed.

Lemma Flush_events (w : Go.World) :
  Forall P (go_events_of w) -> Forall P (go_events_of (Go.Flush orgID config w)).
Proof.
  intros Hw. unfold Go.Flush. destruct (Go.batchQueue (Go.w_ep w)) eqn:Hb; [exact Hw|].
  apply flushBatch_events. exact Hw.
Qed.

Lemma worker_receive_events (w : Go.World) :
  Forall P (go_events_of w) -> Forall P (go_events_of (Go.worker_receive orgID config w)).
Proof.
  intros Hw. unfold Go.worker_receive.
  destruct (Go.queue (Go.w_ep w)) as [|event rest] eqn:Hq; [exact Hw|].
  assert (Hw1 : Forall P (go_events_of
            (Go.with_ep (Go.mkProcessor rest (Go.batchQueue (Go.w_ep w) ++ [event])) w))).
  { apply go_events_of_split in Hw as (Hq' & Hb & Hs). rewrite Hq in Hq'. inversion Hq'; subst.
    apply go_events_of_split. simpl. repeat split; [assumption | | assumption].
    apply Forall_app; split; [assumption | repeat constructor; assumption]. }
  destruct (_ <=? _)%Z; [apply flushBatch_events|]; exact Hw1.
Qed.

Lemma GetOrCreateSession_step_events info (pc : Go.Pc) (w : Go.World) :
  go_events_of (snd (Go.GetOrCreateSession_step orgID config tools info pc w)) = go_events_of w.
Proof.
  unfold Go.GetOrCreateSession_step. destruct pc as [|id n|id|id err]; simpl.
  - destruct (Go.w_sessions w !! _); [reflexivity|].
    unfold Go.createSession_begin. destruct (negb (Go.marshals _)); [reflexivity|].
    destruct (negb (Go.url_ok _)); [reflexivity|]. simpl.
    unfold go_events_of, go_sent_events; simpl. rewrite omap_app; simpl. rewrite app_nil_r.
    reflexivity.
  - unfold Go.createSession_finish. destruct (Go.roundTrip n) as [e|code [body|]]; try reflexivity.
    destruct (negb _ && negb _); reflexivity.
  - reflexivity.
  - reflexivity.
Qed.

Lemma GetOrCreateSession_events info (w : Go.World) :
  go_events_of (snd (Go.GetOrCreateSession orgID config tools info w)) = go_events_of w.
Proof.
  unfold Go.GetOrCreateSession. generalize 3%nat Go.PcCheck. intros fuel. revert w.
  induction fuel as [|fuel IH]; intros w pc; simpl; [reflexivity|].
  pose proof (GetOrCreateSession_step_events info pc w) as Hs.
  destruct (Go.GetOrCreateSession_step orgID config tools info pc w) as [pc1 w1]; cbn [fst snd] in *.
  rewrite IH. exact Hs.
Qed.

Lemma RecordEvent_events primitiveType primitiveName args latency success result (w : Go.World) :
  Forall P (go_events_of w) ->
  Forall P (go_events_of (snd (Go.RecordEvent orgID config tools primitiveType primitiveName
                                              args latency success result w))).
Proof.
  intros Hw. unfold Go.RecordEvent. destruct (negb (Go.w_initialized w)); [exact Hw|].
  pose proof (GetOrCreateSession_events (Some Go.GetSessionInfo) w) as Hg.
  destruct (Go.GetOrCreateSession orgID config tools _ w) as [pc w1]; cbn [fst snd] in *.
  rewrite <- Hg in Hw. clear Hg.
  destruct pc as [|id n|id|id [err|]]; try exact Hw.
  set (event := Go.mkEventData _ _ _ _ _ _ _).
  assert (Hev : P event) by apply built.
  apply go_events_of_split in Hw as (Hq & Hb & Hs).
  destruct (Go.EnableRequestQueuing config).
  - simpl. unfold Go.QueueEvent. destruct (decide _); apply go_events_of_split; simpl.
    + repeat split; [|assumption|assumption].
      apply Forall_app; split; [assumption | repeat constructor; exact Hev].
    + repeat split; assumption.
  - pose proof (sendEvent_events event (Go.w_io w1) Hev Hs) as Hse.
    destruct (Go.sendEvent orgID config event (Go.w_io w1)) as [err io1]; cbn [fst snd] in *.
    destruct err; apply go_events_of_split; simpl; repeat split; assumption.
Qed.

Lemma go_steps_events (w0 w : Go.World) :
  rtc (go_step orgID config tools) w0 w -> Forall P (go_events_of w0) -> Forall P (go_events_of w).
Proof.
  induction 1 as [|w1 w2 w3 Hstep _ IH]; [auto|].
  intros Hinit. apply IH. destruct Hstep.
  - apply RecordEvent_events. exact Hinit.
  - apply worker_receive_events. exact Hinit.
  - apply Flush_events. exact Hinit.
  - apply Flush_events. exact Hinit.
Qed.

End GoRecorderSteps.

(** C5.  While [disableInput] is set, the [args] field of every event the
    recorder queues or posts is empty, whatever the arguments were; while
    [disableOutput] is set, so is the [result] field.  This holds in the
    TypeScript SDK (queued or synchronous delivery) and in the Go SDK
    (channel, batch and transport), from a client that holds no event, over
    every sequence of recorded events and delivery steps. *)
Theorem disabled_fields_are_empty :
  (forall (R : Runtime) (E : TS.Env) c er st0 st,
      events_of st0 = [] -> rtc (ts_step c er) st0 st ->
      (TS.disableInput (TS.er_config er) = true ->
       Forall (fun ev => TS.args ev = Some "") (events_of st))
      /\ (TS.disableOutput (TS.er_config er) = true ->
          Forall (fun ev => TS.result ev = Some "") (events_of st)))
  /\ (forall (E : Go.Env) orgID config tools w0 w,
      go_events_of w0 = [] -> rtc (go_step orgID config tools) w0 w ->
      (Go.DisableInput config = true -> Forall (fun ev => Go.Input ev = "") (go_events_of w))
      /\ (Go.DisableOutput config = true ->
          Forall (fun ev => Go.Output ev = "") (go_events_of w))).
Proof.
  split.
  - intros R E c er st0 st H0 Hsteps. split; intros Hflag.
    + apply (ts_steps_events c er (fun ev => TS.args ev = Some "")) with (st0 := st0);
        [|exact Hsteps|rewrite H0; constructor].
      intros. unfold TS.buildEventData. rewrite Hflag. reflexivity.
    + apply (ts_steps_events c er (fun ev => TS.result ev = Some "")) with (st0 := st0);
        [|exact Hsteps|rewrite H0; constructor].
      intros. unfold TS.buildEventData. rewrite Hflag. reflexivity.
  - intros E orgID config tools w0 w H0 Hsteps. split; intros Hflag.
    + apply (go_steps_events orgID config tools (fun ev => Go.Input ev = "")) with (w0 := w0);
        [|exact Hsteps|rewrite H0; constructor].
      intros. simpl. rewrite Hflag. reflexivity.
    + apply (go_steps_events orgID config tools (fun ev => Go.Output ev = "")) with (w0 := w0);
        [|exact Hsteps|rewrite H0; constructor].
      intros. simpl. rewrite Hflag. reflexivity.
Qed.

(** One event recorded synchronously with both flags set. *)
Lemma disabled_fields_are_empty_witness :
  events_of Sample.rec0 = []
  /\ TS.disableInput (Sample.ts_config true true (Some false)) = true
  /\ Forall (fun ev => TS.args ev = Some "")
       (events_of
          (snd (@TS.recordEvent Sample.runtime Sample.accepting Sample.http
                  (TS.mkRecorder (Sample.ts_config true true (Some false)) Sample.server_view)
                  "tool" "echo" (JObj [("q", JStr "x")]) 3 true (JStr "secret") Sample.rec0))).
Proof.
  split; [reflexivity|]. split; [reflexivity|].
  refine (proj1 (proj1 disabled_fields_are_empty Sample.runtime Sample.accepting Sample.http
                   (TS.mkRecorder (Sample.ts_config true true (Some false)) Sample.server_view)
                   Sample.rec0 _ eq_refl (rtc_once _ _ (ts_record _ _ _ _ _ _ _ _ _))) eq_refl).
Defined.

(** *** Retry and drop *)

Section Retry.
Context `{Go.Env}.
Variable orgID : string.
Variable config : Go.AgnostConfig.

Lemma send_attempts_all_fail (event : Go.EventData) (remaining : nat) :
  forall attempt lastErr io,
  (forall n, (Go.do_calls io <= n < Go.do_calls io + remaining)%nat ->
             go_attempt_fails (Go.roundTrip n)) ->
  exists err,
    Go.send_attempts orgID config remaining attempt event lastErr io
    = (Some err,
       Go.mkIO (Go.trace io ++ failing_trace orgID config event remaining attempt)
               (Go.log io) (Go.ids_drawn io) (Go.do_calls io + remaining)).
Proof.
  induction remaining as [|remaining IH]; intros attempt lastErr io Hfail;
    cbn [Go.send_attempts failing_trace].
  - eexists. rewrite app_nil_r, Nat.add_0_r. destruct io; reflexivity.
  - set (io1 := if (0 <? attempt)%nat then Go.sleep (Go.RetryDelay config) io else io).
    assert (Hc : Go.do_calls io1 = Go.do_calls io) by (unfold io1; destruct (0 <? attempt)%nat; reflexivity).
    assert (Ht : Go.trace io1
                 = (Go.trace io
                    ++ (if (0 <? attempt)%nat then [Go.Sleep (Go.RetryDelay config)] else []))%list).
    { unfold io1; destruct (0 <? attempt)%nat; simpl; [reflexivity | rewrite app_nil_r; reflexivity]. }
    assert (Hl : Go.log io1 = Go.log io /\ Go.ids_drawn io1 = Go.ids_drawn io).
    { unfold io1; destruct (0 <? attempt)%nat; split; reflexivity. }
    destruct Hl as [Hl Hi].
    unfold Go.do_request. pose proof (Hfail (Go.do_calls io1) ltac:(lia)) as Hf.
    set (io2 := Go.mkIO _ _ _ _).
    assert (Hfail2 : forall n, (Go.do_calls io2 <= n < Go.do_calls io2 + remaining)%nat ->
                               go_attempt_fails (Go.roundTrip n)).
    { intros n Hn. apply Hfail. unfold io2 in Hn; simpl in Hn. lia. }
    assert (Hgoal : forall lastErr', exists err,
               Go.send_attempts orgID config remaining (S attempt) event lastErr' io2
               = (Some err,
                  Go.mkIO (Go.trace io
                           ++ (if (0 <? attempt)%nat then [Go.Sleep (Go.RetryDelay config)] else [])
                           ++ Go.Do (Go.Endpoint config ++ "/api/v1/capture-event")%string orgID
                                    (Go.EventPayload event)
                              :: failing_trace orgID config event remaining (S attempt))%list
                          (Go.log io) (Go.ids_drawn io) (Go.do_calls io + S remaining))).
    { intros lastErr'. destruct (IH (S attempt) lastErr' io2 Hfail2) as [err Herr].
      exists err. rewrite Herr. unfold io2; simpl. rewrite Ht, Hl, Hi, Hc.
      f_equal. f_equal; [|lia]. rewrite <- !app_assoc. reflexivity. }
    destruct (Go.roundTrip (Go.do_calls io1)) as [err|code body]; simpl in Hf.
    + apply Hgoal.
    + rewrite Hf. apply Hgoal.
Qed.

(** The loop of [flushBatch] handles the events of the batch one after
    the other. *)
Lemma send_batch_app (pre rest : list Go.EventData) (io : Go.IO) :
  Go.send_batch orgID config (pre ++ rest) io
  = Go.send_batch orgID config rest (Go.send_batch orgID config pre io).
Proof.
  revert io. induction pre as [|event pre IH]; intros io; [reflexivity|].
  cbn [app Go.send_batch]. destruct (Go.sendEvent orgID config event io) as [err io1].
  apply IH.
Qed.

(** Sending only ever adds to the trace and to the log. *)
Lemma send_attempts_extends (event : Go.EventData) (remaining : nat) :
  forall attempt lastErr io,
  exists actions,
    Go.trace (snd (Go.send_attempts orgID config remaining attempt event lastErr io))
    = (Go.trace io ++ actions)%list
    /\ Go.log (snd (Go.send_attempts orgID config remaining attempt event lastErr io))
       = Go.log io.
Proof.
  induction remaining as [|remaining IH]; intros attempt lastErr io; cbn [Go.send_attempts].
  - exists []. rewrite app_nil_r. split; reflexivity.
  - set (io1 := if (0 <? attempt)%nat then Go.sleep (Go.RetryDelay config) io else io).
    assert (H1 : exists a1, Go.trace io1 = (Go.trace io ++ a1)%list /\ Go.log io1 = Go.log io).
    { unfold io1. destruct (0 <? attempt)%nat; [eexists; split; reflexivity|].
      exists []. rewrite app_nil_r. split; reflexivity. }
    destruct H1 as (a1 & Ht1 & Hl1).
    unfold Go.do_request. set (io2 := Go.mkIO _ _ _ _).
    assert (H2 : forall lastErr', exists actions,
               Go.trace (snd (Go.send_attempts orgID config remaining (S attempt) event
                                lastErr' io2))
               = (Go.trace io ++ actions)%list
               /\ Go.log (snd (Go.send_attempts orgID config remaining (S attempt) event
                                 lastErr' io2))
                  = Go.log io).
    { intros lastErr'. destruct (IH (S attempt) lastErr' io2) as (a2 & Ht2 & Hl2).
      eexists. rewrite Ht2, Hl2. unfold io2; simpl. rewrite Ht1, Hl1, <- !app_assoc.
      split; reflexivity. }
    destruct (Go.roundTrip (Go.do_calls io1)) as [err|code body].
    + apply H2.
    + destruct (Go.status_2xx code); [|apply H2].
      eexists. unfold io2; simpl. rewrite Ht1, Hl1, <- app_assoc. split; reflexivity.
Qed.

Lemma send_batch_extends (batch : list Go.EventData) :
  forall io,
  exists actions lines,
    Go.trace (Go.send_batch orgID config batch io) = (Go.trace io ++ actions)%list
    /\ Go.log (Go.send_batch orgID config batch io) = (Go.log io ++ lines)%list.
Proof.
  induction batch as [|event rest IH]; intros io; cbn [Go.send_batch].
  - exists [], []. rewrite !app_nil_r. split; reflexivity.
  - assert (H1 : exists actions,
               Go.trace (snd (Go.sendEvent orgID config event io)) = (Go.trace io ++ actions)%list
               /\ Go.log (snd (Go.sendEvent orgID config event io)) = Go.log io).
    { unfold Go.sendEvent. destruct (negb _); [|apply send_attempts_extends].
      exists []. rewrite app_nil_r. split; reflexivity. }
    destruct H1 as (a1 & Ht1 & Hl1).
    destruct (Go.sendEvent orgID config event io) as [err io1]; cbn [snd] in Ht1, Hl1.
    set (io2 := match err with Some e => _ | None => io1 end).
    destruct (IH io2) as (a2 & l2 & Ht2 & Hl2). rewrite Ht2, Hl2.
    unfold io2. destruct err as [e|]; simpl; rewrite Ht1, Hl1, <- !app_assoc;
      eexists; eexists; split; reflexivity.
Qed.

End Retry.

(** C6.  In batching mode with [MaxRetries = 2], an event of the batch
    whose every delivery attempt fails is sent exactly three times,
    consecutive attempts separated by a sleep of [RetryDelay];
    [flushBatch] then logs one warning, goes on with the events that
    follow, and the event is gone from the batch, so that no later flush
    attempts it again.  The event stands anywhere in the batch: [before]
    is the state in which the events ahead of it have been handled. *)
Theorem failing_event_three_attempts (E : Go.Env) (orgID : string) (config : Go.AgnostConfig)
    (pre : list Go.EventData) (event : Go.EventData) (post : list Go.EventData)
    (w : Go.World) :
  Go.MaxRetries config = 2%Z ->
  Go.url_ok (Go.Endpoint config ++ "/api/v1/capture-event") = true ->
  Go.batchQueue (Go.w_ep w) = (pre ++ event :: post)%list ->
  let before := Go.send_batch orgID config pre (Go.w_io w) in
  (forall n, (Go.do_calls before <= n < Go.do_calls before + 3)%nat ->
             go_attempt_fails (Go.roundTrip n)) ->
  let w' := Go.flushBatch orgID config w in
  let attempt := Go.Do (Go.Endpoint config ++ "/api/v1/capture-event") orgID
                       (Go.EventPayload event) in
  let sent := snd (Go.sendEvent orgID config event before) in
  Go.trace sent
  = (Go.trace before
     ++ [attempt; Go.Sleep (Go.RetryDelay config); attempt; Go.Sleep (Go.RetryDelay config);
         attempt])%list
  /\ List.length (filter (fun a => Go.is_do a = true) (Go.trace sent))
     = (List.length (filter (fun a => Go.is_do a = true) (Go.trace before)) + 3)%nat
  /\ Go.log sent = Go.log before
  /\ (exists err,
        fst (Go.sendEvent orgID config event before) = Some err
        /\ Go.w_io w'
           = Go.send_batch orgID config post
               (Go.Warning ("Failed to send event: " ++ err) sent))
  /\ (exists earlier later err lines,
        Go.trace (Go.w_io w')
        = (Go.trace (Go.w_io w) ++ earlier
           ++ [attempt; Go.Sleep (Go.RetryDelay config); attempt;
               Go.Sleep (Go.RetryDelay config); attempt]
           ++ later)%list
        /\ Go.trace before = (Go.trace (Go.w_io w) ++ earlier)%list
        /\ Go.log (Go.w_io w')
           = (Go.log before ++ (LWarning, ("Failed to send event: " ++ err)%string) :: lines)%list)
  /\ Go.batchQueue (Go.w_ep w') = []
  /\ Go.queue (Go.w_ep w') = Go.queue (Go.w_ep w)
  /\ Go.Flush orgID config w' = w'
  /\ Go.worker_tick orgID config w' = w'.
Proof.
  intros Hmax Hurl Hbatch before Hfail w' attempt sent.
  assert (Hsend : exists err,
             Go.sendEvent orgID config event before
             = (Some err,
                Go.mkIO (Go.trace before
                         ++ [attempt; Go.Sleep (Go.RetryDelay config); attempt;
                             Go.Sleep (Go.RetryDelay config); attempt])
                        (Go.log before) (Go.ids_drawn before) (Go.do_calls before + 3))).
  { unfold Go.sendEvent. rewrite Hurl, Hmax. cbn [negb].
    change (Z.to_nat (2 + 1)) with 3%nat.
    apply (send_attempts_all_fail orgID config event 3 0 "<nil>" before Hfail). }
  destruct Hsend as [err Hsend].
  assert (Hio : Go.w_io w'
                = Go.send_batch orgID config post
                    (Go.Warning ("Failed to send event: " ++ err) sent)).
  { unfold w', Go.flushBatch, sent. rewrite Hbatch.
    destruct (pre ++ event :: post)%list as [|e0 rest] eqn:Hlist;
      [destruct pre; discriminate|].
    rewrite <- Hlist. cbn [Go.w_io Go.with_io Go.with_ep].
    rewrite send_batch_app. fold before. cbn [Go.send_batch].
    rewrite Hsend. reflexivity. }
  assert (Hep : Go.w_ep w' = Go.mkProcessor (Go.queue (Go.w_ep w)) []).
  { unfold w', Go.flushBatch. rewrite Hbatch.
    destruct (pre ++ event :: post)%list as [|e0 rest] eqn:Hlist;
      [destruct pre; discriminate|]. reflexivity. }
  assert (Hsent : sent
                  = Go.mkIO (Go.trace before
                             ++ [attempt; Go.Sleep (Go.RetryDelay config); attempt;
                                 Go.Sleep (Go.RetryDelay config); attempt])
                            (Go.log before) (Go.ids_drawn before) (Go.do_calls before + 3))
    by (unfold sent; rewrite Hsend; reflexivity).
  split; [rewrite Hsent; reflexivity|].
  split; [rewrite Hsent; cbn [Go.trace]; rewrite filter_app, length_app; reflexivity|].
  split; [rewrite Hsent; reflexivity|].
  split; [exists err; split; [rewrite Hsend; reflexivity | exact Hio]|].
  split.
  { destruct (send_batch_extends orgID config pre (Go.w_io w)) as (earlier & l1 & Ht1 & _).
    destruct (send_batch_extends orgID config post
                (Go.Warning ("Failed to send event: " ++ err) sent))
      as (later & lines & Ht2 & Hl2).
    exists earlier, later, err, lines. rewrite Hio, Ht2, Hl2.
    split; [|split].
    - rewrite Hsent. cbn [Go.Warning Go.trace]. fold before in Ht1. rewrite Ht1.
      rewrite <- !app_assoc. reflexivity.
    - exact Ht1.
    - rewrite Hsent. cbn [Go.Warning Go.log]. rewrite <- app_assoc. reflexivity. }
  split; [rewrite Hep; reflexivity|].
  split; [rewrite Hep; reflexivity|].
  split.
  - unfold Go.Flush. rewrite Hep. reflexivity.
  - unfold Go.worker_tick, Go.Flush. rewrite Hep. reflexivity.
Qed.

(** The second event of a batch of three, against a collector that
    answers 503 to everything. *)
Lemma failing_event_three_attempts_witness :
  let config := Sample.go_config false false true 2 in
  let e1 := Go.mkEventData "s" "tool" "first" 1 true "" "" in
  let e2 := Go.mkEventData "s" "tool" "echo" 1 true "" "" in
  let e3 := Go.mkEventData "s" "tool" "last" 1 true "" "" in
  let before := @Go.send_batch Sample.go_failing "acme" config [e1] (Go.w_io Sample.go_world0) in
  List.length
    (filter (fun a => Go.is_do a = true)
       (Go.trace (snd (@Go.sendEvent Sample.go_failing "acme" config e2 before))))
  = (List.length (filter (fun a => Go.is_do a = true) (Go.trace before)) + 3)%nat.
Proof.
  exact (proj1 (proj2
    (failing_event_three_attempts Sample.go_failing "acme" (Sample.go_config false false true 2)
       [Go.mkEventData "s" "tool" "first" 1 true "" ""]
       (Go.mkEventData "s" "tool" "echo" 1 true "" "")
       [Go.mkEventData "s" "tool" "last" 1 true "" ""]
       (Go.with_ep (Go.mkProcessor [] [Go.mkEventData "s" "tool" "first" 1 true "" "";
                                       Go.mkEventData "s" "tool" "echo" 1 true "" "";
                                       Go.mkEventData "s" "tool" "last" 1 true "" ""])
                   Sample.go_world0)
       eq_refl eq_refl eq_refl (fun _ _ => eq_refl)))).
Defined.

(** *** The instrumentation wrapper *)

Section Wrapper.
Context `{Runtime} `{TS.Env}.

Lemma enqueue_holds (ev : TS.EventData) (q : TS.RequestQueue.t TS.EventData) :
  In ev (TS.RequestQueue.queue (fst (TS.RequestQueue.enqueue ev q)))
  \/ snd (TS.RequestQueue.enqueue ev q) = Some ev
  \/ (exists r, snd (TS.RequestQueue.enqueue ev q) = Some r
                /\ In ev (TS.RequestQueue.queue (fst (TS.RequestQueue.enqueue ev q)))).
Proof.
  unfold TS.RequestQueue.enqueue; simpl.
  destruct (TS.RequestQueue.isProcessing q); simpl.
  - left. apply in_or_app. right. left. reflexivity.
  - unfold TS.RequestQueue.processQueue; simpl.
    destruct (bool_decide _); simpl.
    + left. apply in_or_app. right. left. reflexivity.
    + unfold TS.RequestQueue.loop_head; simpl.
      destruct (TS.RequestQueue.queue q) as [|r rest]; simpl.
      * right. left. reflexivity.
      * left. apply in_or_app. right. left. reflexivity.
Qed.

Lemma getOrCreateSessionId_cached c er (st : TS.SmState) sessionId :
  TS.sessionIds (TS.sm_self st) !! TS.sv_sessionKey (TS.er_server er) = Some sessionId ->
  sessionId <> "" ->
  TS.getOrCreateSessionId c er st = (sessionId, st).
Proof.
  intros Hsid Hne. unfold TS.getOrCreateSessionId, TS.getSessionId. rewrite Hsid.
  cbn [default from_option id].
  destruct (String.eqb_spec sessionId "") as [Heq|_]; [contradiction|]. reflexivity.
Qed.

(** What [recordEvent] of the recorder does with the session id it gets:
    with none, it records nothing; with one, it hands the event it builds
    to the queue or to the transport. *)
Lemma recorder_outcome c er (st : TS.RecState)
    primitiveType primitiveName args latency success result :
  let sessionId := fst (TS.getOrCreateSessionId c er (TS.rs_sm st)) in
  let r := TS.recordEvent c er primitiveType primitiveName args latency success result st in
  if String.eqb sessionId "" then fst r = false /\ events_of (snd r) = events_of st
  else In (TS.buildEventData c (TS.er_config er) sessionId primitiveType primitiveName args
                             latency success result)
          (events_of (snd r)).
Proof.
  cbn zeta. unfold TS.recordEvent.
  pose proof (getOrCreateSessionId_posted_events c er (TS.rs_sm st)) as Hg.
  destruct (TS.getOrCreateSessionId c er (TS.rs_sm st)) as [sessionId sm1]; cbn [fst snd] in *.
  destruct (String.eqb sessionId "").
  { cbn [fst snd]. split; [reflexivity|].
    unfold events_of, TS.rs_io. cbn [TS.rs_queue TS.rs_sm TS.sm_log TS.sm_io].
    unfold posted_events in *. cbn [TS.logger TS.posted]. rewrite Hg. reflexivity. }
  destruct (TS.getEventData (TS.sm_pools sm1)) as [obj pools1].
  set (ev := TS.buildEventData _ _ _ _ _ _ _ _ _).
  destruct (TS.shouldQueue (TS.er_config er)).
  - pose proof (enqueue_holds ev (TS.rs_queue st)) as Hq.
    destruct (TS.RequestQueue.enqueue ev (TS.rs_queue st)) as [q1 started]; cbn [fst snd] in *.
    destruct (TS.start_queued c started _) as [n sm3] eqn:Hst. cbn [snd].
    unfold events_of, TS.rs_io. cbn [TS.rs_queue TS.rs_sm].
    destruct Hq as [Hq|[Hq|(r & Hq & Hin)]].
    + apply in_or_app; left; exact Hq.
    + subst started. simpl in Hst. injection Hst as <- <-.
      apply in_or_app. right. apply in_or_app. right.
      unfold posted_events; simpl. rewrite omap_app; simpl.
      apply in_or_app. right. left. reflexivity.
    + apply in_or_app. left. exact Hin.
  - unfold events_of, TS.rs_io. apply in_or_app. right. apply in_or_app. right.
    cbn [TS.sm_io TS.sendEvent_post TS.post].
    destruct (TS.axios_resolves _); simpl;
      unfold posted_events; simpl; rewrite omap_app; simpl;
      apply in_or_app; right; left; reflexivity.
Qed.

(** With a session id cached, the recorder hands the event it builds to
    the queue or to the transport. *)
Lemma recorder_submits c er (st : TS.RecState) sessionId
    primitiveType primitiveName args latency success result :
  TS.sessionIds (TS.sm_self (TS.rs_sm st)) !! TS.sv_sessionKey (TS.er_server er) = Some sessionId ->
  sessionId <> "" ->
  In (TS.buildEventData c (TS.er_config er) sessionId primitiveType primitiveName args
                        latency success result)
     (events_of (snd (TS.recordEvent c er primitiveType primitiveName args latency
                                     success result st))).
Proof.
  intros Hsid Hne.
  pose proof (recorder_outcome c er st primitiveType primitiveName args latency success result)
    as Ho.
  cbn zeta in Ho. rewrite (getOrCreateSessionId_cached c er (TS.rs_sm st) sessionId Hsid Hne) in Ho.
  cbn [fst] in Ho. destruct (String.eqb_spec sessionId "") as [Heq|_]; [contradiction|].
  exact Ho.
Qed.

Lemma client_events_put (st : TS.RecState) (w : TS.Client.World) :
  client_events (TS.Client.put_rec_state st w) = events_of st.
Proof. reflexivity. Qed.


(** On a ready client, [recordEvent] hands the event it builds to the
    queue or to the transport. *)
Lemma recordEvent_submits (w : TS.Client.World) c er sessionId
    primitiveType primitiveName args latency success result :
  ready w c er sessionId ->
  In (TS.buildEventData c (TS.er_config er) sessionId primitiveType primitiveName args
                        latency success result)
     (client_events (snd (TS.Client.recordEvent primitiveType primitiveName args latency
                                                success result w))).
Proof.
  intros (Hinit & Her & Hc & Hne & m & Hm & Hsid).
  unfold TS.Client.recordEvent. rewrite Hinit, Her, Hc, Hm.
  pose proof (recorder_submits c er (TS.Client.rec_state w m) sessionId primitiveType
                primitiveName args latency success result Hsid Hne) as Hin.
  destruct (TS.recordEvent c er _ _ _ _ _ _ _) as [b st]; cbn [fst snd] in *.
  rewrite client_events_put. exact Hin.
Qed.

Lemma ready_refresh (w : TS.Client.World) c er sessionId request lines :
  ready w c er sessionId ->
  ready (TS.Client.w_log_all lines (TS.Client.refresh_request_context request w)) c er sessionId.
Proof.
  intros (Hinit & Her & Hc & Hne & m & Hm & Hsid).
  unfold TS.Client.refresh_request_context. rewrite Hm.
  destruct (TS.Client.config (TS.Client.w_self w)) as [cfg|]; simpl.
  - destruct (TS.identify cfg); simpl.
    + repeat split; try assumption. eexists. split; [reflexivity | exact Hsid].
    + repeat split; try assumption. exists m. split; assumption.
  - repeat split; try assumption. exists m. split; assumption.
Qed.


(** With a tool name that converts to a string, the wrapped handler is
    the [try] and [catch] blocks followed by one call of [recordEvent]
    with what they computed. *)
Lemma wrappedHandler_unfold f request startTime endTime (w : TS.Client.World) name :
  is_nullish request = false ->
  to_String (TS.Client.toolName_of request) = Value name ->
  TS.Client.wrappedHandler f request startTime endTime w
  = (fst (TS.Client.try_catch (TS.Client.toolName_of request) (f request)),
     snd (TS.Client.recordEvent "tool" name
            (TS.Client.arguments_of request) (endTime - startTime)
            (fst (fst (TS.Client.classify (TS.Client.toolName_of request) (f request))))
            (snd (fst (TS.Client.classify (TS.Client.toolName_of request) (f request))))
            (TS.Client.w_log_all
               (snd (TS.Client.classify (TS.Client.toolName_of request) (f request)))
               (TS.Client.refresh_request_context request w)))).
Proof.
  intros Hreq Hname. unfold TS.Client.wrappedHandler, TS.Client.classify. rewrite Hreq, Hname.
  destruct (TS.Client.try_catch _ _) as [completion [[success analyticsResult] lines]];
    cbn [fst snd].
  destruct (TS.Client.recordEvent _ _ _ _ _ _ _) as [b w3]. reflexivity.
Qed.

(** With a tool name that does not convert, the caller gets the
    [TypeError] of the conversion, and [recordEvent] is not called. *)
Lemma wrappedHandler_unnamed f request startTime endTime (w : TS.Client.World) message :
  is_nullish request = false ->
  to_String (TS.Client.toolName_of request) = TypeError message ->
  TS.Client.wrappedHandler f request startTime endTime w
  = (Throw (JError message),
     TS.Client.w_log_all
       (snd (TS.Client.classify (TS.Client.toolName_of request) (f request)))
       (TS.Client.refresh_request_context request w)).
Proof.
  intros Hreq Hname. unfold TS.Client.wrappedHandler, TS.Client.classify. rewrite Hreq, Hname.
  destruct (TS.Client.try_catch _ _) as [completion [[success analyticsResult] lines]];
    reflexivity.
Qed.

(** With a tool name that does not convert, the [try] and [catch] blocks
    log nothing but what the check of the result logs. *)
Lemma classify_unnamed toolName completion message :
  to_String toolName = TypeError message ->
  snd (TS.Client.classify toolName completion)
  = match completion with
    | Ret v => snd (McpUtils.isMcpErrorResponse v)
    | Throw _ => []
    end.
Proof.
  intros Hname. unfold TS.Client.classify, TS.Client.try_catch, TS.Client.catch_block.
  destruct completion as [v|e].
  - destruct (McpUtils.isMcpErrorResponse v) as [[isError errorMessage] checkLog].
    destruct isError; [|reflexivity].
    rewrite Hname. cbn. apply app_nil_r.
  - destruct (error_text e); [rewrite Hname|]; reflexivity.
Qed.

Lemma try_catch_throw toolName e name :
  to_String toolName = Value name ->
  TS.Client.try_catch toolName (Throw e)
  = match error_text e with
    | Value text =>
        (Throw e, (false, JStr text,
                   [(LWarning, "Error calling tool " ++ name ++ ": " ++ text)]))
    | TypeError message => (Throw (JError message), (false, JNull, []))
    end.
Proof.
  intros Hname. unfold TS.Client.try_catch, TS.Client.catch_block.
  destruct (error_text e); [rewrite Hname|]; reflexivity.
Qed.

Lemma try_catch_ret toolName v name :
  to_String toolName = Value name ->
  TS.Client.try_catch toolName (Ret v)
  = let isError := fst (fst (McpUtils.isMcpErrorResponse v)) in
    let errorMessage := snd (fst (McpUtils.isMcpErrorResponse v)) in
    let checkLog := snd (McpUtils.isMcpErrorResponse v) in
    if isError then
      match to_String errorMessage with
      | Value text =>
          (Ret v, (false, errorMessage,
                   app checkLog [(LWarning, "Tool " ++ name ++ " returned error: " ++ text)]))
      | TypeError message =>
          (Throw (JError message),
           (false, JStr message,
            app checkLog [(LWarning, "Error calling tool " ++ name ++ ": " ++ message)]))
      end
    else (Ret v, (true, v, checkLog)).
Proof.
  intros Hname. unfold TS.Client.try_catch.
  destruct (McpUtils.isMcpErrorResponse v) as [[isError errorMessage] checkLog]. cbn [fst snd].
  destruct isError; [|reflexivity]. rewrite Hname.
  destruct (to_String errorMessage) as [text|message]; [reflexivity|].
  unfold TS.Client.catch_block. cbn [error_text]. rewrite ?Hname. reflexivity.
Qed.

End Wrapper.

Section GoWrapper.
Context `{Go.Env}.
Variable orgID : string.
Variable config : Go.AgnostConfig.
Variable tools : list string.

Lemma GetOrCreateSession_cached (w : Go.World) (sessionID : string) :
  Go.w_sessions w !! Go.SessionKey Go.GetSessionInfo = Some sessionID ->
  Go.GetOrCreateSession orgID config tools (Some Go.GetSessionInfo) w
  = (Go.PcReturned sessionID None, w).
Proof.
  intros Hs. unfold Go.GetOrCreateSession.
  cbn [Go.GetOrCreateSession_run]. unfold Go.GetOrCreateSession_step at 1.
  unfold Go.info_or_default. cbn [default from_option id]. rewrite Hs. reflexivity.
Qed.


End GoWrapper.

Section WrapperFrame.
Context `{Runtime}.


End WrapperFrame.




Section Classification.
Context `{Runtime}.

(** The checks on the value itself, for a value with the error flag whose
    [content] is not an array: the value is an error, with the message
    taken from [message] or [error]. *)
Lemma check_direct_flagged (v : JsVal) :
  carries_error_flag v = true ->
  is_array (if McpUtils.hasattr v "content" then get v "content" else JUndefined) = false ->
  McpUtils.check_direct v
  = Value (true, js_or (get v "message") (js_or (get v "error") (JStr "Unknown error"))).
Proof.
  intros Hflag Hcontent. unfold McpUtils.check_direct.
  unfold carries_error_flag in Hflag. rewrite Hflag.
  destruct (if McpUtils.hasattr v "content" then get v "content" else JUndefined);
    first [reflexivity | discriminate Hcontent].
Qed.

(** A [root] with the error flag and a truthy [content] that is neither
    an array nor a string: the loop over it throws. *)
Lemma check_root_not_iterable (v : JsVal) :
  McpUtils.hasattr v "root" = true ->
  carries_error_flag (get v "root") = true ->
  McpUtils.hasattr (get v "root") "content" = true ->
  truthy (get (get v "root") "content") = true ->
  is_array (get (get v "root") "content") = false ->
  typeof_string (get (get v "root") "content") = false ->
  McpUtils.check_root v = TypeError (not_iterable_message (get (get v "root") "content")).
Proof.
  intros Hroot Hflag Hhas Htruthy Harr Hstr. unfold McpUtils.check_root.
  unfold carries_error_flag in Hflag. rewrite Hroot, Hflag, Hhas, Htruthy. cbn [andb].
  destruct (get (get v "root") "content"); first [reflexivity | discriminate].
Qed.

End Classification.

(** C3 (code defect).  [isMcpErrorResponse] looks at [response.root]
    before [response.isError], and loops over [root.content] without the
    test [Array.isArray] that guards the same loop over
    [response.content].  For a value with the error flag whose [root]
    has the flag too and a truthy [content] that is neither an array nor
    a string, the loop throws, the [catch] block answers "no error", and
    the wrapper records the call as a success; the same [content] on the
    value itself is handled, and the value is an error.  Besides, the
    caller does not always get the value the handler returned: when the
    value is an error whose message does not convert to a string, or
    when the tool name does not, the caller gets the [TypeError] of the
    conversion.  In every other case the wrapped handler returns the
    value itself, after [recordEvent] has been called with
    [success = false] and the extracted message if the value is an error
    and with [success = true] and the value if not. *)
Theorem malformed_root_hides_error_flag :
  (forall (R : Runtime) (v : JsVal),
      carries_error_flag v = true ->
      McpUtils.hasattr v "root" = true ->
      carries_error_flag (get v "root") = true ->
      McpUtils.hasattr (get v "root") "content" = true ->
      truthy (get (get v "root") "content") = true ->
      is_array (get (get v "root") "content") = false ->
      typeof_string (get (get v "root") "content") = false ->
      McpUtils.isMcpErrorResponse v
      = McpUtils.check_failed (not_iterable_message (get (get v "root") "content"))
      /\ fst (fst (McpUtils.isMcpErrorResponse v)) = false)
  /\ (forall (R : Runtime) (v : JsVal),
        carries_error_flag v = true ->
        McpUtils.hasattr v "root" = false ->
        is_array (if McpUtils.hasattr v "content" then get v "content" else JUndefined) = false ->
        fst (fst (McpUtils.isMcpErrorResponse v)) = true)
  /\ (forall (R : Runtime) (E : TS.Env) f request v startTime endTime (w : TS.Client.World),
        is_nullish request = false ->
        f request = Ret v ->
        let r := TS.Client.wrappedHandler f request startTime endTime w in
        let w1 := TS.Client.refresh_request_context request w in
        let isError := fst (fst (McpUtils.isMcpErrorResponse v)) in
        let errorMessage := snd (fst (McpUtils.isMcpErrorResponse v)) in
        let checkLog := snd (McpUtils.isMcpErrorResponse v) in
        match to_String (TS.Client.toolName_of request) with
        | Value name =>
            if isError then
              match to_String errorMessage with
              | Value text =>
                  r = (Ret v,
                       snd (TS.Client.recordEvent "tool" name (TS.Client.arguments_of request)
                              (endTime - startTime) false errorMessage
                              (TS.Client.w_log_all
                                 (app checkLog
                                      [(LWarning, "Tool " ++ name ++ " returned error: " ++ text)])
                                 w1)))
              | TypeError message =>
                  r = (Throw (JError message),
                       snd (TS.Client.recordEvent "tool" name (TS.Client.arguments_of request)
                              (endTime - startTime) false (JStr message)
                              (TS.Client.w_log_all
                                 (app checkLog
                                      [(LWarning,
                                        "Error calling tool " ++ name ++ ": " ++ message)])
                                 w1)))
              end
            else
              r = (Ret v,
                   snd (TS.Client.recordEvent "tool" name (TS.Client.arguments_of request)
                          (endTime - startTime) true v (TS.Client.w_log_all checkLog w1)))
        | TypeError message => r = (Throw (JError message), TS.Client.w_log_all checkLog w1)
        end)
  /\ carries_error_flag Sample.flagged_result = true
  /\ fst (@TS.Client.wrappedHandler Sample.runtime Sample.accepting
            (fun _ => Ret Sample.flagged_result) Sample.request_search 10%Z 15%Z Sample.world1)
     = Ret Sample.flagged_result
  /\ TS.success <$>
       posted_events
         (TS.Client.w_io
            (snd (@TS.Client.wrappedHandler Sample.runtime Sample.accepting
                    (fun _ => Ret Sample.flagged_result) Sample.request_search 10%Z 15%Z
                    Sample.world1)))
     = [true]
  /\ fst (@TS.Client.wrappedHandler Sample.runtime Sample.accepting
            (fun _ => Ret Sample.unconvertible_error) Sample.request_search 10%Z 15%Z
            Sample.world1)
     = Throw (JError "Cannot convert object to primitive value").
Proof.
  split; [|split; [|split]].
  - intros R v _ Hroot Hflag Hhas Htruthy Harr Hstr.
    assert (Heq : McpUtils.isMcpErrorResponse v
                  = McpUtils.check_failed (not_iterable_message (get (get v "root") "content"))).
    { unfold McpUtils.isMcpErrorResponse.
      rewrite (check_root_not_iterable v Hroot Hflag Hhas Htruthy Harr Hstr). reflexivity. }
    split; [exact Heq|]. rewrite Heq. reflexivity.
  - intros R v Hflag Hroot Hcontent. unfold McpUtils.isMcpErrorResponse, McpUtils.check_root.
    rewrite Hroot, (check_direct_flagged v Hflag Hcontent). reflexivity.
  - intros R E f request v startTime endTime w Hreq Hf. cbn zeta.
    destruct (to_String (TS.Client.toolName_of request)) as [name|message] eqn:Hname.
    + rewrite (wrappedHandler_unfold f request startTime endTime w name Hreq Hname).
      unfold TS.Client.classify. rewrite Hf, (try_catch_ret _ v name Hname). cbn zeta.
      destruct (fst (fst (McpUtils.isMcpErrorResponse v))); [|reflexivity].
      destruct (to_String (snd (fst (McpUtils.isMcpErrorResponse v)))); reflexivity.
    + rewrite (wrappedHandler_unnamed f request startTime endTime w message Hreq Hname).
      rewrite (classify_unnamed _ _ message Hname), Hf. reflexivity.
  - split; [reflexivity|]. split; [reflexivity|]. split; vm_compute; reflexivity.
Qed.

(** *** Session creation *)

Section SessionCreation.
Context `{Runtime} `{TS.Env}.
Variable c : TS.AnalyticsHttpClient.


Lemma creation_requests_post (io : TS.IO) (self : TS.SessionManager) (pools : TS.DataObjectPools)
    (posted : list TS.Posted) url xOrgId (d : TS.SessionData) :
  TS.posted io = (posted ++ [TS.PostSession url xOrgId d])%list ->
  TsConcurrent.creation_requests (TS.mkSm io self pools)
  = (omap (fun p => match p with
                    | TS.PostSession _ _ body => Some body
                    | TS.PostEvent _ _ _ => None
                    end) posted ++ [d])%list.
Proof.
  intros Hp. unfold TsConcurrent.creation_requests. cbn [TS.sm_io]. rewrite Hp, omap_app.
  reflexivity.
Qed.

Lemma creation_requests_posted (st st' : TS.SmState) url xOrgId (d : TS.SessionData) :
  TS.posted (TS.sm_io st') = (TS.posted (TS.sm_io st) ++ [TS.PostSession url xOrgId d])%list ->
  TsConcurrent.creation_requests st' = (TsConcurrent.creation_requests st ++ [d])%list.
Proof.
  intros Hp. unfold TsConcurrent.creation_requests. rewrite Hp, omap_app. reflexivity.
Qed.

(** A call of [startSession] made alone that does not find the key
    cached, or is asked for a dummy session, and for which [identifyUser]
    resolves to [u]: one identifier is drawn, one creation request
    carrying it is posted, and the reply to that request decides what
    the call returns, caches, leaves in the pools and logs last. *)
Lemma startSession_creates sv key dummy (st : TS.SmState) (u : JsVal) :
  dummy = true \/ TS.sessionIds (TS.sm_self st) !! key = None ->
  fst (TS.identifyUser st) = Value u ->
  let r := TS.startSession c sv key dummy st in
  let id := TS.uuidv4 (TS.uuids_drawn (TS.sm_io st)) in
  let d := Bounds.session_record sv dummy u st in
  let reply := TS.collector (List.length (TS.posted (TS.sm_io st))) in
  let created := TS.axios_resolves reply && (negb dummy || Bounds.info_line_ok u) in
  TS.posted (TS.sm_io (snd r))
  = (TS.posted (TS.sm_io st)
     ++ [TS.PostSession (TS.baseUrl c ++ "/api/v1/capture-session")%string (TS.orgId c) d])%list
  /\ fst r = Some (if created then id else "")
  /\ TS.sessionIds (TS.sm_self (snd r))
     = (if negb dummy && TS.axios_resolves reply
        then <[key := id]> (TS.sessionIds (TS.sm_self st))
        else TS.sessionIds (TS.sm_self st))
  /\ TS.sm_pools (snd r)
     = (if created
        then TS.returnSessionData d (snd (TS.getSessionData (TS.sm_pools st)))
        else snd (TS.getSessionData (TS.sm_pools st)))
  /\ TS.uuids_drawn (TS.sm_io (snd r)) = S (TS.uuids_drawn (TS.sm_io st))
  /\ exists lines,
       TS.log (TS.sm_io (snd r))
       = (lines
          ++ (if TS.axios_resolves reply then
                match (if dummy then TS.dummy_info_line u else Value "") with
                | Value _ => []
                | TypeError message =>
                    [(LError, ("Failed to start dummy session: " ++ message)%string)]
                end
              else
                [if dummy
                 then (LError, ("Failed to start dummy session: "
                                ++ TS.axios_error_message reply)%string)
                 else (LWarning, ("Failed to start session: "
                                  ++ TS.axios_error_message reply)%string)]))%list.
Proof.
  intros Hcase Hid. cbn zeta.
  unfold Bounds.session_record, Bounds.info_line_ok.
  unfold TS.identifyUser in Hid.
  unfold TS.startSession, TS.startSession_enter.
  cbn [TS.sc_dummy TS.sc_sessionKey TS.sc_server].
  assert (Henter :
    (if dummy
     then let '(newSessionId, io1) := TS.draw_uuid (TS.sm_io st) in
          (TS.PcIdentify newSessionId "unidentified_client" (TS.identifyUser_call (TS.sm_self st)),
           TS.mkSm io1 (TS.sm_self st) (TS.sm_pools st))
     else match TS.sessionIds (TS.sm_self st) !! key with
          | Some sessionId => (TS.PcDone sessionId, st)
          | None =>
              let '(newSessionId, io1) := TS.draw_uuid (TS.sm_io st) in
              (TS.PcIdentify newSessionId (TS.sv_clientName sv)
                             (TS.identifyUser_call (TS.sm_self st)),
               TS.mkSm io1 (TS.sm_self st) (TS.sm_pools st))
          end)
    = (TS.PcIdentify (TS.uuidv4 (TS.uuids_drawn (TS.sm_io st)))
                     (if dummy then "unidentified_client" else TS.sv_clientName sv)
                     (TS.identifyUser_call (TS.sm_self st)),
       TS.mkSm (TS.mkIO (TS.log (TS.sm_io st)) (TS.posted (TS.sm_io st))
                        (S (TS.uuids_drawn (TS.sm_io st))))
               (TS.sm_self st) (TS.sm_pools st))).
  { destruct dummy; [reflexivity|].
    destruct Hcase as [Hd|Hmiss]; [discriminate Hd|]. rewrite Hmiss. reflexivity. }
  rewrite Henter. clear Henter.
  set (st0 := TS.mkSm _ (TS.sm_self st) (TS.sm_pools st)).
  set (p := TS.identifyUser_call (TS.sm_self st)) in *.
  rewrite (identifyUser_resume_value p st st0) in Hid.
  destruct (identifyUser_resume_frame p st0) as (Hpo & Hpl & Hsi & Hu).
  cbn [TS.startSession_run]. cbn [TS.startSession_resume TS.sc_dummy].
  destruct (TS.identifyUser_resume p st0) as [a st1]; cbn [fst snd] in *. subst a.
  cbn [st0 TS.sm_io TS.sm_pools TS.sm_self TS.posted TS.uuids_drawn] in Hpo, Hpl, Hsi, Hu.
  destruct dummy.
  - cbn [negb orb andb]. unfold TS.build_and_post. rewrite Hpl.
    destruct (TS.getSessionData (TS.sm_pools st)) as [obj pools1]. cbn [fst snd].
    cbn [TS.sendSession_post TS.post]. rewrite Hpo.
    cbn [TS.startSession_resume TS.sc_dummy TS.sc_sessionKey].
    destruct (TS.axios_resolves (TS.collector (List.length (TS.posted (TS.sm_io st))))).
    + destruct (TS.dummy_info_line u) as [text|message];
        cbn [TS.start_failed TS.startSession_resume fst snd TS.returned TS.sm_pools TS.sm_self
             TS.sm_io TS.sm_log TS.logger TS.posted TS.uuids_drawn TS.log andb];
        repeat split; try assumption; try reflexivity.
      * eexists. rewrite app_nil_r. reflexivity.
      * eexists. reflexivity.
    + cbn [TS.start_failed TS.startSession_resume fst snd TS.returned TS.sm_pools TS.sm_self
           TS.sm_io TS.sm_log TS.logger TS.posted TS.uuids_drawn TS.log andb].
      repeat split; try assumption; try reflexivity. eexists. reflexivity.
  - cbn [negb orb andb TS.startSession_resume TS.sc_server]. rewrite !andb_true_r.
    unfold TS.build_and_post. cbn [TS.sm_pools TS.sm_io TS.sm_self]. rewrite Hpl.
    destruct (TS.getSessionData (TS.sm_pools st)) as [obj pools1]. cbn [fst snd].
    cbn [TS.sendSession_post TS.post TS.logger_all TS.posted]. rewrite Hpo.
    cbn [TS.startSession_resume TS.sc_dummy TS.sc_sessionKey].
    destruct (TS.axios_resolves (TS.collector (List.length (TS.posted (TS.sm_io st)))));
      cbn [TS.start_failed TS.startSession_resume fst snd TS.returned TS.sm_pools TS.sm_self
           TS.sm_io TS.sm_log TS.logger TS.posted TS.uuids_drawn TS.log TS.set_sessionId
           TS.sessionIds];
      repeat split; try assumption; try reflexivity.
    + rewrite Hsi. reflexivity.
    + eexists. rewrite app_nil_r. reflexivity.
    + eexists. reflexivity.
Qed.


End SessionCreation.

Section GoSessionCreation.
Context `{Go.Env}.
Variable orgID : string.
Variable config : Go.AgnostConfig.
Variable tools : list string.



(** A call of [GetOrCreateSession] run alone returns. *)
Lemma GetOrCreateSession_returns info (w : Go.World) :
  exists sessionID err,
    fst (Go.GetOrCreateSession orgID config tools info w) = Go.PcReturned sessionID err.
Proof.
  unfold Go.GetOrCreateSession. cbn [Go.GetOrCreateSession_run].
  unfold Go.GetOrCreateSession_step at 1.
  destruct (Go.w_sessions w !! _); [simpl; eauto|].
  unfold Go.createSession_begin.
  destruct (negb (Go.marshals _)); [simpl; eauto|].
  destruct (negb (Go.url_ok _)); [simpl; eauto|].
  cbn [Go.GetOrCreateSession_step Go.with_io Go.w_io]. unfold Go.createSession_finish.
  destruct (Go.roundTrip _) as [e|code [body|]]; [simpl; eauto| |simpl; eauto].
  destruct (negb _ && negb _); simpl; eauto.
Qed.


End GoSessionCreation.







(** The same in the Go SDK: two goroutines that check the map before
    either has stored its id both create a session. *)
Lemma go_overlapping_calls_create_two_sessions :
  Go.sd_SessionID <$>
    GoConcurrent.creation_requests
      (GoConcurrent.shared
         (@GoConcurrent.run Sample.go_accepting "acme" (Sample.go_config false false true 2) []
            [0; 1; 0; 1; 0; 1]%nat
            (GoConcurrent.mkState Sample.go_world0 [(None, Go.PcCheck); (None, Go.PcCheck)])))
  = ["id-0"; "id-1"]
  /\ snd <$>
       GoConcurrent.threads
         (@GoConcurrent.run Sample.go_accepting "acme" (Sample.go_config false false true 2) []
            [0; 1; 0; 1; 0; 1]%nat
            (GoConcurrent.mkState Sample.go_world0 [(None, Go.PcCheck); (None, Go.PcCheck)]))
     = [Go.PcReturned "id-0" None; Go.PcReturned "id-1" None].
Proof.
  split; vm_compute; reflexivity.
Qed.

(** *** Flushing *)

(** C7 (code defect).  [flush()] is documented to wait for all pending
    requests to complete, but its loop ends as soon as the queue is empty,
    while the request shifted last is still in flight.  With two requests
    enqueued and [flush()] called while the second is still in
    [this.queue], [flush()] returns once the second has been started:
    it was queued when [flush()] was called and its delivery attempt has
    not completed.  In general [flush()] does not wait at all when the
    queue is empty, whatever is in flight; and [Flush] of the Go SDK
    leaves the events still in the channel untouched. *)
Theorem flush_returns_before_last_request_settles :
  (let s := QueueLoop.run
              [QueueLoop.Enqueue 1%nat; QueueLoop.Enqueue 2%nat; QueueLoop.CallFlush;
               QueueLoop.Settle; QueueLoop.DelayElapsed; QueueLoop.PollElapsed]
              QueueLoop.init in
   QueueLoop.flush s = QueueLoop.FlushReturned
   /\ QueueLoop.queued_at_flush s = [2%nat]
   /\ QueueLoop.settled s = [1%nat]
   /\ QueueLoop.in_flight (QueueLoop.rq s) = [2%nat])
  /\ (forall (R : Type) (q : TS.RequestQueue.t R),
        TS.RequestQueue.queue q = [] -> TS.RequestQueue.flush_waits q = false)
  /\ (forall (E : Go.Env) orgID config (w : Go.World),
        Go.batchQueue (Go.w_ep w) = [] -> Go.Flush orgID config w = w).
Proof.
  split; [|split].
  - repeat split; reflexivity.
  - intros R q Hq. unfold TS.RequestQueue.flush_waits. rewrite Hq.
    rewrite bool_decide_eq_true_2 by reflexivity. apply andb_false_r.
  - intros E orgID config w Hb. unfold Go.Flush. rewrite Hb. reflexivity.
Qed.

(** *** Argument filtering *)

Section Filtering.
Context `{Runtime}.

Lemma assoc_filter_dropped (k : string) (props : list (string * JsVal)) :
  McpUtils.keep_key k && McpUtils.stored_key k = false ->
  assoc k (filter (fun kv => McpUtils.keep_key (fst kv) && McpUtils.stored_key (fst kv) = true)
                  props) = None.
Proof.
  intros Hk. induction props as [|[k' v] rest IH]; [reflexivity|].
  rewrite filter_cons. destruct (decide _) as [Hkeep|_]; [|exact IH].
  simpl in *. destruct (String.eqb_spec k k') as [->|_]; [congruence | exact IH].
Qed.

Lemma filter_arg_strips (arg out : JsVal) :
  McpUtils.filter_arg arg = Ret out ->
  has_property out "org_id" = false /\ has_property out "orgId" = false.
Proof.
  unfold McpUtils.filter_arg.
  destruct (typeof_object arg && negb (is_nullish arg)) eqn:Hobj.
  - destruct (McpUtils.shadows_hasOwnProperty arg && _); [discriminate|].
    intros Hout. injection Hout as <-. simpl.
    rewrite !assoc_filter_dropped by reflexivity. split; reflexivity.
  - intros Hout. injection Hout as <-.
    destruct arg; simpl in *; try discriminate; split; reflexivity.
Qed.

Lemma filterSensitiveArgs_strips (args out : list JsVal) :
  McpUtils.filterSensitiveArgs args = Ret out ->
  Forall (fun v => has_property v "org_id" = false /\ has_property v "orgId" = false) out.
Proof.
  revert out. induction args as [|arg rest IH]; intros out; simpl.
  - intros [= <-]. constructor.
  - destruct (McpUtils.filter_arg arg) as [a|e] eqn:Ha; [|discriminate].
    destruct (McpUtils.filterSensitiveArgs rest) as [r|e]; [|discriminate].
    intros [= <-]. constructor; [exact (filter_arg_strips arg a Ha) | apply IH; reflexivity].
Qed.

End Filtering.

(** C8 (code defect).  The handler that intercepts tool calls records
    [request.params.arguments] as they are: for a call whose arguments
    hold [org_id], the event a ready client queues or posts has the
    serialization of the whole object, [org_id] included, as its [args].
    Only the wrapper built by [createWrapper] filters: whatever
    [filterSensitiveArgs] returns has neither [org_id] nor [orgId] in any
    argument. *)
Theorem tool_call_arguments_keep_org_id :
  TS.Client.arguments_of Sample.request_search
  = JObj [("org_id", JStr "acme"); ("q", JStr "x")]
  /\ (forall (R : Runtime) (E : TS.Env) f startTime endTime w c er sessionId,
        ready w c er sessionId ->
        TS.disableInput (TS.er_config er) = false ->
        exists ev,
          In ev (client_events
                   (snd (TS.Client.wrappedHandler f Sample.request_search startTime endTime w)))
          /\ TS.args ev = JSON_stringify (JObj [("org_id", JStr "acme"); ("q", JStr "x")]))
  /\ (forall (R : Runtime) args out,
        McpUtils.filterSensitiveArgs args = Ret out ->
        Forall (fun v => has_property v "org_id" = false /\ has_property v "orgId" = false) out)
  /\ (forall (R : Runtime),
        McpUtils.filterSensitiveArgs [JObj [("org_id", JStr "acme"); ("q", JStr "x")]]
        = Ret [JObj [("q", JStr "x")]]).
Proof.
  split; [reflexivity|]. split; [|split].
  - intros R E f startTime endTime w c er sessionId Hready Hin.
    rewrite (wrappedHandler_unfold f Sample.request_search startTime endTime w
               (js_String (JStr "search")) eq_refl eq_refl).
    cbn [snd].
    eexists. split.
    + apply recordEvent_submits. apply ready_refresh. exact Hready.
    + unfold TS.buildEventData. rewrite Hin. reflexivity.
  - intros R args out. apply filterSensitiveArgs_strips.
  - intros R. reflexivity.
Qed.

(** *** Repeated initialization *)

Section Reinitialization.
Context `{Runtime}.

Lemma initialize_again (w : TS.Client.World) server orgId config :
  TS.Client.initialized (TS.Client.w_self w) = true ->
  TS.Client.initialize server orgId config w = (true, w).
Proof. intros Hi. unfold TS.Client.initialize. rewrite Hi. reflexivity. Qed.

Lemma overrideMcpServer_core (w : TS.Client.World) server :
  let w' := snd (TS.Client.overrideMcpServer server w) in
  TS.Client.httpClient (TS.Client.w_self w') = TS.Client.httpClient (TS.Client.w_self w)
  /\ TS.Client.sessionManager (TS.Client.w_self w') = TS.Client.sessionManager (TS.Client.w_self w)
  /\ TS.Client.eventRecorder (TS.Client.w_self w') = TS.Client.eventRecorder (TS.Client.w_self w)
  /\ TS.Client.server (TS.Client.w_self w') = TS.Client.server (TS.Client.w_self w)
  /\ TS.Client.config (TS.Client.w_self w') = TS.Client.config (TS.Client.w_self w)
  /\ TS.Client.initialized (TS.Client.w_self w') = TS.Client.initialized (TS.Client.w_self w).
Proof.
  unfold TS.Client.overrideMcpServer.
  destruct (TS.Client.overrideApplied (TS.Client.w_self w)); [repeat split; reflexivity|].
  destruct server as [s|]; [|repeat split; reflexivity].
  destruct (TS.Client.requestHandlers (TS.Client.object_of w s)) as [handlers|];
    [|repeat split; reflexivity].
  destruct (TS.Client.lookup_handler "tools/call" handlers); [repeat split; reflexivity|].
  destruct (existsb _ handlers); repeat split; reflexivity.
Qed.

Lemma install_hooks_self (w : TS.Client.World) server :
  TS.Client.w_self (TS.Client.install_hooks server w) = TS.Client.w_self w.
Proof.
  unfold TS.Client.install_hooks. destruct server as [s|]; [|reflexivity].
  destruct (TS.Client.has_connect (TS.Client.object_of w s)); reflexivity.
Qed.

End Reinitialization.

(** C10 (as amended).  Once [initialize] has succeeded on a client, every
    later [initialize] returns [true] at once, without validating its
    arguments, and changes nothing.  Every later [trackMcp] skips
    validation as well and leaves the stored server, organization id
    (HTTP client), configuration, recorder and session manager as they
    are.  Once the override has been applied, [trackMcp] also leaves every
    server object as it is (nothing is wrapped or hooked, whichever server
    is passed) and only fires [createInitialSession]; while the override
    has not been applied, [trackMcp] does attempt it on the server it is
    given. *)
Theorem initialized_client_ignores_reinitialization (R : Runtime)
    (w : TS.Client.World) server orgId config :
  TS.Client.initialized (TS.Client.w_self w) = true ->
  TS.Client.initialize server orgId config w = (true, w)
  /\ (let w' := TS.Client.trackMcp server orgId config w in
      TS.Client.httpClient (TS.Client.w_self w') = TS.Client.httpClient (TS.Client.w_self w)
      /\ TS.Client.sessionManager (TS.Client.w_self w')
         = TS.Client.sessionManager (TS.Client.w_self w)
      /\ TS.Client.eventRecorder (TS.Client.w_self w')
         = TS.Client.eventRecorder (TS.Client.w_self w)
      /\ TS.Client.server (TS.Client.w_self w') = TS.Client.server (TS.Client.w_self w)
      /\ TS.Client.config (TS.Client.w_self w') = TS.Client.config (TS.Client.w_self w)
      /\ TS.Client.initialized (TS.Client.w_self w') = true)
  /\ (TS.Client.overrideApplied (TS.Client.w_self w) = true ->
      TS.Client.trackMcp server orgId config w = TS.Client.spawn_initial_session server w
      /\ TS.Client.w_servers (TS.Client.trackMcp server orgId config w) = TS.Client.w_servers w)
  /\ (TS.Client.overrideApplied (TS.Client.w_self w) = false ->
      TS.Client.trackMcp server orgId config w
      = if fst (TS.Client.overrideMcpServer server w)
        then TS.Client.spawn_initial_session server (snd (TS.Client.overrideMcpServer server w))
        else TS.Client.install_hooks server (snd (TS.Client.overrideMcpServer server w))).
Proof.
  intros Hi.
  assert (Ht : TS.Client.trackMcp server orgId config w
               = if fst (TS.Client.overrideMcpServer server w)
                 then TS.Client.spawn_initial_session server
                        (snd (TS.Client.overrideMcpServer server w))
                 else TS.Client.install_hooks server (snd (TS.Client.overrideMcpServer server w))).
  { unfold TS.Client.trackMcp. rewrite (initialize_again w server orgId config Hi). cbn [negb].
    destruct (TS.Client.overrideMcpServer server w) as [b w2]. reflexivity. }
  split; [apply initialize_again; exact Hi|]. split; [|split].
  - cbv zeta. rewrite Ht.
    pose proof (overrideMcpServer_core w server) as Hcore. cbv zeta in Hcore.
    destruct Hcore as (H1 & H2 & H3 & H4 & H5 & H6).
    destruct (fst (TS.Client.overrideMcpServer server w)).
    + cbn [TS.Client.spawn_initial_session TS.Client.w_self].
      rewrite H1, H2, H3, H4, H5, H6. repeat split; try reflexivity. exact Hi.
    + rewrite install_hooks_self. rewrite H1, H2, H3, H4, H5, H6.
      repeat split; try reflexivity. exact Hi.
  - intros Ho. rewrite Ht. unfold TS.Client.overrideMcpServer. rewrite Ho.
    split; reflexivity.
  - intros _. exact Ht.
Qed.

(** A second [initialize] with no server, no organization id and no
    configuration on the initialized client. *)
Lemma initialized_client_ignores_reinitialization_witness :
  TS.Client.initialized (TS.Client.w_self Sample.world1) = true
  /\ @TS.Client.initialize Sample.runtime None "" None Sample.world1 = (true, Sample.world1).
Proof.
  split; [reflexivity|].
  exact (proj1 (initialized_client_ignores_reinitialization Sample.runtime Sample.world1
                  None "" None eq_refl)).
Defined.

(** C10, as first stated, fails: [initialize] has succeeded for server 1
    (no override applied yet), and a later [trackMcp] given server 2
    wraps the tools/call handler of server 2, while the client keeps
    server 1 as its server. *)
Lemma second_trackMcp_wraps_other_server :
  TS.Client.initialized (TS.Client.w_self Sample.world1) = true
  /\ TS.Client.server (TS.Client.w_self Sample.world1) = Some Sample.server1
  /\ TS.Client.requestHandlers (TS.Client.object_of Sample.world1 Sample.server2)
     = Some [("tools/call", TS.Client.Original Sample.echo_handler)]
  /\ TS.Client.requestHandlers
       (TS.Client.object_of
          (@TS.Client.trackMcp Sample.runtime (Some Sample.server2) "" None Sample.world1)
          Sample.server2)
     = Some [("tools/call", TS.Client.Wrapped Sample.echo_handler)]
  /\ TS.Client.server
       (TS.Client.w_self
          (@TS.Client.trackMcp Sample.runtime (Some Sample.server2) "" None Sample.world1))
     = Some Sample.server1.
Proof.
  split; [reflexivity|]. split; [reflexivity|]. split; [vm_compute; reflexivity|].
  split; vm_compute; reflexivity.
Qed.

(* ================================================================== *)
(** ** Further properties of the code *)
(* ================================================================== *)

(** *** Endpoint normalisation (network/http-client.ts) *)

Lemma strip_trailing_slash_app (s : string) : TS.strip_trailing_slash (s ++ "/") = s.
Proof.
  induction s as [|c s IH]; [reflexivity|].
  destruct s as [|c' s'].
  - reflexivity.
  - change (TS.strip_trailing_slash (String c (String c' s') ++ "/"))
      with (String c (TS.strip_trailing_slash (String c' s' ++ "/"))).
    rewrite IH. reflexivity.
Qed.

Lemma strip_trailing_slash_cases (s : string) :
  TS.strip_trailing_slash s = s \/ s = (TS.strip_trailing_slash s ++ "/")%string.
Proof.
  induction s as [|c s IH]; [left; reflexivity|].
  destruct s as [|c' s'].
  - cbn. destruct (Ascii.eqb_spec c "/") as [->|]; [right|left]; reflexivity.
  - change (TS.strip_trailing_slash (String c (String c' s')))
      with (String c (TS.strip_trailing_slash (String c' s'))).
    destruct IH as [IH|IH].
    + left. rewrite IH. reflexivity.
    + right.
      change (String c (String c' s')
              = String c (TS.strip_trailing_slash (String c' s') ++ "/")).
      f_equal. exact IH.
Qed.

(** X1.  The HTTP client removes exactly one trailing slash from the
    endpoint and changes nothing else: an endpoint written with a slash
    appended gives the base URL without it, and the base URL of any
    endpoint is the endpoint itself or the endpoint minus its last
    character, a slash. *)
Theorem endpoint_loses_one_trailing_slash (endpoint orgId : string) :
  TS.baseUrl (TS.newHttpClient (endpoint ++ "/") orgId) = endpoint
  /\ (TS.baseUrl (TS.newHttpClient endpoint orgId) = endpoint
      \/ endpoint = (TS.baseUrl (TS.newHttpClient endpoint orgId) ++ "/")%string)
  /\ TS.orgId (TS.newHttpClient endpoint orgId) = orgId.
Proof.
  split; [apply strip_trailing_slash_app|].
  split; [apply strip_trailing_slash_cases|reflexivity].
Qed.

(** *** Session keys and tool names (session/session-manager.ts) *)

(** X2.  Once [getSessionKey] has answered for a server, every later call
    for a server with the same low-level server object returns that same
    key and leaves the cache as it is, whatever the clock shows and
    whatever request context, transport session id or class the server
    then has. *)
Theorem session_key_is_stable (now now' : Z) (server server' : Introspection.Host)
    (cache : Introspection.KeyCache) :
  Introspection.cache_key server' = Introspection.cache_key server ->
  Introspection.getSessionKey now' server'
    (snd (Introspection.getSessionKey now server cache))
  = Introspection.getSessionKey now server cache.
Proof.
  intros Hkey. unfold Introspection.getSessionKey. rewrite Hkey.
  destruct (cache !! Introspection.cache_key server) as [cached|] eqn:Hc; cbn [snd].
  - rewrite Hc. reflexivity.
  - unfold Introspection.KeyCache in *. rewrite lookup_insert_eq. reflexivity.
Qed.

Lemma session_key_is_stable_witness :
  Introspection.getSessionKey 2000
    (Introspection.HostServer 7 None "transport-b" "Object")
    (snd (Introspection.getSessionKey 1000
            (Introspection.HostServer 7 (Some "Object") "transport-a" "McpServer") ∅))
  = ("session_Object_1000", {[ Some 7%nat := "session_Object_1000" ]}).
Proof.
  rewrite (session_key_is_stable 1000 2000
             (Introspection.HostServer 7 (Some "Object") "transport-a" "McpServer")
             (Introspection.HostServer 7 None "transport-b" "Object") ∅ eq_refl).
  reflexivity.
Defined.

Section ToolNames.
Context `{Runtime}.



End ToolNames.



(** *** Session identifiers of the Go SDK (utils.go) *)

Lemma version_nibble (b : Z) : Z.shiftr (GoUtils.set_version b) 4 = 4%Z.
Proof.
  unfold GoUtils.set_version. rewrite Z.shiftr_lor, Z.shiftr_land.
  change (Z.shiftr 0x0f 4) with 0%Z. rewrite Z.land_0_r. reflexivity.
Qed.

Lemma variant_nibble (b : Z) :
  exists k, (0 <= k < 4)%Z /\ Z.shiftr (GoUtils.set_variant b) 4 = (8 + k)%Z.
Proof.
  unfold GoUtils.set_variant. rewrite Z.shiftr_lor, Z.shiftr_land.
  change (Z.shiftr 0x3f 4) with (Z.ones 2). change (Z.shiftr 0x80 4) with 8%Z.
  rewrite Z.land_ones by lia.
  exists (Z.shiftr b 4 mod 2 ^ 2)%Z.
  assert (Hk : (0 <= Z.shiftr b 4 mod 2 ^ 2 < 4)%Z) by (apply Z.mod_pos_bound; lia).
  split; [exact Hk|].
  set (k := (Z.shiftr b 4 mod 2 ^ 2)%Z) in *.
  assert (Hc : k = 0%Z \/ k = 1%Z \/ k = 2%Z \/ k = 3%Z) by lia.
  destruct Hc as [-> | [-> | [-> | ->]]]; reflexivity.
Qed.

Lemma low_bits_kept (b : Z) :
  Z.land (GoUtils.set_version b) 0x0f = Z.land b 0x0f
  /\ Z.land (GoUtils.set_variant b) 0x3f = Z.land b 0x3f.
Proof.
  unfold GoUtils.set_version, GoUtils.set_variant.
  rewrite !Z.land_lor_distr_l, <- !Z.land_assoc.
  change (Z.land 0x0f 0x0f) with 0x0f%Z. change (Z.land 0x40 0x0f) with 0%Z.
  change (Z.land 0x3f 0x3f) with 0x3f%Z. change (Z.land 0x80 0x3f) with 0%Z.
  rewrite !Z.lor_0_r. split; reflexivity.
Qed.

(** X4.  Whatever sixteen bytes the random source delivers,
    [generateSessionID] returns a string with the layout of a version-4
    UUID: 36 characters, hyphens at positions 8, 13, 18 and 23, the digit
    4 at position 14 and one of 8, 9, a, b at position 19.  The stamping
    keeps every byte but the seventh and the ninth, and of those two the
    low four and the low six bits. *)
Theorem session_id_is_a_version_4_uuid (random : list Z) :
  List.length random = 16%nat ->
  let id := GoUtils.generateSessionID random in
  String.length id = 36%nat
  /\ String.get 8 id = Some "-"%char /\ String.get 13 id = Some "-"%char
  /\ String.get 18 id = Some "-"%char /\ String.get 23 id = Some "-"%char
  /\ String.get 14 id = Some "4"%char
  /\ (exists a, String.get 19 id = Some a
                /\ (a = "8" \/ a = "9" \/ a = "a" \/ a = "b")%char)
  /\ (forall i, i <> 6%nat -> i <> 8%nat -> GoUtils.stamp random !! i = random !! i)
  /\ (forall b, random !! 6%nat = Some b ->
        exists b', GoUtils.stamp random !! 6%nat = Some b'
                   /\ Z.land b' 0x0f = Z.land b 0x0f /\ Z.shiftr b' 4 = 4%Z)
  /\ (forall b, random !! 8%nat = Some b ->
        exists b', GoUtils.stamp random !! 8%nat = Some b'
                   /\ Z.land b' 0x3f = Z.land b 0x3f /\ Z.shiftr b' 6 = 2%Z).
Proof.
  intros Hlen.
  do 16 (destruct random as [|? random]; [discriminate Hlen|]).
  destruct random; [clear Hlen|discriminate Hlen].
  cbn zeta. unfold GoUtils.generateSessionID, GoUtils.stamp, GoUtils.slice.
  cbn [alter list_alter take drop Nat.sub GoUtils.hex]. unfold GoUtils.hex_byte.
  cbn [String.append String.length String.get].
  repeat split; try reflexivity.
  - rewrite version_nibble. reflexivity.
  - destruct (variant_nibble z7) as (k & Hk & ->).
    assert (Hc : k = 0%Z \/ k = 1%Z \/ k = 2%Z \/ k = 3%Z) by lia.
    destruct Hc as [-> | [-> | [-> | ->]]]; eexists; (split; [reflexivity|]); tauto.
  - intros i H6 H8.
    do 9 (destruct i as [|i]; try reflexivity; try contradiction).
  - intros b [= <-]. eexists. split; [reflexivity|].
    split; [apply low_bits_kept|apply version_nibble].
  - intros b [= <-]. eexists. split; [reflexivity|].
    split; [apply low_bits_kept|].
    unfold GoUtils.set_variant. rewrite Z.shiftr_lor, Z.shiftr_land.
    change (Z.shiftr 0x3f 6) with 0%Z. rewrite Z.land_0_r. reflexivity.
Qed.

Lemma session_id_is_a_version_4_uuid_witness :
  List.length Examples.random_bytes = 16%nat
  /\ GoUtils.generateSessionID Examples.random_bytes = "00112233-4455-4677-8899-aabbccddeeff"
  /\ String.get 14 (GoUtils.generateSessionID Examples.random_bytes) = Some "4"%char.
Proof.
  split; [reflexivity|]. split; [reflexivity|].
  exact (proj1 (proj2 (proj2 (proj2 (proj2 (proj2
           (session_id_is_a_version_4_uuid Examples.random_bytes eq_refl))))))).
Defined.

Lemma set_version_value (b : Z) : GoUtils.set_version b = (b mod 16 + 64)%Z.
Proof.
  unfold GoUtils.set_version.
  pose proof (Z.add_lor_land (Z.land b 0x0f) 0x40) as Hadd.
  rewrite <- Z.land_assoc in Hadd. change (Z.land 0x0f 0x40) with 0%Z in Hadd.
  rewrite Z.land_0_r, Z.add_0_r in Hadd. rewrite Hadd.
  change 0x0f%Z with (Z.ones 4). rewrite Z.land_ones by lia. reflexivity.
Qed.

Lemma set_variant_value (b : Z) : GoUtils.set_variant b = (b mod 64 + 128)%Z.
Proof.
  unfold GoUtils.set_variant.
  pose proof (Z.add_lor_land (Z.land b 0x3f) 0x80) as Hadd.
  rewrite <- Z.land_assoc in Hadd. change (Z.land 0x3f 0x80) with 0%Z in Hadd.
  rewrite Z.land_0_r, Z.add_0_r in Hadd. rewrite Hadd.
  change 0x3f%Z with (Z.ones 6). rewrite Z.land_ones by lia. reflexivity.
Qed.

Lemma hex_digit_inj (a b : Z) :
  (0 <= a < 16)%Z -> (0 <= b < 16)%Z -> GoUtils.hex_digit a = GoUtils.hex_digit b -> a = b.
Proof.
  intros Ha Hb.
  assert (Hca : (a = 0 \/ a = 1 \/ a = 2 \/ a = 3 \/ a = 4 \/ a = 5 \/ a = 6 \/ a = 7 \/ a = 8
                 \/ a = 9 \/ a = 10 \/ a = 11 \/ a = 12 \/ a = 13 \/ a = 14 \/ a = 15)%Z) by lia.
  assert (Hcb : (b = 0 \/ b = 1 \/ b = 2 \/ b = 3 \/ b = 4 \/ b = 5 \/ b = 6 \/ b = 7 \/ b = 8
                 \/ b = 9 \/ b = 10 \/ b = 11 \/ b = 12 \/ b = 13 \/ b = 14 \/ b = 15)%Z) by lia.
  clear Ha Hb.
  repeat (destruct Hca as [->|Hca]); try subst a;
    repeat (destruct Hcb as [->|Hcb]); try subst b;
    intros Heq; first [reflexivity | (vm_compute in Heq; discriminate Heq)].
Qed.

Lemma hex_byte_inj (a b : Z) :
  (0 <= a < 256)%Z -> (0 <= b < 256)%Z ->
  GoUtils.hex_digit (Z.shiftr a 4) = GoUtils.hex_digit (Z.shiftr b 4) ->
  GoUtils.hex_digit (Z.land a 0x0f) = GoUtils.hex_digit (Z.land b 0x0f) ->
  a = b.
Proof.
  intros Ha Hb Hhi Hlo.
  rewrite !Z.shiftr_div_pow2 in Hhi by lia.
  change 0x0f%Z with (Z.ones 4) in Hlo. rewrite !Z.land_ones in Hlo by lia.
  change (2 ^ 4)%Z with 16%Z in *.
  apply hex_digit_inj in Hhi;
    [|(split; [apply Z.div_pos; lia|apply Z.div_lt_upper_bound; lia])..].
  apply hex_digit_inj in Hlo; [|(apply Z.mod_pos_bound; lia)..].
  rewrite (Z.div_mod a 16), (Z.div_mod b 16) by lia. rewrite Hhi, Hlo. reflexivity.
Qed.

Lemma stamp_in_range (random : list Z) :
  Forall (fun b => 0 <= b < 256)%Z random ->
  Forall (fun b => 0 <= b < 256)%Z (GoUtils.stamp random).
Proof.
  intros Hr. unfold GoUtils.stamp.
  apply Forall_alter.
  - apply Forall_alter; [exact Hr|].
    intros b _ _. rewrite set_version_value.
    pose proof (Z.mod_pos_bound b 16 ltac:(lia)). lia.
  - intros b _ _. rewrite set_variant_value.
    pose proof (Z.mod_pos_bound b 64 ltac:(lia)). lia.
Qed.

(** X5.  The identifier keeps every bit of the stamped bytes: two draws of
    sixteen bytes that give the same identifier agree after stamping, so
    they differ at most in the six bits the stamping overwrites. *)
Theorem session_id_determines_the_bytes (random random' : list Z) :
  List.length random = 16%nat ->
  List.length random' = 16%nat ->
  Forall (fun b => 0 <= b < 256)%Z random ->
  Forall (fun b => 0 <= b < 256)%Z random' ->
  GoUtils.generateSessionID random = GoUtils.generateSessionID random' ->
  GoUtils.stamp random = GoUtils.stamp random'
  /\ forall i, i <> 6%nat -> i <> 8%nat -> random !! i = random' !! i.
Proof.
  intros Hlen Hlen' Hr Hr' Hid.
  assert (Hstamp : GoUtils.stamp random = GoUtils.stamp random').
  { pose proof (stamp_in_range random Hr) as Hs.
    pose proof (stamp_in_range random' Hr') as Hs'.
    assert (Hl : List.length (GoUtils.stamp random) = 16%nat)
      by (unfold GoUtils.stamp; rewrite !length_alter; exact Hlen).
    assert (Hl' : List.length (GoUtils.stamp random') = 16%nat)
      by (unfold GoUtils.stamp; rewrite !length_alter; exact Hlen').
    unfold GoUtils.generateSessionID in Hid. cbn zeta in Hid.
    destruct (GoUtils.stamp random) as [|a0 [|a1 [|a2 [|a3 [|a4 [|a5 [|a6 [|a7 [|a8 [|a9 [|a10
      [|a11 [|a12 [|a13 [|a14 [|a15 [|? ?]]]]]]]]]]]]]]]]]; try discriminate Hl.
    destruct (GoUtils.stamp random') as [|b0 [|b1 [|b2 [|b3 [|b4 [|b5 [|b6 [|b7 [|b8 [|b9 [|b10
      [|b11 [|b12 [|b13 [|b14 [|b15 [|? ?]]]]]]]]]]]]]]]]]; try discriminate Hl'.
    unfold GoUtils.slice in Hid.
    cbn [take drop Nat.sub GoUtils.hex] in Hid. unfold GoUtils.hex_byte in Hid.
    cbn [String.append] in Hid.
    repeat match goal with
           | H : Forall _ (_ :: _) |- _ => apply Forall_cons in H as [? H]
           end.
    injection Hid as ? ? ? ? ? ? ? ? ? ? ? ? ? ? ? ? ? ? ? ? ? ? ? ? ? ? ? ? ? ? ? ?.
    repeat f_equal; apply hex_byte_inj; assumption. }
  split; [exact Hstamp|].
  intros i H6 H8.
  pose proof (f_equal (fun l => l !! i) Hstamp) as Hi. cbn beta in Hi.
  unfold GoUtils.stamp in Hi.
  rewrite !list_lookup_alter_ne in Hi by congruence. exact Hi.
Qed.

Lemma session_id_determines_the_bytes_witness :
  GoUtils.stamp Examples.random_bytes
  = GoUtils.stamp (<[6%nat := 6%Z]> Examples.random_bytes).
Proof.
  refine (proj1 (session_id_determines_the_bytes Examples.random_bytes
                   (<[6%nat := 6%Z]> Examples.random_bytes) eq_refl eq_refl _ _ eq_refl)).
  - unfold Examples.random_bytes. repeat (constructor; [lia|]). constructor.
  - unfold Examples.random_bytes. cbn. repeat (constructor; [lia|]). constructor.
Defined.

(** *** Request queue (network/request-queue.ts) *)

Section QueueProperties.
Context {R : Type}.

Lemma queue_init_consistent : QueueRuns.consistent (QueueLoop.rq (@QueueLoop.init R)).
Proof. split; [reflexivity|]. intros _. reflexivity. Qed.

Lemma loop_head_consistent (q : TS.RequestQueue.t R) :
  QueueRuns.consistent (fst (TS.RequestQueue.loop_head q)).
Proof.
  unfold TS.RequestQueue.loop_head.
  destruct (TS.RequestQueue.queue q) as [|request rest]; cbn [fst].
  - split; [reflexivity|]. intros _. reflexivity.
  - split; [reflexivity|]. intros Hi. discriminate Hi.
Qed.

(** Every event keeps the queue consistent. *)
Lemma queue_step_consistent (s : QueueLoop.State R) (e : QueueLoop.Event R) :
  QueueRuns.consistent (QueueLoop.rq s) ->
  QueueRuns.consistent (QueueLoop.rq (QueueLoop.step s e)).
Proof.
  intros [Hp He]. destruct s as [[queue isProcessing worker] settled flush qf].
  unfold QueueRuns.consistent, QueueRuns.idle in *. cbn in Hp, He.
  destruct e as [r| | | | |]; cbn [QueueLoop.step QueueLoop.rq].
  - unfold TS.RequestQueue.enqueue. cbn.
    destruct isProcessing; cbn.
    + split; [exact Hp|]. intros Hi. destruct worker; discriminate.
    + unfold TS.RequestQueue.processQueue. cbn.
      rewrite bool_decide_eq_false_2 by (destruct queue; discriminate).
      apply loop_head_consistent.
  - unfold TS.RequestQueue.settle. cbn.
    destruct worker as [|request|]; cbn.
    + split; assumption.
    + destruct queue as [|next rest]; cbn.
      * split; [reflexivity|]. intros _. reflexivity.
      * split; [exact Hp|]. intros Hi. discriminate Hi.
    + split; assumption.
  - unfold TS.RequestQueue.delay_elapsed. cbn.
    destruct worker as [|request|]; cbn; [split; assumption..|].
    apply loop_head_consistent.
  - cbn. split; [exact Hp|]. intros _. reflexivity.
  - destruct flush; cbn; split; assumption.
  - destruct flush; cbn; split; assumption.
Qed.

Lemma queue_run_consistent (events : list (QueueLoop.Event R)) :
  forall s, QueueRuns.consistent (QueueLoop.rq s) ->
            QueueRuns.consistent (QueueLoop.rq (QueueLoop.run events s)).
Proof.
  induction events as [|e events IH]; intros s Hs; [exact Hs|].
  cbn. apply IH, queue_step_consistent, Hs.
Qed.

(** An event other than [clear()] keeps the order of delivery and adds
    the request it enqueues at the end. *)
Lemma queue_step_order (s : QueueLoop.State R) (e : QueueLoop.Event R) :
  QueueRuns.consistent (QueueLoop.rq s) ->
  QueueRuns.never_cleared [e] = true ->
  QueueRuns.delivery_order (QueueLoop.step s e)
  = (QueueRuns.delivery_order s ++ QueueRuns.enqueued [e])%list.
Proof.
  intros [Hp He] Hc. destruct s as [[queue isProcessing worker] settled flush qf].
  unfold QueueRuns.consistent, QueueRuns.idle, QueueRuns.delivery_order, QueueLoop.in_flight in *.
  cbn in Hp, He.
  destruct e as [r| | | | |]; cbn [QueueLoop.step QueueLoop.rq QueueLoop.settled QueueRuns.enqueued omap
                                     list_omap]; try discriminate Hc.
  - unfold TS.RequestQueue.enqueue. cbn.
    destruct isProcessing; cbn.
    + rewrite <- !app_assoc. reflexivity.
    + destruct worker; try discriminate Hp. rewrite (He eq_refl).
      unfold TS.RequestQueue.processQueue. cbn. rewrite app_nil_r. reflexivity.
  - unfold TS.RequestQueue.settle. cbn.
    destruct worker as [|request|]; cbn.
    + rewrite !app_nil_r. reflexivity.
    + destruct queue as [|next rest]; cbn; rewrite ?app_nil_r, <- ?app_assoc; reflexivity.
    + rewrite !app_nil_r. reflexivity.
  - unfold TS.RequestQueue.delay_elapsed. cbn.
    destruct worker as [|request|]; cbn; rewrite ?app_nil_r; try reflexivity.
    unfold TS.RequestQueue.loop_head. cbn.
    destruct queue as [|next rest]; cbn; rewrite ?app_nil_r; reflexivity.
  - destruct flush; cbn; rewrite app_nil_r; reflexivity.
  - destruct flush; cbn; rewrite app_nil_r; reflexivity.
Qed.

Lemma queue_run_order (events : list (QueueLoop.Event R)) :
  forall s, QueueRuns.consistent (QueueLoop.rq s) ->
            QueueRuns.never_cleared events = true ->
            QueueRuns.delivery_order (QueueLoop.run events s)
            = (QueueRuns.delivery_order s ++ QueueRuns.enqueued events)%list.
Proof.
  induction events as [|e events IH]; intros s Hs Hc.
  - cbn. rewrite app_nil_r. reflexivity.
  - cbn [QueueRuns.never_cleared forallb] in Hc. apply andb_true_iff in Hc as [Hce Hcs].
    change (QueueLoop.run (e :: events) s) with (QueueLoop.run events (QueueLoop.step s e)).
    rewrite (IH _ (queue_step_consistent s e Hs) Hcs).
    rewrite (queue_step_order s e Hs) by (cbn; rewrite Hce; reflexivity).
    rewrite <- app_assoc. f_equal.
    destruct e; reflexivity.
Qed.

(** One round (the request in flight settles, the delay elapses) takes a
    request off the waiting list, or leaves the worker idle if none
    waits. *)
Lemma queue_round_shrinks (s : QueueLoop.State R) :
  QueueRuns.consistent (QueueLoop.rq s) ->
  let s1 := QueueLoop.step (QueueLoop.step s QueueLoop.Settle) QueueLoop.DelayElapsed in
  (List.length (TS.RequestQueue.queue (QueueLoop.rq s1))
   <= pred (List.length (TS.RequestQueue.queue (QueueLoop.rq s))))%nat
  /\ (TS.RequestQueue.queue (QueueLoop.rq s) = [] ->
      TS.RequestQueue.worker (QueueLoop.rq s1) = TS.RequestQueue.Idle).
Proof.
  intros [Hp He]. destruct s as [[queue isProcessing worker] settled flush qf].
  unfold QueueRuns.consistent, QueueRuns.idle in *. cbn in Hp, He.
  cbn [QueueLoop.step QueueLoop.rq].
  unfold TS.RequestQueue.settle. cbn.
  destruct worker as [|request|]; cbn.
  - rewrite (He eq_refl). cbn. split; [lia|reflexivity].
  - destruct queue as [|next rest]; cbn; (split; [lia|]); intros Hq;
      [reflexivity|discriminate Hq].
  - unfold TS.RequestQueue.delay_elapsed, TS.RequestQueue.loop_head. cbn.
    destruct queue as [|next rest]; cbn; (split; [lia|]); intros Hq;
      [reflexivity|discriminate Hq].
Qed.

Lemma queue_rounds_drain (n : nat) :
  forall s : QueueLoop.State R,
  QueueRuns.consistent (QueueLoop.rq s) ->
  (List.length (TS.RequestQueue.queue (QueueLoop.rq s)) <= n)%nat ->
  let s' := QueueLoop.run (QueueRuns.rounds (S n)) s in
  TS.RequestQueue.worker (QueueLoop.rq s') = TS.RequestQueue.Idle
  /\ TS.RequestQueue.queue (QueueLoop.rq s') = []
  /\ TS.RequestQueue.isProcessing (QueueLoop.rq s') = false
  /\ QueueLoop.settled s' = QueueRuns.delivery_order s.
Proof.
  induction n as [|n IH]; intros s Hs Hlen.
  - cbn zeta.
    change (QueueLoop.run (QueueRuns.rounds 1) s)
      with (QueueLoop.step (QueueLoop.step s QueueLoop.Settle) QueueLoop.DelayElapsed).
    assert (Hq : TS.RequestQueue.queue (QueueLoop.rq s) = [])
      by (apply length_zero_iff_nil; lia).
    destruct (queue_round_shrinks s Hs) as [Hsh Hidle]. cbn zeta in Hsh, Hidle.
    set (s1 := QueueLoop.step (QueueLoop.step s QueueLoop.Settle) QueueLoop.DelayElapsed) in *.
    assert (Hs1 : QueueRuns.consistent (QueueLoop.rq s1))
      by (apply queue_step_consistent, queue_step_consistent, Hs).
    assert (Hq1 : TS.RequestQueue.queue (QueueLoop.rq s1) = []).
    { rewrite Hq in Hsh. cbn [List.length pred] in Hsh.
      apply length_zero_iff_nil. lia. }
    assert (Ho : QueueRuns.delivery_order s1 = QueueRuns.delivery_order s).
    { unfold s1.
      rewrite (queue_step_order _ QueueLoop.DelayElapsed
                 (queue_step_consistent s QueueLoop.Settle Hs) eq_refl).
      rewrite (queue_step_order _ QueueLoop.Settle Hs eq_refl).
      cbn. rewrite !app_nil_r. reflexivity. }
    split; [exact (Hidle Hq)|]. split; [exact Hq1|].
    split.
    + destruct Hs1 as [Hp1 _]. rewrite Hp1. unfold QueueRuns.idle. rewrite (Hidle Hq).
      reflexivity.
    + rewrite <- Ho. unfold QueueRuns.delivery_order, QueueLoop.in_flight.
      rewrite (Hidle Hq), Hq1, !app_nil_r. reflexivity.
  - cbn zeta.
    change (QueueLoop.run (QueueRuns.rounds (S (S n))) s)
      with (QueueLoop.run (QueueRuns.rounds (S n))
              (QueueLoop.step (QueueLoop.step s QueueLoop.Settle) QueueLoop.DelayElapsed)).
    destruct (queue_round_shrinks s Hs) as [Hsh _]. cbn zeta in Hsh.
    set (s1 := QueueLoop.step (QueueLoop.step s QueueLoop.Settle) QueueLoop.DelayElapsed) in *.
    assert (Hs1 : QueueRuns.consistent (QueueLoop.rq s1))
      by (apply queue_step_consistent, queue_step_consistent, Hs).
    assert (Ho : QueueRuns.delivery_order s1 = QueueRuns.delivery_order s).
    { unfold s1.
      rewrite (queue_step_order _ QueueLoop.DelayElapsed
                 (queue_step_consistent s QueueLoop.Settle Hs) eq_refl).
      rewrite (queue_step_order _ QueueLoop.Settle Hs eq_refl).
      cbn. rewrite !app_nil_r. reflexivity. }
    rewrite <- Ho. apply IH; [exact Hs1|lia].
Qed.

End QueueProperties.

(** X6.  As long as [clear()] is not called, the request queue deals with
    the requests in the order they were enqueued, one at a time: those
    settled, then the one in flight, then those waiting are exactly the
    requests enqueued, in that order, none skipped and none repeated. *)
Theorem queue_delivers_in_enqueue_order (R : Type) (events : list (QueueLoop.Event R)) :
  QueueRuns.never_cleared events = true ->
  QueueRuns.delivery_order (QueueLoop.run events QueueLoop.init) = QueueRuns.enqueued events.
Proof.
  intros Hc. rewrite (queue_run_order events _ queue_init_consistent Hc). reflexivity.
Qed.

Lemma queue_delivers_in_enqueue_order_witness :
  let s := QueueLoop.run
             [QueueLoop.Enqueue 1%nat; QueueLoop.Enqueue 2%nat; QueueLoop.Settle;
              QueueLoop.Enqueue 3%nat; QueueLoop.DelayElapsed]
             QueueLoop.init in
  QueueLoop.settled s = [1%nat]
  /\ QueueLoop.in_flight (QueueLoop.rq s) = [2%nat]
  /\ QueueRuns.delivery_order s = [1; 2; 3]%nat.
Proof.
  split; [reflexivity|]. split; [reflexivity|].
  exact (queue_delivers_in_enqueue_order nat
           [QueueLoop.Enqueue 1%nat; QueueLoop.Enqueue 2%nat; QueueLoop.Settle;
            QueueLoop.Enqueue 3%nat; QueueLoop.DelayElapsed] eq_refl).
Defined.

(** X7.  Whatever is enqueued, settled, cleared or flushed, the queue is
    processing exactly while its worker is suspended, and it holds no
    waiting request while it is not processing.  So the loop of [flush()]
    ends only at a moment when no request waits, and a [clear()] at that
    moment discards nothing. *)
Theorem queue_waits_only_while_processing (R : Type) (events : list (QueueLoop.Event R)) :
  let q := QueueLoop.rq (QueueLoop.run events QueueLoop.init) in
  (TS.RequestQueue.isProcessing q = false <-> TS.RequestQueue.worker q = TS.RequestQueue.Idle)
  /\ (TS.RequestQueue.isProcessing q = false -> TS.RequestQueue.queue q = [])
  /\ (TS.RequestQueue.flush_waits q = false ->
      TS.RequestQueue.size q = 0%nat /\ TS.RequestQueue.clear q = q).
Proof.
  cbn zeta.
  destruct (queue_run_consistent events _ (@queue_init_consistent R)) as [Hp He].
  set (q := QueueLoop.rq (QueueLoop.run events QueueLoop.init)) in *.
  unfold QueueRuns.idle in *.
  assert (Hempty : TS.RequestQueue.isProcessing q = false -> TS.RequestQueue.queue q = []).
  { intros Hf. apply He. rewrite Hf in Hp. destruct (TS.RequestQueue.worker q);
      [reflexivity|discriminate Hp..]. }
  split; [|split; [exact Hempty|]].
  - rewrite Hp. destruct (TS.RequestQueue.worker q); cbn; split; congruence.
  - unfold TS.RequestQueue.flush_waits. intros Hw.
    assert (Hq : TS.RequestQueue.queue q = []).
    { destruct (TS.RequestQueue.isProcessing q) eqn:Hproc; [|exact (Hempty eq_refl)].
      cbn in Hw. apply negb_false_iff, bool_decide_eq_true in Hw. exact Hw. }
    split.
    + unfold TS.RequestQueue.size. rewrite Hq. reflexivity.
    + unfold TS.RequestQueue.clear. rewrite <- Hq. destruct q; reflexivity.
Qed.

(** X8.  Nothing enqueued is left behind: from any state the queue can
    reach, once the request in flight and each request waiting behind it
    have settled (one round per request), the worker is idle, nothing
    waits, and the requests settled are all those the queue had dealt
    with or held, in order. *)
Theorem queue_drains (R : Type) (events : list (QueueLoop.Event R)) :
  let s := QueueLoop.run events QueueLoop.init in
  let s' := QueueLoop.run (QueueRuns.rounds (S (TS.RequestQueue.size (QueueLoop.rq s)))) s in
  TS.RequestQueue.worker (QueueLoop.rq s') = TS.RequestQueue.Idle
  /\ TS.RequestQueue.queue (QueueLoop.rq s') = []
  /\ TS.RequestQueue.isProcessing (QueueLoop.rq s') = false
  /\ QueueLoop.settled s' = QueueRuns.delivery_order s.
Proof.
  cbn zeta. apply queue_rounds_drain.
  - apply queue_run_consistent, queue_init_consistent.
  - unfold TS.RequestQueue.size. lia.
Qed.

(** *** Session records and object pools (session/session-manager.ts,
    performance/object-pool.ts) *)

Section SessionRecords.
Context `{Runtime} `{TS.Env}.
Variable c : TS.AnalyticsHttpClient.

Lemma getSessionData_bounded (p : TS.DataObjectPools) :
  Bounds.pools_bounded p -> Bounds.pools_bounded (snd (TS.getSessionData p)).
Proof.
  intros [Hs He]. unfold TS.getSessionData, TS.ObjectPool.get.
  destruct (TS.sessionDataPool p) as [|pooled rest]; cbn in *; split; cbn; lia.
Qed.

Lemma return_bounded {T : Type} (obj : T) (pool : list T) :
  (List.length pool <= TS.ObjectPool.maxSize)%nat ->
  (List.length (TS.ObjectPool.return_ obj pool) <= TS.ObjectPool.maxSize)%nat.
Proof.
  intros Hp. unfold TS.ObjectPool.return_.
  destruct (decide (List.length pool < TS.ObjectPool.maxSize)%nat); cbn [List.length]; lia.
Qed.

Lemma returnSessionData_bounded (d : TS.SessionData) (p : TS.DataObjectPools) :
  Bounds.pools_bounded p -> Bounds.pools_bounded (TS.returnSessionData d p).
Proof. intros [Hs He]. split; [apply return_bounded, Hs|exact He]. Qed.

Lemma returnEventData_bounded (d : TS.EventData) (p : TS.DataObjectPools) :
  Bounds.pools_bounded p -> Bounds.pools_bounded (TS.returnEventData d p).
Proof. intros [Hs He]. split; [exact Hs|apply return_bounded, He]. Qed.

Lemma getEventData_bounded (p : TS.DataObjectPools) :
  Bounds.pools_bounded p -> Bounds.pools_bounded (snd (TS.getEventData p)).
Proof.
  intros [Hs He]. unfold TS.getEventData, TS.ObjectPool.get.
  destruct (TS.eventDataPool p) as [|pooled rest]; cbn in *; split; cbn; lia.
Qed.

Lemma startSession_bounded sv key dummy (st : TS.SmState) :
  Bounds.pools_bounded (TS.sm_pools st) ->
  Bounds.pools_bounded (TS.sm_pools (snd (TS.startSession c sv key dummy st))).
Proof.
  intros Hb.
  assert (Hcreates : dummy = true \/ TS.sessionIds (TS.sm_self st) !! key = None ->
                     Bounds.pools_bounded
                       (TS.sm_pools (snd (TS.startSession c sv key dummy st)))).
  { intros Hcase. destruct (fst (TS.identifyUser st)) as [u|message] eqn:Hid.
    - destruct (startSession_creates c sv key dummy st u Hcase Hid)
        as (_ & _ & _ & Hp & _).
      cbn zeta in Hp. rewrite Hp.
      destruct (TS.axios_resolves _ && _);
        [apply returnSessionData_bounded|]; apply getSessionData_bounded, Hb.
    - rewrite (startSession_rejected c sv key dummy st message Hcase Hid).
      destruct dummy; exact Hb. }
  destruct dummy eqn:Hd; [|destruct (TS.sessionIds (TS.sm_self st) !! key) as [id|] eqn:Hk].
  - apply Hcreates. left; reflexivity.
  - unfold TS.startSession, TS.startSession_enter. cbn [TS.sc_dummy TS.sc_sessionKey].
    rewrite Hk. exact Hb.
  - apply Hcreates. right; reflexivity.
Qed.

End SessionRecords.



(** X10.  A dummy session never touches the session cache: whether or not
    the key is cached, [startSession] with [returnDummySession] draws a
    new identifier and leaves [sessionIds] as it was.  When
    [identifyUser] resolves, it posts one creation request under the
    client name "unidentified_client", and returns the identifier if the
    collector takes the request and the info line that names the user can
    be built (the [userId] converts to a string), and the empty string
    otherwise.  When [identifyUser] rejects, it posts nothing, logs the
    error and returns the empty string. *)
Theorem dummy_session_bypasses_cache (R : Runtime) (E : TS.Env) c sv key (st : TS.SmState) :
  let r := TS.startSession c sv key true st in
  let id := TS.uuidv4 (TS.uuids_drawn (TS.sm_io st)) in
  TS.sessionIds (TS.sm_self (snd r)) = TS.sessionIds (TS.sm_self st)
  /\ TS.uuids_drawn (TS.sm_io (snd r)) = S (TS.uuids_drawn (TS.sm_io st))
  /\ match fst (TS.identifyUser st) with
     | Value u =>
         fst r = Some (if Bounds.accepts_next (TS.sm_io st) && Bounds.info_line_ok u
                       then id else "")
         /\ exists d,
              TsConcurrent.creation_requests (snd r)
              = (TsConcurrent.creation_requests st ++ [d])%list
              /\ TS.session_id d = id
              /\ TS.client_config d = "unidentified_client"
              /\ TS.tools d = TS.tools (fst (TS.getSessionData (TS.sm_pools st)))
     | TypeError message =>
         fst r = Some ""
         /\ TsConcurrent.creation_requests (snd r) = TsConcurrent.creation_requests st
         /\ TS.log (TS.sm_io (snd r))
            = (TS.log (TS.sm_io st)
               ++ [(LError, ("Failed to start dummy session: " ++ message)%string)])%list
     end.
Proof.
  cbn zeta. destruct (fst (TS.identifyUser st)) as [u|message] eqn:Hid.
  - destruct (startSession_creates c sv key true st u (or_introl eq_refl) Hid)
      as (Hpo & Hr & Hs & _ & Hu & _).
    cbn zeta in *. cbn [negb andb orb] in Hs, Hr.
    split; [exact Hs|]. split; [exact Hu|]. split; [exact Hr|].
    eexists. split; [exact (creation_requests_posted _ _ _ _ _ Hpo)|].
    unfold Bounds.session_record, TS.attach_user. cbn [TS.attach_tools].
    destruct (truthy u); repeat split; reflexivity.
  - rewrite (startSession_rejected c sv key true st message (or_introl eq_refl) Hid).
    repeat split; reflexivity.
Qed.

Section Outage.
Context `{Runtime} `{TS.Env}.
Variable c : TS.AnalyticsHttpClient.
Variable er : TS.EventRecorder.
Hypothesis refused : forall n, TS.axios_resolves (TS.collector n) = false.




End Outage.



Section PoolBounds.
Context `{Runtime} `{TS.Env}.
Variable c : TS.AnalyticsHttpClient.
Variable er : TS.EventRecorder.

Lemma getOrCreateSessionId_bounded (st : TS.SmState) :
  Bounds.pools_bounded (TS.sm_pools st) ->
  Bounds.pools_bounded (TS.sm_pools (snd (TS.getOrCreateSessionId c er st))).
Proof.
  intros Hb. unfold TS.getOrCreateSessionId.
  destruct (negb (String.eqb (default "" (TS.getSessionId (TS.sm_self st)
                                           (TS.sv_sessionKey (TS.er_server er)))) ""));
    [exact Hb|].
  pose proof (startSession_bounded c (TS.er_server er) (TS.sv_sessionKey (TS.er_server er))
                false st Hb) as Hb1.
  destruct (TS.startSession c (TS.er_server er) (TS.sv_sessionKey (TS.er_server er)) false st)
    as [r st1]; cbn [snd] in Hb1.
  destruct (negb (String.eqb (default "" r) "")); exact Hb1.
Qed.

Lemma recorder_step_bounded (st st' : TS.RecState) :
  ts_step c er st st' ->
  Bounds.pools_bounded (TS.sm_pools (TS.rs_sm st)) ->
  Bounds.pools_bounded (TS.sm_pools (TS.rs_sm st')).
Proof.
  intros Hstep Hb.
  destruct Hstep as [primitiveType primitiveName args latency success result st|st|st].
  - unfold TS.recordEvent.
    pose proof (getOrCreateSessionId_bounded (TS.rs_sm st) Hb) as Hb1.
    destruct (TS.getOrCreateSessionId c er (TS.rs_sm st)) as [sessionId sm1]; cbn [snd] in Hb1.
    destruct (String.eqb sessionId ""); [exact Hb1|].
    pose proof (getEventData_bounded (TS.sm_pools sm1) Hb1) as Hb2.
    destruct (TS.getEventData (TS.sm_pools sm1)) as [obj pools1]; cbn [snd] in Hb2.
    destruct (TS.shouldQueue (TS.er_config er)).
    + destruct (TS.RequestQueue.enqueue _ (TS.rs_queue st)) as [q1 started].
      destruct started as [eventData|]; cbn; exact Hb2.
    + cbn [TS.sendEvent_post TS.post TS.sm_io].
      destruct (TS.axios_resolves _); cbn; apply returnEventData_bounded, Hb2.
  - unfold TS.queue_settle.
    destruct (TS.RequestQueue.worker (TS.rs_queue st)) as [|eventData|]; try exact Hb.
    destruct (TS.rs_inflight st) as [n|]; [|exact Hb].
    destruct (TS.RequestQueue.settle (TS.rs_queue st)) as [q1 started].
    destruct (TS.axios_resolves (TS.collector n)); cbn; apply returnEventData_bounded, Hb.
  - unfold TS.queue_delay_elapsed.
    destruct (TS.RequestQueue.delay_elapsed (TS.rs_queue st)) as [q1 started].
    destruct started as [eventData|]; cbn; exact Hb.
Qed.

End PoolBounds.

(** X12.  The object pools are bounded: whatever the recorder does, neither
    the pool of session records nor the pool of event records ever holds
    more than [maxSize] (ten) records. *)
Theorem pools_stay_bounded (R : Runtime) (E : TS.Env) c er (st0 st : TS.RecState) :
  Bounds.pools_bounded (TS.sm_pools (TS.rs_sm st0)) ->
  rtc (ts_step c er) st0 st ->
  (List.length (TS.sessionDataPool (TS.sm_pools (TS.rs_sm st))) <= 10)%nat
  /\ (List.length (TS.eventDataPool (TS.sm_pools (TS.rs_sm st))) <= 10)%nat.
Proof.
  intros Hb Hsteps. change (Bounds.pools_bounded (TS.sm_pools (TS.rs_sm st))).
  induction Hsteps as [st|st st' st'' Hstep _ IH]; [exact Hb|].
  apply IH, (recorder_step_bounded c er st st' Hstep Hb).
Qed.

Lemma pools_stay_bounded_witness :
  (List.length
     (TS.eventDataPool
        (TS.sm_pools
           (TS.rs_sm
              (snd (@TS.recordEvent Sample.runtime Sample.accepting Sample.http
                      (TS.mkRecorder (Sample.ts_config false false (Some false))
                                     Sample.server_view)
                      "tool" "echo" (JObj []) 3 true JNull Sample.rec0))))) <= 10)%nat.
Proof.
  exact (proj2 (pools_stay_bounded Sample.runtime Sample.accepting Sample.http
                  (TS.mkRecorder (Sample.ts_config false false (Some false)) Sample.server_view)
                  Sample.rec0 _ (conj (Nat.le_0_l _) (Nat.le_0_l _))
                  (rtc_once _ _ (@ts_record Sample.runtime Sample.accepting Sample.http
                                   (TS.mkRecorder (Sample.ts_config false false (Some false))
                                                  Sample.server_view)
                                   "tool" "echo" (JObj []) 3%Z true JNull Sample.rec0)))).
Defined.

(** *** Argument filtering and result classification (core/mcp-utils.ts,
    core/event-recorder.ts) *)

Section FilteringMore.




Lemma filter_arg_shadowed (props : list (string * JsVal)) :
  is_Some (assoc "hasOwnProperty" props) ->
  McpUtils.filter_arg (JObj props) = Throw (JError "arg.hasOwnProperty is not a function").
Proof.
  intros Hs. unfold McpUtils.filter_arg. cbn [typeof_object is_nullish negb andb].
  unfold McpUtils.shadows_hasOwnProperty. rewrite bool_decide_eq_true_2 by exact Hs.
  cbn [andb McpUtils.enumerate].
  assert (He : existsb (fun kv => McpUtils.keep_key (fst kv)) props = true).
  { clear -Hs. induction props as [|[k v] props IH]; [destruct Hs; discriminate|].
    cbn [existsb fst]. cbn [assoc] in Hs.
    destruct (String.eqb_spec "hasOwnProperty" k) as [<-|_]; [reflexivity|].
    rewrite (IH Hs). apply orb_true_r. }
  rewrite He. reflexivity.
Qed.

Lemma filter_arg_throws (arg e : JsVal) :
  McpUtils.filter_arg arg = Throw e -> e = JError "arg.hasOwnProperty is not a function".
Proof.
  unfold McpUtils.filter_arg.
  destruct (typeof_object arg && negb (is_nullish arg)); [|discriminate].
  destruct (McpUtils.shadows_hasOwnProperty arg && _); [|discriminate].
  intros [= <-]. reflexivity.
Qed.

Lemma filterSensitiveArgs_shadowed (args : list JsVal) (props : list (string * JsVal)) :
  In (JObj props) args ->
  is_Some (assoc "hasOwnProperty" props) ->
  McpUtils.filterSensitiveArgs args = Throw (JError "arg.hasOwnProperty is not a function").
Proof.
  intros Hin Hs. induction args as [|arg rest IH]; [destruct Hin|].
  cbn [McpUtils.filterSensitiveArgs].
  destruct Hin as [->|Hin].
  - rewrite (filter_arg_shadowed props Hs). reflexivity.
  - destruct (McpUtils.filter_arg arg) as [a|e] eqn:Ha.
    + rewrite (IH Hin). reflexivity.
    + rewrite (filter_arg_throws arg e Ha). reflexivity.
Qed.

End FilteringMore.



(** X14.  An argument with a property of its own named [hasOwnProperty]
    breaks the wrapper [createWrapper] builds: the filtering of the
    arguments in its [finally] block throws a [TypeError], which replaces
    whatever the wrapped function returned or threw, and no event is
    recorded. *)
Theorem own_hasOwnProperty_breaks_wrapper (R : Runtime) (E : TS.Env) c er
    primitiveType primitiveName func (args : list JsVal) startTime endTime (st : TS.RecState)
    (props : list (string * JsVal)) :
  In (JObj props) args ->
  is_Some (assoc "hasOwnProperty" props) ->
  TS.createWrapper c er primitiveType primitiveName func args startTime endTime st
  = (Throw (JError "arg.hasOwnProperty is not a function"), st).
Proof.
  intros Hin Hs. unfold TS.createWrapper, TS.createWrapper_finally.
  rewrite (filterSensitiveArgs_shadowed args props Hin Hs).
  destruct (func args); reflexivity.
Qed.

Lemma own_hasOwnProperty_breaks_wrapper_witness :
  @TS.createWrapper Sample.runtime Sample.accepting Sample.http
    (TS.mkRecorder (Sample.ts_config false false None) Sample.server_view)
    "tool" "echo" (fun _ => Ret (JStr "done"))
    [JStr "a"; JObj [("hasOwnProperty", JBool true)]] 10 15 Sample.rec0
  = (Throw (JError "arg.hasOwnProperty is not a function"), Sample.rec0).
Proof.
  exact (own_hasOwnProperty_breaks_wrapper Sample.runtime Sample.accepting Sample.http
           (TS.mkRecorder (Sample.ts_config false false None) Sample.server_view)
           "tool" "echo" (fun _ => Ret (JStr "done"))
           [JStr "a"; JObj [("hasOwnProperty", JBool true)]] 10%Z 15%Z Sample.rec0
           [("hasOwnProperty", JBool true)] (or_intror (or_introl eq_refl))
           (ex_intro _ (JBool true) eq_refl)).
Defined.

(** X15.  No false alarm: a result that carries no truthy [isError], whose
    [root] carries none either, and that is not an [Error] instance is
    classified as a success, with an empty message and nothing logged,
    and the wrapped handler records it with [success] set and the result
    itself as the result. *)
Theorem unflagged_result_is_a_success (R : Runtime) (v : JsVal) :
  carries_error_flag v = false ->
  carries_error_flag (get v "root") = false ->
  Bounds.is_error_instance v = false ->
  McpUtils.isMcpErrorResponse v = ((false, JStr ""), [])
  /\ forall toolName, TS.Client.classify toolName (Ret v) = (true, v, []).
Proof.
  intros Hflag Hroot Hinst.
  assert (Hcheck : McpUtils.isMcpErrorResponse v = ((false, JStr ""), [])).
  { unfold McpUtils.isMcpErrorResponse, McpUtils.check_root.
    unfold carries_error_flag in Hroot, Hflag.
    destruct (McpUtils.hasattr v "root"); [rewrite Hroot|];
      unfold McpUtils.check_direct; rewrite Hflag; destruct v; try reflexivity;
      discriminate Hinst. }
  split; [exact Hcheck|].
  intros toolName. unfold TS.Client.classify, TS.Client.try_catch. rewrite Hcheck.
  reflexivity.
Qed.

Lemma unflagged_result_is_a_success_witness :
  @McpUtils.isMcpErrorResponse Sample.runtime
    (JObj [("content", JArr [JObj [("type", JStr "text"); ("text", JStr "error: none")]]);
           ("isError", JBool false)])
  = ((false, JStr ""), []).
Proof.
  exact (proj1 (unflagged_result_is_a_success Sample.runtime
                  (JObj [("content", JArr [JObj [("type", JStr "text");
                                                 ("text", JStr "error: none")]]);
                         ("isError", JBool false)])
                  eq_refl eq_refl eq_refl)).
Defined.

(** *** Analytics client (core/analytics-client.ts) *)

Section ClientLifecycle.
Context `{Runtime}.

Lemma invalid_inputs_rejected server orgId (config : option TS.AgnostConfig) :
  server = None \/ orgId = "" \/ js_trim orgId = "" \/ config = None
  \/ (exists cfg, config = Some cfg /\ TS.endpoint cfg = "") ->
  exists errorMessage,
    TS.Client.validateInitializationInputs server orgId config = Some errorMessage.
Proof.
  intros Hcase. unfold TS.Client.validateInitializationInputs.
  destruct server as [srv|]; [|eexists; reflexivity].
  destruct (String.eqb orgId "" || Nat.eqb (String.length (js_trim orgId)) 0) eqn:Horg;
    [eexists; reflexivity|].
  apply orb_false_iff in Horg as [Ho Ht].
  destruct config as [cfg|]; [|eexists; reflexivity].
  destruct Hcase as [Hs|[->|[Htrim|[Hc|(cfg' & [= <-] & He)]]]]; try discriminate.
  - rewrite Htrim in Ht. discriminate Ht.
  - rewrite He. eexists; reflexivity.
Qed.

Lemma recordEvent_uninitialized primitiveType primitiveName args latency success result
    `{TS.Env} (w : TS.Client.World) :
  TS.Client.initialized (TS.Client.w_self w) = false ->
  TS.Client.recordEvent primitiveType primitiveName args latency success result w
  = (false, TS.Client.w_log LError "AgnostAnalytics not initialized - cannot record event" w).
Proof. intros Hi. unfold TS.Client.recordEvent. rewrite Hi. reflexivity. Qed.

Lemma refresh_request_context_frame request (w : TS.Client.World) :
  let w' := TS.Client.refresh_request_context request w in
  TS.Client.w_io w' = TS.Client.w_io w
  /\ TS.Client.initialized (TS.Client.w_self w') = TS.Client.initialized (TS.Client.w_self w)
  /\ TS.Client.requestQueue (TS.Client.w_self w') = TS.Client.requestQueue (TS.Client.w_self w)
  /\ TS.Client.w_servers w' = TS.Client.w_servers w.
Proof.
  cbn zeta. unfold TS.Client.refresh_request_context.
  destruct (TS.Client.sessionManager (TS.Client.w_self w)); [|tauto].
  destruct (TS.Client.config (TS.Client.w_self w)) as [cfg|]; [|tauto].
  destruct (TS.identify cfg); cbn; tauto.
Qed.

Lemma overrideMcpServer_already_wrapped (w : TS.Client.World) (s : TS.Client.Server)
    (o : TS.Client.ServerObj) (handlers : list (string * TS.Client.Handler)) f :
  TS.Client.overrideApplied (TS.Client.w_self w) = false ->
  TS.Client.w_servers w !! TS.Client.addr s = Some o ->
  TS.Client.requestHandlers o = Some handlers ->
  TS.Client.lookup_handler "tools/call" handlers = Some (TS.Client.Wrapped f) ->
  TS.Client.overrideMcpServer (Some s) w = (true, TS.Client.set_overrideApplied true w).
Proof.
  intros Ha Ho Hh Hl. unfold TS.Client.overrideMcpServer. rewrite Ha.
  unfold TS.Client.object_of. rewrite Ho. cbn [default from_option id]. rewrite Hh, Hl.
  unfold TS.Client.wrapToolCallHandler. cbn [TS.Client.agnostWrapped].
  do 2 f_equal. unfold TS.Client.set_handlers, TS.Client.object_of. rewrite Ho.
  cbn [default from_option id]. destruct w as [io self servers spawned].
  cbn [TS.Client.w_io TS.Client.w_self TS.Client.w_servers TS.Client.w_spawned] in *.
  f_equal. rewrite <- Hh. destruct o. apply insert_id. exact Ho.
Qed.

End ClientLifecycle.

(** X16.  Invalid inputs are refused without a throw and without a trace
    on the host: if the server is missing, the organization id empty or
    blank, the configuration missing or its endpoint empty, [initialize]
    on a client not yet initialized returns [false], and [trackMcp] leaves
    the client, every server object and the list of started sessions as
    they were; all it does is log two errors. *)
Theorem invalid_inputs_leave_server_untracked (R : Runtime) server orgId
    (config : option TS.AgnostConfig) (w : TS.Client.World) :
  TS.Client.initialized (TS.Client.w_self w) = false ->
  server = None \/ orgId = "" \/ js_trim orgId = "" \/ config = None
  \/ (exists cfg, config = Some cfg /\ TS.endpoint cfg = "") ->
  exists errorMessage,
    TS.Client.initialize server orgId config w
    = (false, TS.Client.w_log LError ("Initialization failed: " ++ errorMessage) w)
    /\ TS.Client.trackMcp server orgId config w
       = TS.Client.mkWorld
           (TS.mkIO (TS.log (TS.Client.w_io w)
                     ++ [(LError, ("Initialization failed: " ++ errorMessage)%string);
                         (LError, "Failed to initialize analytics - server remains untracked")])
                    (TS.posted (TS.Client.w_io w)) (TS.uuids_drawn (TS.Client.w_io w)))
           (TS.Client.w_self w) (TS.Client.w_servers w) (TS.Client.w_spawned w).
Proof.
  intros Hi Hcase. destruct (invalid_inputs_rejected server orgId config Hcase) as [msg Hv].
  exists msg.
  assert (Hinit : TS.Client.initialize server orgId config w
                  = (false, TS.Client.w_log LError ("Initialization failed: " ++ msg) w)).
  { unfold TS.Client.initialize. rewrite Hi, Hv. reflexivity. }
  split; [exact Hinit|].
  unfold TS.Client.trackMcp. rewrite Hinit. cbn [negb].
  unfold TS.Client.w_log, TS.logger. cbn. rewrite <- app_assoc. reflexivity.
Qed.

Lemma invalid_inputs_leave_server_untracked_witness :
  TS.Client.w_servers
    (@TS.Client.trackMcp Sample.runtime (Some Sample.server2) "" 
       (Some (Sample.ts_config false false None)) Sample.world0)
  = Sample.servers0.
Proof.
  destruct (invalid_inputs_leave_server_untracked Sample.runtime (Some Sample.server2) ""
              (Some (Sample.ts_config false false None)) Sample.world0 eq_refl
              (or_intror (or_introl eq_refl))) as (msg & _ & Ht).
  rewrite Ht. reflexivity.
Defined.

(** X17.  After [cleanup()] a wrapped tool handler still serves its
    caller but records nothing: no request is posted and none is queued.
    When the tool name converts to a string, the call completes as the
    [try] and [catch] blocks leave it (as the original handler does,
    unless a conversion of the error message for the warning fails) and
    an error "not initialized" is logged; when it does not convert, the
    caller gets the [TypeError] of the conversion, and [recordEvent] is
    not even called. *)
Theorem calls_after_cleanup_are_not_recorded (R : Runtime) (E : TS.Env)
    f request startTime endTime (w : TS.Client.World) :
  is_nullish request = false ->
  let r := TS.Client.wrappedHandler f request startTime endTime (TS.Client.cleanup w) in
  let toolName := TS.Client.toolName_of request in
  TS.posted (TS.Client.w_io (snd r)) = TS.posted (TS.Client.w_io w)
  /\ TS.RequestQueue.queue (TS.Client.requestQueue (TS.Client.w_self (snd r))) = []
  /\ TS.Client.initialized (TS.Client.w_self (snd r)) = false
  /\ TS.Client.w_servers (snd r) = TS.Client.w_servers w
  /\ match to_String toolName with
     | Value name =>
         fst r = fst (TS.Client.try_catch toolName (f request))
         /\ (forall v, f request = Ret v ->
               fst (fst (McpUtils.isMcpErrorResponse v)) = false
               \/ (exists text, to_String (snd (fst (McpUtils.isMcpErrorResponse v)))
                                = Value text) ->
               fst r = Ret v)
         /\ (forall e text, f request = Throw e -> error_text e = Value text ->
               fst r = Throw e)
         /\ TS.log (TS.Client.w_io (snd r))
            = (TS.log (TS.Client.w_io w)
               ++ snd (TS.Client.classify toolName (f request))
               ++ [(LError, "AgnostAnalytics not initialized - cannot record event")])%list
     | TypeError message =>
         fst r = Throw (JError message)
         /\ TS.log (TS.Client.w_io (snd r))
            = (TS.log (TS.Client.w_io w)
               ++ snd (TS.Client.classify toolName (f request)))%list
     end.
Proof.
  intros Hreq. cbn zeta.
  destruct (refresh_request_context_frame request (TS.Client.cleanup w))
    as (Hio & Hinit & Hq & Hsrv).
  cbn zeta in *.
  destruct (to_String (TS.Client.toolName_of request)) as [name|message] eqn:Hname.
  - rewrite (wrappedHandler_unfold f request startTime endTime _ name Hreq Hname).
    cbn [fst snd].
    set (w1 := TS.Client.refresh_request_context request (TS.Client.cleanup w)) in *.
    set (lines := snd (TS.Client.classify (TS.Client.toolName_of request) (f request))).
    rewrite recordEvent_uninitialized by (cbn; rewrite Hinit; reflexivity).
    cbn [snd TS.Client.w_log TS.Client.w_log_all TS.Client.w_io TS.Client.w_self
         TS.Client.w_servers TS.logger TS.logger_all TS.posted TS.log].
    rewrite Hio, Hinit, Hq, Hsrv. cbn [TS.Client.cleanup TS.Client.w_io TS.Client.w_self
      TS.Client.w_servers TS.Client.initialized TS.Client.requestQueue].
    split; [reflexivity|]. split; [reflexivity|]. split; [reflexivity|].
    split; [reflexivity|]. split; [reflexivity|].
    split; [|split].
    + intros v Hv Hcase. rewrite Hv, (try_catch_ret _ v name Hname). cbn zeta.
      destruct Hcase as [Hno|[text Htext]]; [rewrite Hno; reflexivity|].
      destruct (fst (fst (McpUtils.isMcpErrorResponse v))); [|reflexivity].
      rewrite Htext. reflexivity.
    + intros e text He Htext. rewrite He, (try_catch_throw _ e name Hname), Htext.
      reflexivity.
    + rewrite <- app_assoc. reflexivity.
  - rewrite (wrappedHandler_unnamed f request startTime endTime _ message Hreq Hname).
    cbn [fst snd TS.Client.w_log_all TS.Client.w_io TS.Client.w_self
         TS.Client.w_servers TS.logger_all TS.posted TS.log].
    rewrite Hio, Hinit, Hq, Hsrv. cbn [TS.Client.cleanup TS.Client.w_io TS.Client.w_self
      TS.Client.w_servers TS.Client.initialized TS.Client.requestQueue].
    repeat split; reflexivity.
Qed.

Lemma calls_after_cleanup_are_not_recorded_witness :
  fst (@TS.Client.wrappedHandler Sample.runtime Sample.accepting Sample.echo_handler
         Sample.request_search 10 15 (TS.Client.cleanup Sample.world1))
  = Ret (get Sample.request_search "params")
  /\ TS.posted
       (TS.Client.w_io
          (snd (@TS.Client.wrappedHandler Sample.runtime Sample.accepting Sample.echo_handler
                  Sample.request_search 10 15 (TS.Client.cleanup Sample.world1))))
     = [].
Proof.
  destruct (calls_after_cleanup_are_not_recorded Sample.runtime Sample.accepting
              Sample.echo_handler Sample.request_search 10%Z 15%Z Sample.world1 eq_refl)
    as (Hp & _ & _ & _ & Hcall).
  split; [|exact Hp].
  exact (proj1 (proj2 Hcall) (get Sample.request_search "params") eq_refl
               (or_introl eq_refl)).
Defined.

(** X18.  Tracking a server again after [cleanup()] does not wrap its
    handler a second time: when the tools/call handler of the server is
    already the wrapper, [trackMcp] initializes the client anew, marks
    the override as applied and starts an initial session, and leaves
    every server object exactly as it was. *)
Theorem retracking_after_cleanup_wraps_once (R : Runtime) (s : TS.Client.Server) orgId
    (cfg : TS.AgnostConfig) (w : TS.Client.World) (o : TS.Client.ServerObj)
    (handlers : list (string * TS.Client.Handler)) f :
  TS.Client.w_servers w !! TS.Client.addr s = Some o ->
  TS.Client.requestHandlers o = Some handlers ->
  TS.Client.lookup_handler "tools/call" handlers = Some (TS.Client.Wrapped f) ->
  TS.Client.validateInitializationInputs (Some s) orgId (Some cfg) = None ->
  let w' := TS.Client.trackMcp (Some s) orgId (Some cfg) (TS.Client.cleanup w) in
  TS.Client.w_servers w' = TS.Client.w_servers w
  /\ TS.Client.initialized (TS.Client.w_self w') = true
  /\ TS.Client.overrideApplied (TS.Client.w_self w') = true
  /\ TS.Client.sessionManager (TS.Client.w_self w')
     = Some (TS.newSessionManager (TS.identify cfg) JUndefined)
  /\ TS.Client.w_spawned w' = (TS.Client.w_spawned w ++ [Some s])%list
  /\ TS.Client.w_io w' = TS.Client.w_io w.
Proof.
  intros Ho Hh Hl Hv. cbn zeta.
  unfold TS.Client.trackMcp, TS.Client.initialize.
  cbn [TS.Client.cleanup TS.Client.w_self TS.Client.initialized]. rewrite Hv. cbn [negb].
  erewrite (overrideMcpServer_already_wrapped _ s o handlers f); [|reflexivity|exact Ho|exact Hh|exact Hl].
  cbn. repeat split.
Qed.

Lemma retracking_after_cleanup_wraps_once_witness :
  let w := @TS.Client.trackMcp Sample.runtime (Some Sample.server2) "acme"
             (Some (Sample.ts_config false false None)) Sample.world0 in
  TS.Client.requestHandlers (TS.Client.object_of w Sample.server2)
  = Some [("tools/call", TS.Client.Wrapped Sample.echo_handler)]
  /\ TS.Client.w_servers
       (@TS.Client.trackMcp Sample.runtime (Some Sample.server2) "acme"
          (Some (Sample.ts_config false false None)) (TS.Client.cleanup w))
     = TS.Client.w_servers w.
Proof.
  cbn zeta. split; [reflexivity|].
  exact (proj1 (retracking_after_cleanup_wraps_once Sample.runtime Sample.server2 "acme"
                  (Sample.ts_config false false None)
                  (@TS.Client.trackMcp Sample.runtime (Some Sample.server2) "acme"
                     (Some (Sample.ts_config false false None)) Sample.world0)
                  (TS.Client.mkServerObj
                     (Some [("tools/call", TS.Client.Wrapped Sample.echo_handler)])
                     true false 0 0)
                  [("tools/call", TS.Client.Wrapped Sample.echo_handler)]
                  Sample.echo_handler eq_refl eq_refl eq_refl eq_refl)).
Defined.

(** *** Event processor of the Go SDK (events.go) *)

Section GoDelivery.
Context `{Go.Env}.
Variable orgID : string.
Variable config : Go.AgnostConfig.

(** The first [failures] attempts fail and the next one succeeds: the
    loop stops there. *)
Lemma send_attempts_until_success (event : Go.EventData) (failures : nat) :
  forall remaining attempt lastErr io code body,
  (failures < remaining)%nat ->
  (forall n, (Go.do_calls io <= n < Go.do_calls io + failures)%nat ->
             go_attempt_fails (Go.roundTrip n)) ->
  Go.roundTrip (Go.do_calls io + failures) = Go.Response code body ->
  Go.status_2xx code = true ->
  Go.send_attempts orgID config remaining attempt event lastErr io
  = (None,
     Go.mkIO (Go.trace io ++ failing_trace orgID config event (S failures) attempt)
             (Go.log io) (Go.ids_drawn io) (Go.do_calls io + S failures)).
Proof.
  induction failures as [|failures IH];
    intros remaining attempt lastErr io code body Hrem Hfail Hok H2xx;
    (destruct remaining as [|remaining]; [lia|]);
    cbn [Go.send_attempts failing_trace].
  - set (io1 := if (0 <? attempt)%nat then Go.sleep (Go.RetryDelay config) io else io).
    assert (Hc : Go.do_calls io1 = Go.do_calls io)
      by (unfold io1; destruct (0 <? attempt)%nat; reflexivity).
    unfold Go.do_request. rewrite Hc. rewrite Nat.add_0_r in Hok. rewrite Hok, H2xx.
    unfold io1. destruct (0 <? attempt)%nat; cbn; rewrite <- ?app_assoc;
      repeat f_equal; lia.
  - set (io1 := if (0 <? attempt)%nat then Go.sleep (Go.RetryDelay config) io else io).
    assert (Hc : Go.do_calls io1 = Go.do_calls io)
      by (unfold io1; destruct (0 <? attempt)%nat; reflexivity).
    assert (Ht : Go.trace io1
                 = (Go.trace io
                    ++ (if (0 <? attempt)%nat then [Go.Sleep (Go.RetryDelay config)] else []))%list).
    { unfold io1; destruct (0 <? attempt)%nat; simpl;
        [reflexivity | rewrite app_nil_r; reflexivity]. }
    assert (Hl : Go.log io1 = Go.log io /\ Go.ids_drawn io1 = Go.ids_drawn io).
    { unfold io1; destruct (0 <? attempt)%nat; split; reflexivity. }
    destruct Hl as [Hl Hi].
    unfold Go.do_request. pose proof (Hfail (Go.do_calls io1) ltac:(lia)) as Hf.
    set (io2 := Go.mkIO _ _ _ _).
    assert (Hgoal : forall lastErr',
               Go.send_attempts orgID config remaining (S attempt) event lastErr' io2
               = (None,
                  Go.mkIO (Go.trace io
                           ++ (if (0 <? attempt)%nat then [Go.Sleep (Go.RetryDelay config)] else [])
                           ++ Go.Do (Go.Endpoint config ++ "/api/v1/capture-event")%string orgID
                                    (Go.EventPayload event)
                              :: failing_trace orgID config event (S failures) (S attempt))%list
                          (Go.log io) (Go.ids_drawn io) (Go.do_calls io + S (S failures)))).
    { intros lastErr'.
      rewrite (IH remaining (S attempt) lastErr' io2 code body).
      - unfold io2; simpl. rewrite Ht, Hl, Hi, Hc.
        f_equal. f_equal; [|lia]. rewrite <- !app_assoc. reflexivity.
      - lia.
      - intros n Hn. apply Hfail. unfold io2 in Hn; simpl in Hn. lia.
      - unfold io2; simpl. rewrite Hc. rewrite <- Hok. f_equal. lia.
      - exact H2xx. }
    destruct (Go.roundTrip (Go.do_calls io1)) as [err|code' body']; simpl in Hf.
    + apply Hgoal.
    + rewrite Hf. apply Hgoal.
Qed.

Lemma failing_trace_requests (event : Go.EventData) (remaining : nat) :
  forall attempt,
  List.length (filter (fun a => Go.is_do a = true)
                      (failing_trace orgID config event remaining attempt)) = remaining.
Proof.
  induction remaining as [|remaining IH]; intros attempt; [reflexivity|].
  cbn [failing_trace]. rewrite filter_app, length_app, filter_cons_True by reflexivity.
  cbn [List.length]. rewrite IH.
  destruct (0 <? attempt)%nat; reflexivity.
Qed.

Lemma GetOrCreateSession_step_ep tools info (pc : Go.Pc) (w : Go.World) :
  Go.w_ep (snd (Go.GetOrCreateSession_step orgID config tools info pc w)) = Go.w_ep w.
Proof.
  unfold Go.GetOrCreateSession_step.
  destruct pc as [|sessionID n|sessionID|sessionID err]; cbn [snd]; try reflexivity.
  - destruct (Go.w_sessions w !! _); [reflexivity|].
    destruct (Go.createSession_begin orgID config tools _ (Go.w_io w)); reflexivity.
  - destruct (Go.createSession_finish sessionID n (Go.w_io w)); reflexivity.
Qed.

Lemma GetOrCreateSession_ep tools info (w : Go.World) :
  Go.w_ep (snd (Go.GetOrCreateSession orgID config tools info w)) = Go.w_ep w.
Proof.
  unfold Go.GetOrCreateSession.
  assert (Hrun : forall fuel pc w0,
             Go.w_ep (snd (Go.GetOrCreateSession_run orgID config tools fuel info pc w0))
             = Go.w_ep w0).
  { induction fuel as [|fuel IH]; intros pc w0; [reflexivity|].
    cbn [Go.GetOrCreateSession_run].
    pose proof (GetOrCreateSession_step_ep tools info pc w0) as Hs.
    destruct (Go.GetOrCreateSession_step orgID config tools info pc w0) as [pc1 w1].
    cbn [snd] in Hs. rewrite IH. exact Hs. }
  apply Hrun.
Qed.

(** [RecordEvent] touches the processor only by appending to the channel,
    and only while the channel has room. *)
Lemma RecordEvent_ep tools primitiveType primitiveName args latency success result
    (w : Go.World) :
  let w' := snd (Go.RecordEvent orgID config tools primitiveType primitiveName args latency
                                success result w) in
  Go.batchQueue (Go.w_ep w') = Go.batchQueue (Go.w_ep w)
  /\ (Go.queue (Go.w_ep w') = Go.queue (Go.w_ep w)
      \/ (List.length (Go.queue (Go.w_ep w)) < Go.queue_capacity)%nat
         /\ exists event, Go.queue (Go.w_ep w') = (Go.queue (Go.w_ep w) ++ [event])%list).
Proof.
  cbn zeta. unfold Go.RecordEvent.
  destruct (negb (Go.w_initialized w)); [cbn; auto|].
  pose proof (GetOrCreateSession_ep tools (Some Go.GetSessionInfo) w) as Hep.
  destruct (Go.GetOrCreateSession orgID config tools (Some Go.GetSessionInfo) w) as [pc w1].
  cbn [snd] in Hep.
  destruct pc as [|sessionID n|sessionID|sessionID [err|]]; cbn [snd]; rewrite <- ?Hep; auto.
  destruct (Go.EnableRequestQueuing config).
  - cbn [snd]. unfold Go.QueueEvent.
    destruct (decide (List.length (Go.queue (Go.w_ep w1)) < Go.queue_capacity)%nat) as [Hlt|Hge];
      cbn; [|auto].
    split; [reflexivity|]. right. split; [exact Hlt|]. eexists; reflexivity.
  - destruct (Go.sendEvent orgID config _ (Go.w_io w1)) as [[e|] io1]; cbn; auto.
Qed.

Lemma flushBatch_ep (w : Go.World) :
  Go.queue (Go.w_ep (Go.flushBatch orgID config w)) = Go.queue (Go.w_ep w)
  /\ Go.batchQueue (Go.w_ep (Go.flushBatch orgID config w)) = [].
Proof.
  unfold Go.flushBatch. destruct (Go.batchQueue (Go.w_ep w)) eqn:Hb; cbn; auto.
Qed.

Lemma Flush_ep (w : Go.World) :
  Go.queue (Go.w_ep (Go.Flush orgID config w)) = Go.queue (Go.w_ep w)
  /\ (Go.batchQueue (Go.w_ep (Go.Flush orgID config w)) = []).
Proof.
  unfold Go.Flush. destruct (Go.batchQueue (Go.w_ep w)) eqn:Hb; [auto|].
  apply flushBatch_ep.
Qed.

Lemma go_step_bounds tools (w w' : Go.World) :
  go_step orgID config tools w w' ->
  ((List.length (Go.queue (Go.w_ep w)) <= Go.queue_capacity)%nat ->
   (List.length (Go.queue (Go.w_ep w')) <= Go.queue_capacity)%nat)
  /\ ((Z.of_nat (List.length (Go.batchQueue (Go.w_ep w))) < Z.max 1 (Go.BatchSize config))%Z ->
      (Z.of_nat (List.length (Go.batchQueue (Go.w_ep w'))) < Z.max 1 (Go.BatchSize config))%Z).
Proof.
  intros Hstep.
  destruct Hstep as [primitiveType primitiveName args latency success result w|w|w|w].
  - destruct (RecordEvent_ep tools primitiveType primitiveName args latency success result w)
      as [Hb Hq]. cbn zeta in Hb, Hq.
    split; [|rewrite Hb; auto].
    destruct Hq as [->|[Hlt [event ->]]]; [auto|].
    intros _. rewrite length_app. cbn [List.length]. lia.
  - unfold Go.worker_receive.
    destruct (Go.queue (Go.w_ep w)) as [|event rest] eqn:Hqueue; [rewrite Hqueue; tauto|].
    cbn [Go.with_ep Go.w_ep Go.batchQueue Go.queue].
    destruct (Z.leb_spec (Go.BatchSize config)
                (Z.of_nat (List.length (Go.batchQueue (Go.w_ep w) ++ [event])))) as [Hle|Hgt].
    + destruct (flushBatch_ep
                  (Go.with_ep (Go.mkProcessor rest (Go.batchQueue (Go.w_ep w) ++ [event])) w))
        as [Hq Hb].
      rewrite Hq, Hb. cbn. split; intros; lia.
    + cbn. split; intros; lia.
  - unfold Go.worker_tick. destruct (Flush_ep w) as [Hq Hb]. rewrite Hq, Hb. cbn.
    split; intros; lia.
  - destruct (Flush_ep w) as [Hq Hb]. rewrite Hq, Hb. cbn. split; intros; lia.
Qed.

End GoDelivery.

(** X19.  [sendEvent] stops at the first attempt the collector answers
    with a 2xx status: after [failures] failed attempts and one good one
    it returns no error, having made [failures + 1] requests with a pause
    of [RetryDelay] before each but the first.  With a negative
    [MaxRetries] it makes no request at all and returns an error. *)
Theorem event_is_sent_until_first_success (E : Go.Env) (orgID : string)
    (config : Go.AgnostConfig) (event : Go.EventData) :
  (forall (io : Go.IO) (failures : nat) code body,
      Go.url_ok (Go.Endpoint config ++ "/api/v1/capture-event") = true ->
      (Z.of_nat failures <= Go.MaxRetries config)%Z ->
      (forall n, (Go.do_calls io <= n < Go.do_calls io + failures)%nat ->
                 go_attempt_fails (Go.roundTrip n)) ->
      Go.roundTrip (Go.do_calls io + failures) = Go.Response code body ->
      Go.status_2xx code = true ->
      Go.sendEvent orgID config event io
      = (None,
         Go.mkIO (Go.trace io ++ Bounds.retry_trace orgID config event failures)
                 (Go.log io) (Go.ids_drawn io) (Go.do_calls io + S failures))
      /\ List.length (filter (fun a => Go.is_do a = true)
                             (Bounds.retry_trace orgID config event failures))
         = S failures
      /\ List.length (filter (fun a => Go.is_do a = false)
                             (Bounds.retry_trace orgID config event failures))
         = failures)
  /\ (forall (io : Go.IO),
        Go.url_ok (Go.Endpoint config ++ "/api/v1/capture-event") = true ->
        (Go.MaxRetries config < 0)%Z ->
        Go.sendEvent orgID config event io
        = (Some ("failed after " ++ pretty (Go.MaxRetries config) ++ " retries: <nil>"), io)).
Proof.
  split.
  - intros io failures code body Hurl Hmax Hfail Hok H2xx.
    split; [|split].
    + unfold Go.sendEvent. rewrite Hurl. cbn [negb].
      apply (send_attempts_until_success orgID config event failures _ 0%nat "<nil>" io code body);
        [lia|exact Hfail|exact Hok|exact H2xx].
    + apply failing_trace_requests.
    + unfold Bounds.retry_trace.
      assert (Hs : forall k attempt,
                 List.length (filter (fun a => Go.is_do a = false)
                                     (failing_trace orgID config event k attempt))
                 = (if (0 <? attempt)%nat then k else pred k)).
      { induction k as [|k IH]; intros attempt;
          [destruct (0 <? attempt)%nat; reflexivity|].
        cbn [failing_trace]. rewrite filter_app, length_app, filter_cons_False by discriminate.
        rewrite IH. destruct attempt; [reflexivity|].
        change (0 <? S attempt)%nat with true. cbn iota.
        rewrite filter_cons_True by reflexivity. reflexivity. }
      rewrite Hs. reflexivity.
  - intros io Hurl Hneg. unfold Go.sendEvent. rewrite Hurl. cbn [negb].
    replace (Z.to_nat (Go.MaxRetries config + 1)) with 0%nat by lia.
    reflexivity.
Qed.

Lemma event_is_sent_until_first_success_witness :
  @Go.sendEvent Examples.go_recovering "acme" (Sample.go_config false false false 2)
    (Go.mkEventData "s" "tool" "echo" 1 true "" "") Sample.go_io0
  = (None,
     Go.mkIO [Go.Do "https://api.agnost.ai/api/v1/capture-event" "acme"
                    (Go.EventPayload (Go.mkEventData "s" "tool" "echo" 1 true "" ""));
              Go.Sleep 1000;
              Go.Do "https://api.agnost.ai/api/v1/capture-event" "acme"
                    (Go.EventPayload (Go.mkEventData "s" "tool" "echo" 1 true "" ""))]
             [] 0 2).
Proof.
  refine (proj1 (proj1 (event_is_sent_until_first_success Examples.go_recovering "acme"
                          (Sample.go_config false false false 2)
                          (Go.mkEventData "s" "tool" "echo" 1 true "" ""))
                   Sample.go_io0 1%nat 200%Z (Some "ok") eq_refl _ _ eq_refl eq_refl)).
  - cbn. lia.
  - intros n Hn. cbn in Hn. assert (n = 0%nat) as -> by lia. reflexivity.
Defined.

(** X20.  The channel of the event processor never holds more than its
    capacity of 100 events, whatever is recorded, received or flushed.
    When it is full, [RecordEvent] drops the event: it logs a warning,
    leaves the channel as it is and still reports no error to its
    caller. *)
Theorem go_queue_stays_within_capacity (E : Go.Env) (orgID : string) (config : Go.AgnostConfig)
    (tools : list string) :
  (forall w0 w,
      (List.length (Go.queue (Go.w_ep w0)) <= 100)%nat ->
      rtc (go_step orgID config tools) w0 w ->
      (List.length (Go.queue (Go.w_ep w)) <= 100)%nat)
  /\ (forall w sessionID primitiveType primitiveName args latency success result,
        go_ready w sessionID ->
        Go.EnableRequestQueuing config = true ->
        List.length (Go.queue (Go.w_ep w)) = 100%nat ->
        Go.RecordEvent orgID config tools primitiveType primitiveName args latency success
                       result w
        = (None,
           Go.with_io (Go.Warning ("Event queue full, event dropped: " ++ primitiveType ++ "/"
                                   ++ primitiveName) (Go.w_io w)) w)).
Proof.
  split.
  - intros w0 w Hb Hsteps. change 100%nat with Go.queue_capacity in *.
    induction Hsteps as [w|w w' w'' Hstep _ IH]; [exact Hb|].
    apply IH, (proj1 (go_step_bounds orgID config tools w w' Hstep) Hb).
  - intros w sessionID primitiveType primitiveName args latency success result
           [Hinit Hsess] Hq Hfull.
    unfold Go.RecordEvent. rewrite Hinit. cbn [negb].
    rewrite (GetOrCreateSession_cached orgID config tools w sessionID Hsess), Hq.
    unfold Go.QueueEvent.
    destruct (decide (List.length (Go.queue (Go.w_ep w)) < Go.queue_capacity)%nat) as [Hlt|_];
      [unfold Go.queue_capacity in Hlt; lia|].
    reflexivity.
Qed.

(** X21.  The batch of the worker stays below the batch size: from an
    empty batch, whatever is recorded, received or flushed, the batch
    holds fewer than [BatchSize] events, and with a [BatchSize] of one or
    less (the zero value included) it is empty after every step, each
    event being sent as soon as it is received. *)
Theorem go_batch_stays_below_batch_size (E : Go.Env) (orgID : string) (config : Go.AgnostConfig)
    (tools : list string) (w0 w : Go.World) :
  Go.batchQueue (Go.w_ep w0) = [] ->
  rtc (go_step orgID config tools) w0 w ->
  (Z.of_nat (List.length (Go.batchQueue (Go.w_ep w))) < Z.max 1 (Go.BatchSize config))%Z
  /\ ((Go.BatchSize config <= 1)%Z -> Go.batchQueue (Go.w_ep w) = []).
Proof.
  intros Hb Hsteps.
  assert (Hinv : (Z.of_nat (List.length (Go.batchQueue (Go.w_ep w)))
                  < Z.max 1 (Go.BatchSize config))%Z).
  { assert (H0 : (Z.of_nat (List.length (Go.batchQueue (Go.w_ep w0)))
                  < Z.max 1 (Go.BatchSize config))%Z) by (rewrite Hb; cbn; lia).
    clear Hb. induction Hsteps as [w|w w' w'' Hstep _ IH]; [exact H0|].
    apply IH, (proj2 (go_step_bounds orgID config tools w w' Hstep) H0). }
  split; [exact Hinv|].
  intros Hsmall. apply length_zero_iff_nil. lia.
Qed.

Lemma go_batch_stays_below_batch_size_witness :
  Go.batchQueue
    (Go.w_ep
       (@Go.worker_receive Sample.go_accepting "acme" (Sample.go_config false false true 2)
          (Go.with_ep (Go.mkProcessor [Go.mkEventData "s" "tool" "echo" 1 true "" ""] [])
                      Sample.go_world0)))
  = [Go.mkEventData "s" "tool" "echo" 1 true "" ""]
  /\ (1 < Z.max 1 5)%Z.
Proof.
  split; [reflexivity|].
  exact (proj1 (go_batch_stays_below_batch_size Sample.go_accepting "acme"
                  (Sample.go_config false false true 2) []
                  (Go.with_ep (Go.mkProcessor [Go.mkEventData "s" "tool" "echo" 1 true "" ""] [])
                              Sample.go_world0)
                  _ eq_refl
                  (rtc_once _ _ (@go_receive Sample.go_accepting "acme"
                                   (Sample.go_config false false true 2) []
                                   (Go.with_ep
                                      (Go.mkProcessor
                                         [Go.mkEventData "s" "tool" "echo" 1 true "" ""] [])
                                      Sample.go_world0))))).
Defined.

Lemma go_queue_stays_within_capacity_witness :
  @Go.RecordEvent Sample.go_accepting "acme" (Sample.go_config false false true 2) []
    "tool" "search" Go.AnyNil 3 true Go.AnyNil Examples.go_world_full
  = (None,
     Go.with_io (Go.Warning "Event queue full, event dropped: tool/search" Sample.go_io0)
                Examples.go_world_full).
Proof.
  exact (proj2 (go_queue_stays_within_capacity Sample.go_accepting "acme"
                  (Sample.go_config false false true 2) [])
           Examples.go_world_full "id-0" "tool" "search" Go.AnyNil 3%Z true Go.AnyNil
           (conj eq_refl eq_refl) eq_refl eq_refl).
Defined.

(** *** Client of the Go SDK (analytics.go, adapter.go, agnost.go) *)

Section GoClientLifecycle.

Lemma with_mu_unlock (w : GoClient.World) :
  GoClient.mu w = false -> GoClient.with_mu false (GoClient.with_mu true w) = w.
Proof. intros Hm. destruct w. cbn in *. subst. reflexivity. Qed.

Lemma Lock_free (w : GoClient.World) :
  GoClient.mu w = false -> GoClient.Lock w = Some (GoClient.with_mu true w).
Proof. intros Hm. unfold GoClient.Lock. rewrite Hm. reflexivity. Qed.

Lemma Unlock_held (w : GoClient.World) :
  GoClient.mu w = false -> GoClient.Unlock (GoClient.with_mu true w) = Some w.
Proof. intros Hm. unfold GoClient.Unlock. cbn [GoClient.with_mu GoClient.mu].
  fold (GoClient.with_mu true w). rewrite (with_mu_unlock w Hm). reflexivity. Qed.

(** [Initialize] with a bad input returns its error and changes
    nothing. *)
Lemma Initialize_rejects (s : option nat) (orgID : string) (config : option Go.AgnostConfig)
    (w : GoClient.World) :
  GoClient.mu w = false ->
  Go.w_initialized (GoClient.core w) = false ->
  s = None \/ orgID = "" ->
  exists err, GoClient.Initialize s orgID config w = GoClient.Returns (Some err, w).
Proof.
  intros Hm Hi Hcase. unfold GoClient.Initialize, GoClient.Lock. rewrite Hm.
  unfold GoClient.Initialize_locked. cbn [GoClient.with_mu GoClient.core]. rewrite Hi.
  destruct s as [srv|].
  - destruct Hcase as [Hs| ->]; [discriminate Hs|]. cbn [String.eqb].
    eexists. unfold GoClient.deferred_Unlock, GoClient.Unlock. cbn [snd fst GoClient.mu].
    fold (GoClient.with_mu true w). rewrite (with_mu_unlock w Hm). reflexivity.
  - eexists. unfold GoClient.deferred_Unlock, GoClient.Unlock. cbn [snd fst GoClient.mu].
    fold (GoClient.with_mu true w). rewrite (with_mu_unlock w Hm). reflexivity.
Qed.





End GoClientLifecycle.

(** X22.  [TrackMCP] (and so [Track]) on a client not yet initialized does
    not survive a bad input.  [Initialize] itself returns an error for a
    nil server or an empty organization id and changes nothing; but
    [TrackMCP] has released its mutex around that call and returns
    without taking it again, so its deferred [Unlock] finds the mutex
    unlocked, which stops the program with a fatal error instead of
    handing the error to the caller. *)
Theorem track_with_bad_input_is_fatal (s : option nat) (orgID : string)
    (config : option Go.AgnostConfig) (w : GoClient.World) :
  GoClient.mu w = false ->
  GoClient.overrideApplied w = false ->
  Go.w_initialized (GoClient.core w) = false ->
  s = None \/ orgID = "" ->
  (exists err, GoClient.Initialize s orgID config w = GoClient.Returns (Some err, w))
  /\ GoClient.TrackMCP s orgID config w
     = GoClient.Crashes "fatal error: sync: Unlock of unlocked RWMutex"
  /\ GoClient.Track s orgID config w
     = GoClient.Crashes "fatal error: sync: Unlock of unlocked RWMutex".
Proof.
  intros Hm Ha Hi Hcase.
  assert (Htrack : forall config',
             GoClient.TrackMCP s orgID config' w
             = GoClient.Crashes "fatal error: sync: Unlock of unlocked RWMutex").
  { intros config'. destruct (Initialize_rejects s orgID config' w Hm Hi Hcase) as [err Herr].
    unfold GoClient.TrackMCP. rewrite (Lock_free w Hm).
    unfold GoClient.TrackMCP_locked.
    change (GoClient.overrideApplied (GoClient.with_mu true w)) with (GoClient.overrideApplied w).
    change (GoClient.core (GoClient.with_mu true w)) with (GoClient.core w).
    rewrite Ha, Hi, (Unlock_held w Hm), Herr.
    unfold GoClient.deferred_Unlock, GoClient.Unlock.
    cbn [snd GoClient.with_core GoClient.mu]. rewrite Hm. reflexivity. }
  split; [exact (Initialize_rejects s orgID config w Hm Hi Hcase)|].
  split; [apply Htrack|apply Htrack].
Qed.

Lemma track_with_bad_input_is_fatal_witness :
  GoClient.Track (Some 1%nat) "" None (GoClient.NewAgnostAnalytics Examples.go_servers)
  = GoClient.Crashes "fatal error: sync: Unlock of unlocked RWMutex".
Proof.
  exact (proj2 (proj2 (track_with_bad_input_is_fatal (Some 1%nat) "" None
                         (GoClient.NewAgnostAnalytics Examples.go_servers)
                         eq_refl eq_refl eq_refl (or_intror eq_refl)))).
Defined.



(** *** Clearing the request queue (network/request-queue.ts) *)

(** X24.  [clear()] discards the requests that wait and only those: after
    it, however long the queue goes on, the request that was in flight
    settles, none of the discarded requests is ever started, and the
    worker ends idle with nothing waiting. *)
Theorem cleared_requests_are_never_started (R : Type) (events : list (QueueLoop.Event R))
    (k : nat) :
  let s := QueueLoop.run events QueueLoop.init in
  let s' := QueueLoop.run (QueueLoop.Clear :: QueueRuns.rounds (S k)) s in
  QueueLoop.settled s' = (QueueLoop.settled s ++ QueueLoop.in_flight (QueueLoop.rq s))%list
  /\ QueueLoop.in_flight (QueueLoop.rq s') = []
  /\ TS.RequestQueue.queue (QueueLoop.rq s') = []
  /\ TS.RequestQueue.isProcessing (QueueLoop.rq s') = false.
Proof.
  cbn zeta. set (s := QueueLoop.run events QueueLoop.init).
  change (QueueLoop.run (QueueLoop.Clear :: QueueRuns.rounds (S k)) s)
    with (QueueLoop.run (QueueRuns.rounds (S k)) (QueueLoop.step s QueueLoop.Clear)).
  assert (Hs : QueueRuns.consistent (QueueLoop.rq s))
    by (apply queue_run_consistent, queue_init_consistent).
  destruct (queue_rounds_drain k (QueueLoop.step s QueueLoop.Clear)
              (queue_step_consistent s QueueLoop.Clear Hs) ltac:(cbn; lia))
    as (Hw & Hq & Hp & Hset).
  cbn zeta in *. rewrite Hset. unfold QueueLoop.in_flight at 2. rewrite Hw.
  repeat split; try assumption.
  unfold QueueRuns.delivery_order. cbn. rewrite app_nil_r. reflexivity.
Qed.

(** *** Who learns of a failed delivery (core/event-recorder.ts, analytics.go) *)

Section Reporting.
Context `{Runtime} `{TS.Env}.

Lemma recordEvent_synchronous c er (st : TS.RecState) sessionId
    primitiveType primitiveName args latency success result :
  TS.sessionIds (TS.sm_self (TS.rs_sm st)) !! TS.sv_sessionKey (TS.er_server er) = Some sessionId ->
  sessionId <> "" ->
  TS.shouldQueue (TS.er_config er) = false ->
  let ev := TS.buildEventData c (TS.er_config er) sessionId primitiveType primitiveName args
                              latency success result in
  let r := TS.recordEvent c er primitiveType primitiveName args latency success result st in
  fst r = Bounds.accepts_next (TS.rs_io st)
  /\ TS.posted (TS.rs_io (snd r))
     = (TS.posted (TS.rs_io st)
        ++ [TS.PostEvent (TS.baseUrl c ++ "/api/v1/capture-event")%string (TS.orgId c) ev])%list
  /\ TS.rs_queue (snd r) = TS.rs_queue st
  /\ TS.log (TS.rs_io (snd r))
     = (TS.log (TS.rs_io st)
        ++ (if Bounds.accepts_next (TS.rs_io st) then []
            else [(LError,
                   ("Failed to record event: "
                    ++ TS.axios_error_message
                         (TS.collector (List.length (TS.posted (TS.rs_io st)))))%string)]))%list.
Proof.
  intros Hs Hne Hq. cbn zeta. unfold TS.recordEvent.
  rewrite (getOrCreateSessionId_cached c er (TS.rs_sm st) sessionId Hs Hne).
  destruct (String.eqb_spec sessionId "") as [->|_]; [contradiction|].
  destruct (TS.getEventData (TS.sm_pools (TS.rs_sm st))) as [obj pools1].
  rewrite Hq. unfold Bounds.accepts_next, TS.rs_io.
  cbn [TS.sendEvent_post TS.post TS.sm_io].
  destruct (TS.axios_resolves (TS.collector (List.length (TS.posted (TS.sm_io (TS.rs_sm st))))));
    cbn; rewrite ?app_nil_r; repeat split; reflexivity.
Qed.

End Reporting.

(** X25.  Only recording without the queue tells the caller whether the
    event was delivered.  With request queuing disabled, [recordEvent]
    posts the event at once and returns [true] if the collector takes it
    and [false], after logging an error, if not; with queuing enabled it
    returns [true] as soon as the event is queued or started.  The Go
    [RecordEvent] likewise returns the error of [sendEvent] when queuing
    is disabled, and [nil] when it is enabled, even if the event is
    dropped because the channel is full. *)
Theorem delivery_failure_reaches_caller_only_without_queue :
  (forall (R : Runtime) (E : TS.Env) c er (st : TS.RecState) sessionId
          primitiveType primitiveName args latency success result,
      TS.sessionIds (TS.sm_self (TS.rs_sm st)) !! TS.sv_sessionKey (TS.er_server er)
      = Some sessionId ->
      sessionId <> "" ->
      let ev := TS.buildEventData c (TS.er_config er) sessionId primitiveType primitiveName args
                                  latency success result in
      let r := TS.recordEvent c er primitiveType primitiveName args latency success result st in
      (TS.shouldQueue (TS.er_config er) = false ->
       fst r = Bounds.accepts_next (TS.rs_io st)
       /\ TS.posted (TS.rs_io (snd r))
          = (TS.posted (TS.rs_io st)
             ++ [TS.PostEvent (TS.baseUrl c ++ "/api/v1/capture-event")%string (TS.orgId c) ev])%list
       /\ TS.rs_queue (snd r) = TS.rs_queue st)
      /\ (TS.shouldQueue (TS.er_config er) = true -> fst r = true /\ In ev (events_of (snd r))))
  /\ (forall (E : Go.Env) orgID config tools (w : Go.World) sessionID
             primitiveType primitiveName args latency success result,
        go_ready w sessionID ->
        let event := Go.mkEventData sessionID primitiveType primitiveName latency success
                       (Go.encode_unless (Go.DisableInput config) args)
                       (Go.encode_unless (Go.DisableOutput config) result) in
        let r := Go.RecordEvent orgID config tools primitiveType primitiveName args latency
                                success result w in
        (Go.EnableRequestQueuing config = false ->
         fst r = fst (Go.sendEvent orgID config event (Go.w_io w))
         /\ Go.w_ep (snd r) = Go.w_ep w)
        /\ (Go.EnableRequestQueuing config = true ->
            fst r = None /\ Go.trace (Go.w_io (snd r)) = Go.trace (Go.w_io w))).
Proof.
  split.
  - intros R E c er st sessionId primitiveType primitiveName args latency success result
           Hs Hne. cbn zeta. split.
    + intros Hq.
      destruct (recordEvent_synchronous c er st sessionId primitiveType primitiveName args
                  latency success result Hs Hne Hq) as (Hf & Hp & Hqueue & _).
      cbn zeta in *. auto.
    + intros Hq. split.
      * unfold TS.recordEvent.
        rewrite (getOrCreateSessionId_cached c er (TS.rs_sm st) sessionId Hs Hne).
        destruct (String.eqb_spec sessionId "") as [->|_]; [contradiction|].
        destruct (TS.getEventData (TS.sm_pools (TS.rs_sm st))) as [obj pools1].
        rewrite Hq.
        destruct (TS.RequestQueue.enqueue _ (TS.rs_queue st)) as [q1 started].
        destruct (TS.start_queued c started _) as [n sm3]. reflexivity.
      * apply recorder_submits; assumption.
  - intros E orgID config tools w sessionID primitiveType primitiveName args latency success
           result [Hinit Hsess]. cbn zeta.
    unfold Go.RecordEvent. rewrite Hinit. cbn [negb].
    rewrite (GetOrCreateSession_cached orgID config tools w sessionID Hsess).
    split; intros Hq; rewrite Hq.
    + destruct (Go.sendEvent orgID config _ (Go.w_io w)) as [[e|] io1]; cbn; auto.
    + cbn [fst snd]. split; [reflexivity|]. unfold Go.QueueEvent.
      destruct (decide _); reflexivity.
Qed.

Lemma delivery_failure_reaches_caller_only_without_queue_witness :
  fst (@TS.recordEvent Sample.runtime Sample.failing Sample.http
         (TS.mkRecorder (Sample.ts_config false false (Some false)) Sample.server_view)
         "tool" "echo" (JObj []) 3 true JNull Examples.rec_with_session) = false
  /\ fst (@TS.recordEvent Sample.runtime Sample.failing Sample.http
            (TS.mkRecorder (Sample.ts_config false false None) Sample.server_view)
            "tool" "echo" (JObj []) 3 true JNull Examples.rec_with_session) = true.
Proof.
  split.
  - exact (proj1 (proj1 (proj1 delivery_failure_reaches_caller_only_without_queue
                           Sample.runtime Sample.failing Sample.http
                           (TS.mkRecorder (Sample.ts_config false false (Some false))
                                          Sample.server_view)
                           Examples.rec_with_session "uuid-0" "tool" "echo" (JObj []) 3%Z true
                           JNull eq_refl ltac:(discriminate)) eq_refl)).
  - exact (proj1 (proj2 (proj1 delivery_failure_reaches_caller_only_without_queue
                           Sample.runtime Sample.failing Sample.http
                           (TS.mkRecorder (Sample.ts_config false false None)
                                          Sample.server_view)
                           Examples.rec_with_session "uuid-0" "tool" "echo" (JObj []) 3%Z true
                           JNull eq_refl ltac:(discriminate)) eq_refl)).
Defined.

(** *** Session creation that cannot start (session.go, analytics.go) *)



(** *** Entry points of the TypeScript SDK (index.ts, core/analytics-client.ts) *)

(** X27.  What [configureFromEnv] yields.  It throws exactly when
    AGNOST_ORG_ID is unset or empty.  Otherwise the endpoint is never
    empty, input and output are disabled only by the exact text "true",
    queuing is disabled only by the exact text "false", and the
    configuration passes the validation of [initialize] for any server
    unless the organization id is blank. *)
Theorem configuration_from_environment (R : Runtime) (parseInt : string -> option Z)
    (env : gmap string string) :
  match Index.configureFromEnv parseInt env with
  | Throw e =>
      e = JError "AGNOST_ORG_ID environment variable is required"
      /\ (env !! "AGNOST_ORG_ID" = None \/ env !! "AGNOST_ORG_ID" = Some "")
  | Ret (orgId, config) =>
      env !! "AGNOST_ORG_ID" = Some orgId /\ orgId <> ""
      /\ TS.endpoint config <> ""
      /\ (TS.disableInput config = true <-> env !! "AGNOST_DISABLE_INPUT" = Some "true")
      /\ (TS.disableOutput config = true <-> env !! "AGNOST_DISABLE_OUTPUT" = Some "true")
      /\ (TS.shouldQueue config = false
          <-> env !! "AGNOST_ENABLE_REQUEST_QUEUING" = Some "false")
      /\ (forall server,
            TS.Client.validateInitializationInputs (Some server) orgId (Some config) = None
            <-> js_trim orgId <> "")
  end.
Proof.
  assert (Hstr : forall s : string, String.length s = 0%nat <-> s = "")
    by (intros s; destruct s; split; intros Hs; first [reflexivity | discriminate Hs]).
  assert (His : forall (v : option string) text, Index.env_is v text = true <-> v = Some text).
  { intros [s|] text; cbn; [|split; discriminate].
    destruct (String.eqb_spec s text) as [->|Hne]; split; intros Hs;
      first [reflexivity | discriminate Hs | congruence]. }
  unfold Index.configureFromEnv.
  destruct (env !! "AGNOST_ORG_ID") as [org|] eqn:Horg; [|split; [reflexivity|left; reflexivity]].
  destruct (String.eqb_spec org "") as [->|Hne]; [split; [reflexivity|right; reflexivity]|].
  cbn [Index.createConfig Index.p_endpoint Index.p_disableInput Index.p_disableOutput
       Index.p_enableRequestQueuing default from_option id TS.endpoint TS.disableInput
       TS.disableOutput].
  assert (Hend : Index.env_or (env !! "AGNOST_ENDPOINT") "https://api.agnost.ai" <> "").
  { unfold Index.env_or. destruct (env !! "AGNOST_ENDPOINT") as [s|]; [|discriminate].
    destruct (String.eqb_spec s ""); [discriminate|assumption]. }
  split; [reflexivity|]. split; [exact Hne|]. split; [exact Hend|].
  split; [apply His|]. split; [apply His|].
  split.
  - unfold TS.shouldQueue. cbn [Index.spread TS.enableRequestQueuing].
    rewrite <- His.
    destruct (Index.env_is (env !! "AGNOST_ENABLE_REQUEST_QUEUING") "false"); cbn;
      split; congruence.
  - intros server. unfold TS.Client.validateInitializationInputs.
    cbn [TS.endpoint Index.createConfig Index.p_endpoint default from_option id].
    destruct (String.eqb_spec org "") as [->|_]; [contradiction|]. cbn [orb].
    destruct (Nat.eqb_spec (String.length (js_trim org)) 0) as [Hz|Hnz].
    + split; [discriminate|]. intros Ht. apply Hstr in Hz. contradiction.
    + destruct (String.eqb_spec (Index.env_or (env !! "AGNOST_ENDPOINT") "https://api.agnost.ai")
                                "") as [He|_]; [contradiction|].
      split; [|reflexivity]. intros _ Ht. apply Hnz, Hstr, Ht.
Qed.

Section Wrapping.
Context `{Runtime} `{TS.Env}.



End Wrapping.


